(* ===== verification/_CoqProject ===== *)
-Q . S2P
Prelude.v
Json.v
Express.v
Store.v
Dishes.v
Orders.v
App.v
Lifecycle.v
Routing.v
