(* ===== verification/Prelude.v ===== *)
(** * A verification development of the grub-dash back end

    The program is an Express application with two resources, dishes
    and orders.  Its code under [src/] is

    - [src/dishes/dishes.controller.js]: the dish validators
      ([dishExists], [dishIdAbsentOrMatches], [dishHasName],
      [dishHasDescription], [dishHasPrice], [priceIsPositiveInteger],
      [dishHasImageUrl]) and handlers ([create], [read], [update],
      [list]), exported as arrays of middleware;
    - [src/orders/orders.controller.js]: the order validators
      ([orderExists], [orderRequiresDeliverTo], [orderRequiresMobileNumber],
      [orderRequiresDish], [dishesMustBeNonEmptyArray],
      [eachDishMustHaveQuantityAboveZero], [orderIdAbsentOrMatches],
      [statusMustExistAndBeValid], [orderStatusIsPending]) and handlers
      ([create], [read], [update], [destroy], [list]);
    - [src/orders/orders.router.js]: the two routes of [/orders].

    The components interact through Express: a router matches the path,
    the route runs its stack of layers (one per middleware) with a shared
    index, each middleware calls [next()] to run the next layer or
    [next(err)] to skip to the application's error handler, and the
    handlers mutate the two module-level arrays [dishes] and [orders].
    Several validators call [next(err)] and then fall through to a second
    [next()], and two call [next()] and then [next(err)]; what a request
    does therefore depends on how Express's [Route.prototype.dispatch]
    treats a second call, which this development models and proves.

    ** Files, and what models what

    - [Prelude] (this file): the [result] type used as the error monad
      of the development (stdpp's [MBind]/[MRet] instances), the
      JavaScript array built-ins the code calls ([find], [findIndex],
      [splice], [push]) with their lemmas, list lemmas (duplicates,
      [alter] as [insert]), records addressed by key ([by_key],
      [find_key]: accesses to different keys commute), the shared
      tactics and the [grub] hint database.
    - [Json]: JavaScript values as they arrive from [express.json()]
      ([jsval]), truthiness, strict equality with a string, property
      access and destructuring (which throw a TypeError on [null] and
      [undefined]), [Number.isInteger], [Array.isArray] and the
      relational comparisons with [0], which go through ToPrimitive and
      are three-valued where StringToNumber is not modelled; lemmas show
      that no condition of the code depends on the unknown value.
    - [Express]: the library the controllers run in.  A middleware is
      the list of commands it executes ([CEff] assignment, [CSend]
      response, [CNext] [next()]/[next(err)], [CThrow]); [next_fn]
      is [Route.prototype.dispatch]'s [next] (shared index, method
      filter, [HEAD] as [GET], errors skipping layers, the router's
      synchronous or [setImmediate] exit to [notFound] and
      [errorHandler], the destroyed connection when the error handler
      runs after a response).  [vres]/[hres] are the shapes of the
      validators and handlers, [pipeline] the spec's short-circuit
      composition extended with late errors, and [dispatch_pipeline]
      proves that Express running a chain gives the pipeline's state,
      response and connection fate.
    - [Store]: the records ([dish], [order] as the objects [create]
      builds), [response.locals] ([locals]), the process state [st]
      (the two arrays of [src/data], the locals, the global [dishes] the
      orders controller assigns), the id generator [nextId] as the class
      [IdGen] (fresh for the ids in use), and [require_text_field], the
      validator the five text checks share.
    - [Dishes]: [DishesController] (every function and chain of
      [dishes.controller.js], and the routes of the dishes router, which
      is outside [src/] and taken from the spec), [DishSpec] (create,
      update, read as pure functions), the shape lemmas and the
      refinement theorems of create, update, read and list.
    - [Orders]: the same for [orders.controller.js] and
      [orders.router.js] ([OrdersController], [OrderSpec],
      [OrderShapes]), with the quantity loop proved equal to a reference
      check that names the first offending line item.
    - [App]: the application ([src/app.js], outside [src/], from the
      spec): [serve] runs one request with a fresh [response.locals],
      [step]/[reachable] make the server a transition system, and
      [repo_change] classifies what a request does to the arrays.
      [app_spec] is the whole API of spec 6 as one pure function of the
      two arrays (one function per route, [not_allowed] for 405, 404
      for other paths), built from [DishSpec] and [OrderSpec]; [observe]
      is what a request leaves observable (the arrays and the outcome).
    - [Lifecycle]: sequences of requests.  The order item route read as
      an access by id ([item_effect] with the prelude's [by_key] and
      [find_key], the find/replace/remove of spec 9), the commutation of requests on different orders and
      the lifecycle of an order's status.
    - [Routing]: Express's path matching, from a URL to a [target]:
      [parseurl]'s fast path, the case-insensitive mounts of [src/app.js]
      with [trim_prefix], the [/:param] and [/] routes in the order of
      [orders.router.js] ([orders_routes]), [decodeURIComponent] (with
      its [URIError], Express's 400) and [serve_url], a request given
      by its URL.

    ** What is proved

    - Refinement (C1-C5, C18-C21): every route of both routers, run by
      the Express model, does exactly what the operation's pure
      specification says, on every branch: the validation errors in
      the spec's order, TypeErrors (500) on malformed bodies, the record
      appended, replaced in place with its id kept, or removed, the
      response, and whether the connection is destroyed.
    - Invariants over reachable states (C6, C7): valid records (text
      fields present, prices and quantities integers greater than 0,
      non-empty order lines) and unique ids, by induction on the
      transition system.
    - Atomicity (C8): a request answered with an error leaves both
      arrays as they were (spec 7, no partial update).
    - Round trips (C9-C11, C15, C22): create then read for dishes and
      orders, delete then read (404), update then read for orders and
      dishes.
    - Functional and error behaviour (C12-C14, C16, C17): the status of
      a new order comes from the top level of the body; the quantity
      loop names the first bad index; every request but [POST] and
      [DELETE] is idempotent; [PUT /orders/:orderId] is decided by the
      status first, then the body [id], and destroys the connection
      once the status has passed; each route answers 405 exactly to
      the methods it does not list.
    - The handler [destroy] (C23): run on its own it removes the first
      order with the route's id, and the last order when no order has
      it; only [orderExists] before it prevents that case.
    - Whole-application refinement (C24): for every state and request,
      [observe (serve s hr) = app_spec s hr], Express included; the
      route's id reaches the controllers as the path names it.
    - Safety (C25-C27): the locals and the global [dishes] never leak
      between requests (the outcome depends on the arrays alone); an
      order disappears only by a [DELETE] of it while pending; dish ids
      are never removed or reordered.
    - Bounds (C28): a request adds at most one dish and never removes
      one, and changes the number of orders by at most one.
    - Type (C29): every response has the API's shape: [{data}] with 200
      or 201, a bare 204, or an error whose status is its error's and is
      one of 400, 404, 405, 500.
    - Ordering (C30): requests on different orders commute, in the
      arrays they leave and in what each observes.
    - Order status lifecycle (C31, C32): a status changes only by a
      [PUT] on that order to one of the four values, and every value is
      reachable from every status, so a delivered order can be made
      pending again and then deleted.
    - The rules of spec 8 (C33-C35): with the other fields present,
      [POST /dishes] is decided by the price alone; an empty [dishes]
      array and a bad quantity on [POST /orders]; the body [id] of
      [PUT /dishes/:dishId] (a falsy id counts as absent).

    [Routing] carries no claim: its lemma [serve_url_target] (with
    [decode_encode], decoding inverts [encodeURIComponent] on
    well-formed UTF-8) shows that the targets [serve] is given are
    exactly what the URLs of the API reach, which justifies taking
    requests with their route resolved.

    ** Bounds and fuel

    [dispatch] runs [next_fn] with one unit of fuel per layer plus one:
    every call of [next] consumes a layer, so this is enough
    ([next_fn_total], [dispatch_total]), and any larger fuel gives the
    same run ([next_fn_fuel], [dispatch_fuel]); [serve]'s fallback for
    an exhausted fuel is therefore never used ([serve_spec]).  Numbers
    are exact rationals: JSON numbers are finite doubles, all rational;
    the comparisons and [Number.isInteger] are exact on them.  No
    machine integer of the code can overflow: indexes are array
    positions.

    ** Not modelled

    Process bootstrap and the HTTP server ([server.js],
    [express.json()] parsing: requests arrive parsed), any middleware
    [app.js] installs before the routers (spec 6 names none and says
    every other verb is 405, which [serve] answers to [OPTIONS]; a CORS
    handler there would answer [OPTIONS] itself, so the method rule C17
    leaves [OPTIONS] out, and only the contract of C24 states it), the
    [url.parse]
    fallback [parseurl] takes for a URL with whitespace or [#]
    ([serve_url] is [None] there), ids with lone surrogates (they
    are not well-formed UTF-8, and [encodeURIComponent] throws on them;
    the round trip is proved for every other id), the
    seed contents of [src/data] (any initial state is allowed), the
    implementation of [nextId] (any fresh-id generator is allowed), and
    Express's guard against deep synchronous recursion (100 nested
    [next] calls; the longest route has 15 layers).  Requests are served
    one at a time, as Node's event loop runs each chain to completion
    before the next request: every middleware of this code is
    synchronous.
*)

From Stdlib Require Export ZArith Lia.
From stdpp Require Export base list strings option.

(** ** Results: the error monad of the development *)

(** [result E A]: a value of [A], or an error of [E]; [result E] is a
    stdpp monad, so [x ← c; k] and [≫=] work with it. *)
Inductive result (E A : Type) : Type :=
| Ok (a : A)
| Err (e : E).
Arguments Ok {E A} a.
Arguments Err {E A} e.

#[export] Instance result_ret {E} : MRet (result E) :=
  fun A a => Ok a.
#[export] Instance result_bind {E} : MBind (result E) :=
  fun A B k r => match r with Ok a => k a | Err e => Err e end.

Lemma result_bind_Ok {A B E} (a : A) (k : A -> result E B) :
  (Ok a ≫= k) = k a.
Proof. reflexivity. Qed.

Lemma result_bind_Err {A B E} (e : E) (k : A -> result E B) :
  (Err e ≫= k) = Err e.
Proof. reflexivity. Qed.

Lemma result_bind_eq_Ok {A B E} (r : result E A) (k : A -> result E B) b :
  (r ≫= k) = Ok b <-> exists a, r = Ok a /\ k a = Ok b.
Proof.
  destruct r as [a|e]; simpl; split.
  - intros H. eauto.
  - intros (a' & Ha & Hk). injection Ha as <-. exact Hk.
  - discriminate.
  - intros (a' & Ha & _). discriminate.
Qed.

Create HintDb grub.
Create Rewrite HintDb grub.
#[export] Hint Rewrite @result_bind_Ok @result_bind_Err : grub.

(** ** JavaScript array built-ins

    A JavaScript array of objects is a [list]; a reference to one of its
    elements, obtained with [find], is the element's position, which is
    exact as long as the array is not reordered while the reference is
    held (the code holds references only during one synchronous
    request). *)

Section JsArray.
Context {A : Type}.

(** [arr.find(p)], returning the position and the element. *)
Definition js_find (p : A -> bool) (l : list A) : option (nat * A) :=
  list_find (fun x => p x = true) l.

(** [arr.findIndex(p)]: the first position, or [-1]. *)
Definition js_findIndex (p : A -> bool) (l : list A) : Z :=
  match js_find p l with
  | Some (i, _) => Z.of_nat i
  | None => (-1)%Z
  end.

(** [arr.splice(start, 1)]: a negative start counts from the end, a
    start past the end removes nothing. *)
Definition js_splice1 (start : Z) (l : list A) : list A :=
  let len := Z.of_nat (length l) in
  let k := if (start <? 0)%Z then Z.max (len + start) 0 else Z.min start len in
  delete (Z.to_nat k) l.

(** [arr.push(x)]. *)
Definition js_push (l : list A) (x : A) : list A := l ++ [x].

Lemma js_find_Some p l i x :
  js_find p l = Some (i, x) <->
  l !! i = Some x /\ p x = true /\
  forall j y, l !! j = Some y -> (j < i)%nat -> p y = false.
Proof.
  unfold js_find. rewrite list_find_Some.
  split; intros (Hl & Hp & Hlt); repeat split; auto.
  - intros j y Hj Hji. destruct (p y) eqn:E; [|reflexivity].
    exfalso. exact (Hlt j y Hj Hji E).
  - intros j y Hj Hji E. rewrite (Hlt j y Hj Hji) in E. discriminate.
Qed.

Lemma js_find_None p l :
  js_find p l = None <-> forall x, x ∈ l -> p x = false.
Proof.
  unfold js_find. rewrite list_find_None, Forall_forall.
  setoid_rewrite list_elem_of_In.
  split; intros H x Hx; specialize (H x Hx).
  - destruct (p x); [contradiction|reflexivity].
  - rewrite H. discriminate.
Qed.

Lemma js_findIndex_Some p l i x :
  js_find p l = Some (i, x) -> js_findIndex p l = Z.of_nat i.
Proof. unfold js_findIndex. intros ->. reflexivity. Qed.

Lemma js_findIndex_None p l :
  js_find p l = None -> js_findIndex p l = (-1)%Z.
Proof. unfold js_findIndex. intros ->. reflexivity. Qed.

Lemma list_delete_ge (l : list A) i : (length l <= i)%nat -> delete i l = l.
Proof.
  intros H. rewrite delete_take_drop, take_ge, drop_ge by lia.
  apply app_nil_r.
Qed.

(** A non-negative start is stdpp's [delete]. *)
Lemma js_splice1_nat (i : nat) l : js_splice1 (Z.of_nat i) l = delete i l.
Proof.
  unfold js_splice1.
  destruct (Z.ltb_spec (Z.of_nat i) 0) as [H|H]; [lia|].
  destruct (Nat.lt_ge_cases i (length l)) as [Hlt|Hge].
  - rewrite Z.min_l by lia. rewrite Nat2Z.id. reflexivity.
  - rewrite Z.min_r by lia. rewrite Nat2Z.id.
    rewrite !list_delete_ge by lia. reflexivity.
Qed.

(** A start of [-1] removes the last element. *)
Lemma js_splice1_minus1 l x : js_splice1 (-1) (l ++ [x]) = l.
Proof.
  unfold js_splice1. rewrite length_app. simpl.
  replace (Z.to_nat (Z.max (Z.of_nat (length l + 1) + -1) 0)) with (length l) by lia.
  induction l as [|y l IH]; simpl; [reflexivity|]. now rewrite IH.
Qed.

(** A start of [-1] removes the last element, if any. *)
Lemma js_splice1_removelast l : js_splice1 (-1) l = removelast l.
Proof.
  destruct l as [|y l]; [reflexivity|].
  destruct (exists_last (l := y :: l)) as (l' & x & E); [discriminate|].
  rewrite E, js_splice1_minus1, removelast_last. reflexivity.
Qed.

Lemma js_push_lookup_last l x : js_push l x !! length l = Some x.
Proof. unfold js_push. rewrite lookup_app_r by lia. now rewrite Nat.sub_diag. Qed.

Lemma js_push_lookup_lt l x i : (i < length l)%nat -> js_push l x !! i = l !! i.
Proof. unfold js_push. intros H. now apply lookup_app_l. Qed.

(** Updating a present element in place is inserting its new value. *)
Lemma alter_as_insert (f : A -> A) (l : list A) i x :
  l !! i = Some x -> alter f i l = <[i := f x]> l.
Proof.
  intros Hi. rewrite list_insert_alter. apply list_alter_ext; [|reflexivity].
  intros y Hy. rewrite Hi in Hy. congruence.
Qed.

Lemma list_map_fmap {B} (f : A -> B) (l : list A) : map f l = f <$> l.
Proof. induction l as [|x l IH]; cbn; [reflexivity|]. now rewrite IH. Qed.

(** An insertion that keeps the key of the element it replaces keeps
    the list of keys. *)
Lemma map_insert_same_key {B} (f : A -> B) (l : list A) i x y :
  l !! i = Some y -> f x = f y -> map f (<[i := x]> l) = map f l.
Proof.
  intros Hi Hf. rewrite !list_map_fmap, list_fmap_insert, Hf.
  apply list_insert_id. rewrite list_lookup_fmap, Hi. reflexivity.
Qed.

(** [js_find] on an array with one more element, when no earlier one
    matches. *)
Lemma js_find_snoc_new p l x :
  js_find p l = None -> p x = true -> js_find p (l ++ [x]) = Some (length l, x).
Proof.
  unfold js_find. intros Hn Hx. apply list_find_app_Some. right.
  split; [lia|]. split; [exact Hn|]. rewrite Nat.sub_diag. cbn. rewrite decide_True by exact Hx. reflexivity.
Qed.

(** Replacing the element [js_find] found by another that matches. *)
Lemma js_find_insert_same p l i x y :
  js_find p l = Some (i, x) -> p y = true -> js_find p (<[i := y]> l) = Some (i, y).
Proof.
  unfold js_find. rewrite !list_find_Some. intros (Hl & _ & Hb) Hy.
  split; [|split; [exact Hy|]].
  - apply list_lookup_insert_eq. eapply lookup_lt_Some; exact Hl.
  - intros j z Hj Hji. rewrite list_lookup_insert_ne in Hj by lia. eapply Hb; eauto.
Qed.

(** In a list without duplicates, the element at [i] is not in the rest. *)
Lemma NoDup_lookup_delete (l : list A) i x :
  NoDup l -> l !! i = Some x -> x ∉ delete i l.
Proof.
  revert i. induction l as [|y l IH]; intros i Hn Hi; [discriminate|].
  inversion Hn as [|? ? Hy Hn']; subst. destruct i as [|i]; cbn in *.
  - injection Hi as ->. exact Hy.
  - intros Hx. apply elem_of_cons in Hx as [->|Hx].
    + apply Hy. eapply list_elem_of_lookup_2; exact Hi.
    + eapply IH; [exact Hn'|exact Hi|exact Hx].
Qed.

(** An element at another position survives a [delete]. *)
Lemma elem_of_delete_other (l : list A) i j x : l !! j = Some x -> j <> i -> x ∈ delete i l.
Proof.
  intros Hj Hji. destruct (decide (j < i)).
  - apply list_elem_of_lookup_2 with j. rewrite list_lookup_delete_lt by lia. exact Hj.
  - apply list_elem_of_lookup_2 with (j - 1). rewrite list_lookup_delete_ge by lia.
    replace (S (j - 1)) with j by lia. exact Hj.
Qed.

Lemma elem_of_map_2 {B} (f : A -> B) (l : list A) x : x ∈ l -> f x ∈ map f l.
Proof. rewrite list_map_fmap. apply list_elem_of_fmap_2. Qed.

(** [is_ok r]: the computation [r] succeeded. *)
Definition is_ok {E B} (r : result E B) : bool :=
  match r with Ok _ => true | Err _ => false end.
End JsArray.

#[export] Hint Rewrite @js_splice1_nat : grub.

(** ** Lists without duplicates *)

Section NoDupLemmas.
Context {A : Type}.

(** Appending a fresh element to the first part. *)
Lemma NoDup_snoc_l (l k : list A) x :
  NoDup (l ++ k) -> x ∉ l ++ k -> NoDup ((l ++ [x]) ++ k).
Proof.
  intros Hn Hx. rewrite <- app_assoc. cbn.
  rewrite <- Permutation_middle. constructor; assumption.
Qed.

(** Appending a fresh element to the second part. *)
Lemma NoDup_snoc_r (l k : list A) x :
  NoDup (l ++ k) -> x ∉ l ++ k -> NoDup (l ++ k ++ [x]).
Proof.
  intros Hn Hx. rewrite app_assoc, Permutation_app_comm. cbn. constructor; assumption.
Qed.

(** Removing an element of the second part. *)
Lemma NoDup_delete_r (l k : list A) i : NoDup (l ++ k) -> NoDup (l ++ delete i k).
Proof.
  intros Hn. eapply sublist_NoDup; [exact Hn|].
  apply sublist_app; [reflexivity|apply sublist_delete].
Qed.
End NoDupLemmas.

(** ** Records addressed by key

    The handlers reach a record through [find] on its id and then
    replace it ([<[i := y]>]) or remove it ([delete i]): [by_key k g]
    is that access, [g] giving the new record or [None] to remove it.
    Accesses to different keys commute, and neither changes what the
    other finds, as long as [g] keeps the key (the records' ids are
    never written). *)

Section ByKey.
Context {A K : Type} `{EqDecision K} (key : A -> K).

Definition key_is (k : K) (x : A) : bool := bool_decide (key x = k).

Definition by_key (k : K) (g : A -> option A) (l : list A) : list A :=
  match js_find (key_is k) l with
  | Some (i, x) => match g x with Some y => <[i := y]> l | None => delete i l end
  | None => l
  end.

Definition find_key (k : K) (l : list A) : option A := snd <$> js_find (key_is k) l.

Definition keeps_key (g : A -> option A) : Prop := forall x y, g x = Some y -> key y = key x.

Lemma js_find_cons (p : A -> bool) x l :
  js_find p (x :: l) = if p x then Some (0, x) else prod_map S id <$> js_find p l.
Proof. unfold js_find. cbn. destruct (p x); reflexivity. Qed.

Lemma by_key_cons k g x l :
  by_key k g (x :: l) =
  if key_is k x then match g x with Some y => y :: l | None => l end else x :: by_key k g l.
Proof.
  unfold by_key. rewrite js_find_cons. destruct (key_is k x); [destruct (g x); reflexivity|].
  destruct (js_find _ l) as [[i y]|]; cbn; [destruct (g y)|]; reflexivity.
Qed.

Lemma find_key_cons k x l :
  find_key k (x :: l) = if key_is k x then Some x else find_key k l.
Proof.
  unfold find_key. rewrite js_find_cons. destruct (key_is k x); [reflexivity|].
  destruct (js_find _ l) as [[i y]|]; reflexivity.
Qed.

Lemma key_is_keeps k g x y : keeps_key g -> g x = Some y -> key_is k y = key_is k x.
Proof. intros Hg Hy. unfold key_is. rewrite (Hg x y Hy). reflexivity. Qed.

Lemma key_is_other k k' x : k <> k' -> key_is k x = true -> key_is k' x = false.
Proof. unfold key_is. intros Hk Hx. apply bool_decide_eq_true in Hx. apply bool_decide_eq_false. congruence. Qed.

(** An access to key [k'] leaves what key [k] finds unchanged. *)
Lemma find_key_by_key_other k k' g l :
  k <> k' -> keeps_key g -> find_key k (by_key k' g l) = find_key k l.
Proof.
  intros Hk Hg. induction l as [|x l IH]; [reflexivity|].
  rewrite by_key_cons, find_key_cons.
  destruct (key_is k' x) eqn:Hx'.
  - assert (Hx : key_is k x = false) by (apply (key_is_other k' k); auto).
    rewrite Hx. destruct (g x) as [y|] eqn:Hy; [|reflexivity].
    rewrite find_key_cons, (key_is_keeps k g x y Hg Hy), Hx. reflexivity.
  - rewrite find_key_cons, IH. reflexivity.
Qed.

(** Accesses to two different keys commute. *)
Lemma by_key_comm k k' g g' l :
  k <> k' -> keeps_key g -> keeps_key g' ->
  by_key k g (by_key k' g' l) = by_key k' g' (by_key k g l).
Proof.
  intros Hk Hg Hg'. induction l as [|x l IH]; [reflexivity|].
  rewrite (by_key_cons k' g' x l), (by_key_cons k g x l).
  destruct (key_is k x) eqn:Hx.
  - assert (Hx' : key_is k' x = false) by (apply (key_is_other k k'); auto).
    rewrite Hx', (by_key_cons k g), Hx.
    destruct (g x) as [y|] eqn:Hy; [|reflexivity].
    rewrite by_key_cons, (key_is_keeps k' g x y Hg Hy), Hx'. reflexivity.
  - rewrite (by_key_cons k' g'). destruct (key_is k' x) eqn:Hx'.
    + destruct (g' x) as [y|] eqn:Hy; [|reflexivity].
      rewrite by_key_cons, (key_is_keeps k g' x y Hg' Hy), Hx. reflexivity.
    + rewrite by_key_cons, Hx, IH. reflexivity.
Qed.
(** After an access to key [k], [k] finds the record [g] made of the
    one found before. *)
Lemma find_key_by_key_found k g l x y :
  keeps_key g -> find_key k l = Some x -> g x = Some y -> find_key k (by_key k g l) = Some y.
Proof.
  intros Hg. induction l as [|z l IH]; intros Hx Hy; [discriminate|].
  rewrite find_key_cons in Hx. rewrite by_key_cons.
  destruct (key_is k z) eqn:Hz.
  - injection Hx as ->. rewrite Hy, find_key_cons, (key_is_keeps k g x y Hg Hy), Hz. reflexivity.
  - rewrite find_key_cons, Hz. auto.
Qed.

(** With unique keys, a removed record is not found any more. *)
Lemma find_key_by_key_removed k g l x :
  NoDup (map key l) -> find_key k l = Some x -> g x = None -> find_key k (by_key k g l) = None.
Proof.
  induction l as [|z l IH]; intros Hn Hx Hg; [discriminate|].
  cbn in Hn. apply stdpp.list_relations.list.NoDup_cons in Hn as [Hz Hn].
  rewrite find_key_cons in Hx. rewrite by_key_cons.
  destruct (key_is k z) eqn:Hk.
  - injection Hx as ->. rewrite Hg. unfold find_key.
    destruct (js_find (key_is k) l) as [[i y]|] eqn:Ef; [|reflexivity].
    apply js_find_Some in Ef as (Hl & Hy & _). unfold key_is in Hk, Hy.
    apply bool_decide_eq_true in Hk, Hy. exfalso. apply Hz.
    rewrite Hk, <- Hy. apply elem_of_map_2. eapply list_elem_of_lookup_2. exact Hl.
  - rewrite find_key_cons, Hk. auto.
Qed.

(** A record found stays found when others are appended. *)
Lemma find_key_app k l m x : find_key k l = Some x -> find_key k (l ++ m) = Some x.
Proof.
  induction l as [|z l IH]; intros Hx; [discriminate|].
  cbn [app]. rewrite find_key_cons in Hx |- *. destruct (key_is k z); auto.
Qed.
End ByKey.

(** ** Shared tactics *)

(** Case on the first [if] or [match] on a boolean-valued test of the
    goal, keeping the equation. *)
Ltac case_if :=
  match goal with
  | |- context [if ?b then _ else _] => destruct b eqn:?
  end.

(** Invert an equation between two [Ok]/[Err]/[Some] values. *)
Ltac inv_res :=
  repeat match goal with
  | H : Ok _ = Ok _ |- _ => injection H as H
  | H : Err _ = Err _ |- _ => injection H as H
  | H : Ok _ = Err _ |- _ => discriminate H
  | H : Err _ = Ok _ |- _ => discriminate H
  | H : Some _ = Some _ |- _ => injection H as H
  | H : Some _ = None |- _ => discriminate H
  | H : None = Some _ |- _ => discriminate H
  end; subst.
