(* ===== verification/Json.v ===== *)
(** * JavaScript values and the operators the controllers apply to them

    A request body is what [express.json()] parses: a JSON value, here
    [jsval], with [JUndefined] for an absent property.  Numbers are
    exact rationals [num/den] (every finite double is one; JSON cannot
    produce [NaN], and the literals that overflow to [Infinity] are not
    modelled).  Strings are byte strings.

    The operators are the ones the code uses, with their JavaScript
    semantics: truthiness ([!x]), strict equality with a string literal,
    property access and destructuring, which throw a [TypeError] on
    [null] and [undefined], [Number.isInteger], [Array.isArray], and the
    relational comparisons [x <= 0] and [x > 0], which convert their
    operand with ToPrimitive (throwing for an object whose own
    [toString] property is not callable, and a JSON value is never
    callable) and then ToNumber.  ToNumber of a string (StringToNumber)
    is not modelled: a comparison whose operand converts to a string
    yields the unknown value [None] of a three-valued boolean, and the
    lemmas below show that no condition of the code depends on it. *)

From S2P Require Import Prelude.

(** ** Values *)

(** A finite JavaScript number, [num / den]. *)
Record jsnum := JsNum { num : Z; den : positive }.

#[warnings="-register-all"]
Inductive jsval : Type :=
| JUndefined
| JNull
| JBool (b : bool)
| JNum (n : jsnum)
| JStr (s : string)
| JArr (xs : list jsval)
| JObj (props : list (string * jsval)).

(** The integer [z] as a JavaScript number. *)
Definition JInt (z : Z) : jsval := JNum (JsNum z 1).

(** The only exception the code's expressions raise. *)
Inductive js_exn := TypeError.

(** A JavaScript computation that may throw. *)
Abbreviation js := (result js_exn).

(** ** Truthiness and equality *)

(** ToBoolean: [!v] is [negb (truthy v)]. *)
Definition truthy (v : jsval) : bool :=
  match v with
  | JUndefined | JNull => false
  | JBool b => b
  | JNum n => negb (num n =? 0)%Z
  | JStr s => negb (bool_decide (s = ""%string))
  | JArr _ | JObj _ => true
  end.

(** [v === s] for a string [s]. *)
Definition strict_eq_str (v : jsval) (s : string) : bool :=
  match v with
  | JStr s' => bool_decide (s' = s)
  | _ => false
  end.

(** ** Property access *)

(** The own property [k] of an object, or [undefined]. *)
Fixpoint assoc_lookup (ps : list (string * jsval)) (k : string) : jsval :=
  match ps with
  | [] => JUndefined
  | (k', v) :: ps' => if bool_decide (k' = k) then v else assoc_lookup ps' k
  end.

Definition has_own (ps : list (string * jsval)) (k : string) : bool :=
  existsb (fun p => bool_decide (p.1 = k)) ps.

(** [v.k] (and [const { k } = v]) for the field names of the code, none
    of which is a property of a primitive's prototype: a TypeError on
    [null] and [undefined], the own property on an object, [undefined]
    on any other value. *)
Definition get_prop (v : jsval) (k : string) : js jsval :=
  match v with
  | JUndefined | JNull => Err TypeError
  | JObj ps => Ok (assoc_lookup ps k)
  | _ => Ok JUndefined
  end.

(** [const { k = d } = v]: the default replaces [undefined] only. *)
Definition get_prop_default (v : jsval) (k : string) (d : jsval) : js jsval :=
  x ← get_prop v k;
  Ok (match x with JUndefined => d | _ => x end).

(** [const { data: { k } } = body]: the nested destructuring of the
    request body that every validator starts with. *)
Definition body_field (body : jsval) (k : string) : js jsval :=
  data ← get_prop body "data";
  get_prop data k.

(** ** Numbers and arrays *)

Definition number_isInteger (v : jsval) : bool :=
  match v with
  | JNum n => (num n mod Zpos (den n) =? 0)%Z
  | _ => false
  end.

Definition Array_isArray (v : jsval) : bool :=
  match v with JArr _ => true | _ => false end.

(** ToPrimitive throws exactly for an object with an own [toString]
    (not callable), or an array one of whose elements does, since
    [Array.prototype.toString] joins the elements' strings. *)
Fixpoint to_primitive_throws (v : jsval) : bool :=
  match v with
  | JObj ps => has_own ps "toString"
  | JArr xs => existsb to_primitive_throws xs
  | _ => false
  end.

(** Three-valued booleans: [None] is a comparison result that depends on
    StringToNumber.  [kor] is JavaScript's [||] on them. *)
Definition kor (a b : option bool) : option bool :=
  match a with
  | Some true => Some true
  | Some false => b
  | None => match b with Some true => Some true | _ => None end
  end.

Definition knot (a : option bool) : option bool := negb <$> a.

(** [v <= 0]. *)
Definition js_le_zero (v : jsval) : js (option bool) :=
  match v with
  | JNum n => Ok (Some (num n <=? 0)%Z)
  | JNull => Ok (Some true)
  | JBool b => Ok (Some (negb b))
  | JUndefined => Ok (Some false)
  | JStr _ => Ok None
  | JArr _ => if to_primitive_throws v then Err TypeError else Ok None
  | JObj _ => if to_primitive_throws v then Err TypeError else Ok (Some false)
  end.

(** [v > 0]. *)
Definition js_gt_zero (v : jsval) : js (option bool) :=
  match v with
  | JNum n => Ok (Some (0 <? num n)%Z)
  | JNull => Ok (Some false)
  | JBool b => Ok (Some b)
  | JUndefined => Ok (Some false)
  | JStr _ => Ok None
  | JArr _ => if to_primitive_throws v then Err TypeError else Ok None
  | JObj _ => if to_primitive_throws v then Err TypeError else Ok (Some false)
  end.

(** ** The abstract predicate: "an integer greater than 0" *)

Definition is_pos_int (v : jsval) : bool :=
  match v with
  | JNum n => number_isInteger v && (0 <? num n)%Z
  | _ => false
  end.

(** ** Lemmas *)

Lemma truthy_empty_string v :
  negb (truthy v) || strict_eq_str v "" = negb (truthy v).
Proof.
  destruct v; simpl; try reflexivity.
  - destruct b; reflexivity.
  - destruct (num n =? 0)%Z; reflexivity.
  - destruct (bool_decide (s = ""%string)); reflexivity.
Qed.

Lemma is_pos_int_truthy v : is_pos_int v = true -> truthy v = true.
Proof.
  destruct v as [| | |[z d]| | |]; simpl; try discriminate.
  intros H. apply andb_true_iff in H as [_ H].
  apply Z.ltb_lt in H. apply negb_true_iff, Z.eqb_neq. lia.
Qed.

Lemma is_pos_int_no_throw v : is_pos_int v = true -> to_primitive_throws v = false.
Proof. destruct v; simpl; congruence. Qed.

Lemma is_pos_int_JInt z : is_pos_int (JInt z) = (0 <? z)%Z.
Proof. simpl. rewrite Z.mod_1_r. reflexivity. Qed.

(** The test [price <= 0 || !Number.isInteger(price)] of
    [priceIsPositiveInteger], evaluated left to right, never depends on
    StringToNumber: it throws exactly when ToPrimitive does, and is
    otherwise the negation of [is_pos_int]. *)
Lemma le_zero_or_not_integer v :
  (c ← js_le_zero v; Ok (kor c (Some (negb (number_isInteger v)))) : js (option bool))
  = if to_primitive_throws v then Err TypeError else Ok (Some (negb (is_pos_int v))).
Proof.
  destruct v as [| |b|[z d]|s|xs|ps]; simpl; try reflexivity.
  - destruct b; reflexivity.
  - destruct (Z.leb_spec z 0), (Z.ltb_spec 0 z); simpl; try lia;
      destruct (z mod Z.pos d =? 0)%Z; reflexivity.
  - destruct (existsb to_primitive_throws xs); reflexivity.
  - destruct (has_own ps "toString"); reflexivity.
Qed.

(** The test [!q || !(q > 0) || !Number.isInteger(q)] of
    [eachDishMustHaveQuantityAboveZero]: likewise determined. *)
Definition quantity_test (q : jsval) : js (option bool) :=
  if negb (truthy q) then Ok (Some true)
  else c ← js_gt_zero q; Ok (kor (knot c) (Some (negb (number_isInteger q)))).

Lemma quantity_test_spec q :
  quantity_test q =
  if negb (truthy q) then Ok (Some true)
  else if to_primitive_throws q then Err TypeError
  else Ok (Some (negb (is_pos_int q))).
Proof.
  unfold quantity_test.
  destruct q as [| |b|[z d]|s|xs|ps]; simpl.
  1,2: reflexivity.
  - destruct b; reflexivity.
  - destruct (Z.eqb_spec z 0), (Z.ltb_spec 0 z); simpl; try reflexivity; try lia;
      destruct (z mod Z.pos d =? 0)%Z; reflexivity.
  - destruct (bool_decide (s = ""%string)); reflexivity.
  - destruct (existsb to_primitive_throws xs); reflexivity.
  - destruct (has_own ps "toString"); reflexivity.
Qed.

#[export] Hint Rewrite le_zero_or_not_integer quantity_test_spec truthy_empty_string : grub.
#[export] Hint Resolve is_pos_int_truthy is_pos_int_no_throw : grub.
