(* ===== verification/Express.v ===== *)
(** * Express: how a route runs a chain of middleware

    Each exported controller entry is an array of middleware functions
    [(request, response, next) => ...].  [router.route(path).get(chain)]
    turns every function of the array into a layer of the route's stack
    tagged with the method; [.all(fn)] adds an untagged layer.  A request
    is run by [Route.prototype.dispatch] (Express 4), whose [next] closure
    shares one index over the stack:

    - [next()] takes the layer at the index and increments the index; a
      layer of another method is skipped; a matching layer runs its
      function inside [try]/[catch], a thrown exception becoming
      [next(exn)];
    - [next(err)] does the same but calls the error variant of each
      layer, which for a three-argument function is [next(err)] again, so
      an error skips every remaining layer;
    - past the end of the stack, [next(err)] calls the router's [done]:
      the router leaves to the application, whose next middleware is
      [notFound] (for [done()]) and then [errorHandler] (for
      [done(err)]).  The router calls [done] synchronously when a later
      route of the router remains to be tried, and through [setImmediate]
      when the route is the router's last layer; once the application's
      stack is exhausted, every further [done] reaches [finalhandler].

    A middleware is modelled by the program it executes when called:
    a list of commands computed from the state at its call, because the
    code reads its inputs (the body, [response.locals], the arrays) before
    its first [next], and each command's effect is applied at the moment
    it runs.  [CNext] runs the rest of the chain {i inside} the caller's
    program, as the synchronous [next] of Express does, so the commands
    after a [next()] run after the rest of the chain.

    The application's [notFound], [errorHandler] and [methodNotAllowed]
    (files of the repository outside [src/]) are modelled from the spec:
    the error handler responds with the error's [status] (default [500])
    and its message.  Express's guard against deep synchronous recursion
    (a [setImmediate] after 100 nested calls) is not modelled: the
    longest stack of the application has 15 layers. *)

From S2P Require Import Prelude Json.

(** ** Requests, errors and responses *)

Inductive method := GET | HEAD | POST | PUT | PATCH | DELETE | OPTIONS.

#[export] Instance method_eq_dec : EqDecision method.
Proof. solve_decision. Defined.

(** The messages of the errors the application passes to [next], one
    constructor per template of the source, carrying the interpolated
    values. *)
Inductive message :=
| MsgDishNotFound (dishId : string)
| MsgDishIdMismatch (id : jsval) (dishId : string)
| MsgDishName
| MsgDishDescription
| MsgDishPrice
| MsgDishPriceInvalid
| MsgDishImageUrl
| MsgOrderNotFound (orderId : string)
| MsgOrderDeliverTo
| MsgOrderMobileNumber
| MsgOrderDish
| MsgOrderDishes
| MsgOrderQuantity (index : nat)
| MsgOrderIdMismatch (id : jsval) (orderId : string)
| MsgOrderStatus
| MsgOrderNotPending
| MsgMethodNotAllowed (m : method) (url : string)
| MsgPathNotFound (url : string)
| MsgDecodeParam (raw : string).       (** Express: "Failed to decode param '<raw>'" *)

(** The value given to [next(err)]. *)
Inductive err :=
| ErrHttp (status : Z) (msg : message)   (** [next({ status, message })] *)
| ErrTypeError                           (** a TypeError thrown by the code *)
| ErrHeadersSent.                        (** ERR_HTTP_HEADERS_SENT thrown by [res.json] *)

Definition err_status (e : err) : Z :=
  match e with ErrHttp s _ => s | _ => 500 end.

Inductive response :=
| RJson (status : Z) (body : jsval)     (** [res.status(s).json(body)] *)
| RStatus (status : Z)                  (** [res.sendStatus(s)] *)
| RError (status : Z) (e : err)         (** [errorHandler]'s [{ error: message }] *)
| RFinal (status : Z).                  (** [finalhandler]'s default page *)

Definition resp_status (r : response) : Z :=
  match r with RJson s _ | RStatus s | RError s _ | RFinal s => s end.

Inductive event := ESend (r : response) | EDestroy.

(** The request line: method and [originalUrl]. *)
Record reqline := ReqLine { rl_method : method; rl_url : string }.

Section Dispatch.
Context {App : Type}.

(** ** Middleware programs *)

Inductive cmd :=
| CEff (f : App -> App)          (** an assignment to the state *)
| CSend (r : App -> response)  (** a response, built from the state at that time *)
| CNext (e : option err)     (** [next()] or [next(e)] *)
| CThrow (e : err).          (** an exception escaping the function *)

Definition middleware := App -> list cmd.

Record layer := Layer { layer_method : option method; layer_handle : middleware }.

(** The state of one request: the application state, the route's
    index, [res.headersSent], whether the application's stack after the
    router has been entered, what went out on the socket, and the
    router exits queued with [setImmediate]. *)
Record xstate := XState {
  xs_app : App;
  xs_idx : nat;
  xs_sent : bool;
  xs_exited : bool;
  xs_events : list event;
  xs_deferred : list (option err)
}.

Definition set_app (a : App) (x : xstate) : xstate :=
  XState a (xs_idx x) (xs_sent x) (xs_exited x) (xs_events x) (xs_deferred x).
Definition set_idx (i : nat) (x : xstate) : xstate :=
  XState (xs_app x) i (xs_sent x) (xs_exited x) (xs_events x) (xs_deferred x).
Definition emit (ev : event) (x : xstate) : xstate :=
  XState (xs_app x) (xs_idx x) (xs_sent x) (xs_exited x) (xs_events x ++ [ev]) (xs_deferred x).
Definition send (r : response) (x : xstate) : xstate :=
  emit (ESend r) (XState (xs_app x) (xs_idx x) true (xs_exited x) (xs_events x) (xs_deferred x)).
Definition defer (e : option err) (x : xstate) : xstate :=
  XState (xs_app x) (xs_idx x) (xs_sent x) (xs_exited x) (xs_events x) (xs_deferred x ++ [e]).
Definition set_exited (x : xstate) : xstate :=
  XState (xs_app x) (xs_idx x) (xs_sent x) true (xs_events x) (xs_deferred x).

(** ** The application after the router *)

(** [errorHandler]: respond with the error, or, when the headers are
    already sent, throw from [res.json], which reaches [finalhandler]
    with an error and a sent response: the socket is destroyed. *)
Definition error_handler (e : err) (x : xstate) : xstate :=
  if xs_sent x then emit EDestroy x else send (RError (err_status e) e) x.

(** The application's [next(e)] after the router: [notFound] turns
    [done()] into a 404, then [errorHandler]. *)
Definition app_exit (url : string) (e : option err) (x : xstate) : xstate :=
  let x := set_exited x in
  match e with
  | Some er => error_handler er x
  | None => error_handler (ErrHttp 404 (MsgPathNotFound url)) x
  end.

(** [finalhandler], reached once the application's stack is exhausted. *)
Definition final_handler (e : option err) (x : xstate) : xstate :=
  match e with
  | None => if xs_sent x then x else send (RFinal 404) x
  | Some er => if xs_sent x then emit EDestroy x else send (RFinal (err_status er)) x
  end.

(** The route's [done(e)]: synchronous for the first exit of a route
    that is not the router's last layer, deferred otherwise. *)
Definition route_done (url : string) (sync_exit : bool) (e : option err) (x : xstate) : xstate :=
  if sync_exit && negb (xs_exited x) then app_exit url e x else defer e x.

(** The deferred exits, run after the synchronous part of the request. *)
Definition flush_one (url : string) (x : xstate) (e : option err) : xstate :=
  if xs_exited x then final_handler e x else app_exit url e x.

Definition clear_deferred (x : xstate) : xstate :=
  XState (xs_app x) (xs_idx x) (xs_sent x) (xs_exited x) (xs_events x) [].

Definition flush (url : string) (x : xstate) : xstate :=
  fold_left (flush_one url) (xs_deferred x) (clear_deferred x).

(** ** [Route.prototype.dispatch] *)

Definition method_ok (l : layer) (m : method) : bool :=
  match layer_method l with
  | None => true
  | Some m' => bool_decide (m' = m)
  end.

(** Running a middleware's program; [next] is the route's [next]. *)
Fixpoint run_prog (next : option err -> xstate -> option xstate)
         (p : list cmd) (x : xstate) : option xstate :=
  match p with
  | [] => Some x
  | CEff f :: p' => run_prog next p' (set_app (f (xs_app x)) x)
  | CSend r :: p' =>
      if xs_sent x then next (Some ErrHeadersSent) x
      else run_prog next p' (send (r (xs_app x)) x)
  | CNext e :: p' =>
      match next e x with
      | Some x' => run_prog next p' x'
      | None => None
      end
  | CThrow e :: _ => next (Some e) x
  end.

Variable stack : list layer.
Variable rl : reqline.
Variable sync_exit : bool.

(** The method the route dispatches on: [HEAD] runs the [GET] layers
    of a route that has no [HEAD] layer. *)
Definition route_method : method :=
  if bool_decide (rl_method rl = HEAD) &&
     negb (existsb (fun l => bool_decide (layer_method l = Some HEAD)) stack)
  then GET else rl_method rl.

(** The route's [next(e)], with fuel bounding the number of layers run. *)
Fixpoint next_fn (fuel : nat) (e : option err) (x : xstate) : option xstate :=
  match fuel with
  | O => None
  | S fuel' =>
      let x' := set_idx (S (xs_idx x)) x in
      match stack !! xs_idx x with
      | None => Some (route_done (rl_url rl) sync_exit e x')
      | Some l =>
          if method_ok l route_method then
            match e with
            | None => run_prog (next_fn fuel') (layer_handle l (xs_app x')) x'
            | Some _ => next_fn fuel' e x'
            end
          else next_fn fuel' e x'
      end
  end.

Definition init_x (s : App) : xstate := XState s 0 false false [] [].

(** A request through the route: dispatch, then the deferred exits. *)
Definition dispatch (s : App) : option xstate :=
  x ← next_fn (S (length stack)) None (init_x s);
  Some (flush (rl_url rl) x).
End Dispatch.

Arguments cmd : clear implicits.
Arguments middleware : clear implicits.
Arguments layer : clear implicits.
Arguments xstate : clear implicits.

(** What the client observes: the first response and whether the
    connection was destroyed afterwards. *)
Record outcome := Outcome { out_response : option response; out_destroyed : bool }.

Fixpoint first_response (evs : list event) : option response :=
  match evs with
  | [] => None
  | ESend r :: _ => Some r
  | EDestroy :: evs' => first_response evs'
  end.

Definition destroyed (evs : list event) : bool :=
  existsb (fun ev => match ev with EDestroy => true | _ => false end) evs.

Definition outcome_of (evs : list event) : outcome :=
  Outcome (first_response evs) (destroyed evs).

(** [methodNotAllowed] (src/errors of the repository, from the spec). *)
Definition methodNotAllowed {App} (rl : reqline) : middleware App :=
  fun _ => [CNext (Some (ErrHttp 405 (MsgMethodNotAllowed (rl_method rl) (rl_url rl))))].

(** ** Termination of the dispatcher *)

Section DispatchFacts.
Context {App : Type}.
Variables (stack : list (layer App)) (rl : reqline) (sync_exit : bool).

Abbreviation L := (length stack).
Abbreviation next_fn := (next_fn stack rl sync_exit).

(** Leaving the route from index [i]: the index ends one past the
    larger of [i] and the stack's end. *)
Definition exit_at (e : option err) (x : xstate App) : xstate App :=
  route_done (rl_url rl) sync_exit e (set_idx (S (Nat.max L (xs_idx x))) x).

Lemma set_idx_set_idx i j (x : xstate App) : set_idx i (set_idx j x) = set_idx i x.
Proof. reflexivity. Qed.

Lemma xs_idx_set_idx i (x : xstate App) : xs_idx (set_idx i x) = i.
Proof. reflexivity. Qed.

(** A program runs to completion when every [next] it calls does, and
    it never moves the route's index backwards. *)
Lemma run_prog_total (next : option err -> xstate App -> option (xstate App)) i :
  (forall e y, i <= xs_idx y ->
     exists y', next e y = Some y' /\ xs_idx y <= xs_idx y') ->
  forall p x, i <= xs_idx x ->
    exists x', run_prog next p x = Some x' /\ xs_idx x <= xs_idx x'.
Proof.
  intros Hnext p. induction p as [|c p IH]; intros x Hi; simpl.
  - eauto.
  - destruct c as [f|r|e|e].
    + destruct (IH (set_app (f (xs_app x)) x)) as (x' & -> & Hle); [exact Hi|].
      eauto.
    + destruct (xs_sent x); [now apply Hnext|].
      destruct (IH (send (r (xs_app x)) x)) as (x' & -> & Hle); [exact Hi|].
      eauto.
    + destruct (Hnext e x Hi) as (y & -> & Hy).
      destruct (IH y) as (x' & -> & Hle); [lia|]. exists x'. split; [reflexivity|lia].
    + now apply Hnext.
Qed.

(** Termination: with more fuel than layers left, the route's [next]
    returns, and it has moved the index forward. *)
Theorem next_fn_total fuel e (x : xstate App) :
  L - xs_idx x < fuel ->
  exists x', next_fn fuel e x = Some x' /\ xs_idx x < xs_idx x'.
Proof.
  revert e x. induction fuel as [|fuel IH]; intros e x Hf; [lia|].
  simpl. destruct (stack !! xs_idx x) as [l|] eqn:Hl.
  - assert (xs_idx x < L) by (apply lookup_lt_Some in Hl; lia).
    assert (Hrec : forall e' y, S (xs_idx x) <= xs_idx y ->
              exists y', next_fn fuel e' y = Some y' /\ xs_idx y <= xs_idx y').
    { intros e' y Hy. destruct (IH e' y) as (y' & ? & ?); [lia|]. exists y'. split; [done|lia]. }
    destruct (method_ok l (route_method stack rl)); [destruct e|].
    + destruct (IH (Some e) (set_idx (S (xs_idx x)) x)) as (x' & ? & ?); [simpl; lia|].
      exists x'. simpl in *. split; [done|lia].
    + destruct (run_prog_total _ _ Hrec (layer_handle l (xs_app (set_idx (S (xs_idx x)) x)))
                 (set_idx (S (xs_idx x)) x)) as (x' & ? & ?); [simpl; lia|].
      exists x'. simpl in *. split; [done|lia].
    + destruct (IH e (set_idx (S (xs_idx x)) x)) as (x' & ? & ?); [simpl; lia|].
      exists x'. simpl in *. split; [done|lia].
  - eexists. split; [reflexivity|]. unfold route_done.
    destruct (sync_exit && negb (xs_exited _)); simpl; [|lia].
    unfold app_exit, error_handler, emit, send, set_exited.
    destruct e; simpl; destruct (xs_sent x); simpl; lia.
Qed.

(** Two [next] functions that agree from index [i] on, and return
    there without moving the index back, run a program alike. *)
Lemma run_prog_ext (n1 n2 : option err -> xstate App -> option (xstate App)) i :
  (forall e y, i <= xs_idx y -> n1 e y = n2 e y) ->
  (forall e y, i <= xs_idx y -> exists y', n1 e y = Some y' /\ xs_idx y <= xs_idx y') ->
  forall p x, i <= xs_idx x -> run_prog n1 p x = run_prog n2 p x.
Proof.
  intros Heq Hnext p. induction p as [|c p IH]; intros x Hi; simpl; [reflexivity|].
  destruct c as [f|r|e|e].
  - apply IH. exact Hi.
  - destruct (xs_sent x); [apply Heq; exact Hi|apply IH; exact Hi].
  - rewrite <- (Heq e x Hi). destruct (Hnext e x Hi) as (y & -> & Hy). apply IH. lia.
  - apply Heq. exact Hi.
Qed.

(** The fuel is only a bound: any two amounts larger than the layers
    left give the same run, so [dispatch]'s [S L] is the run of the
    unbounded [next] of Express. *)
Lemma next_fn_fuel fuel fuel' e (x : xstate App) :
  L - xs_idx x < fuel -> L - xs_idx x < fuel' -> next_fn fuel e x = next_fn fuel' e x.
Proof.
  revert fuel' e x. induction fuel as [|fuel IH]; intros [|fuel'] e x Hf Hf'; try lia.
  simpl. destruct (stack !! xs_idx x) as [l|] eqn:Hl; [|reflexivity].
  assert (xs_idx x < L) by (apply lookup_lt_Some in Hl; lia).
  destruct (method_ok l (route_method stack rl)); [destruct e|];
    [apply IH; simpl; lia| |apply IH; simpl; lia].
  apply (run_prog_ext _ _ (S (xs_idx x))); [intros; apply IH; lia| |simpl; lia].
  intros e' y Hy. destruct (next_fn_total fuel e' y) as (y' & ? & ?); [lia|].
  exists y'. split; [done|lia].
Qed.

(** [dispatch] with any fuel above the route's length. *)
Lemma dispatch_fuel fuel (s : App) :
  S L <= fuel ->
  exists x, next_fn fuel None (init_x s) = Some x /\
            dispatch stack rl sync_exit s = Some (flush (rl_url rl) x).
Proof.
  intros Hf. destruct (next_fn_total fuel None (init_x s)) as (x & Hx & _); [simpl; lia|].
  exists x. split; [exact Hx|]. unfold dispatch.
  rewrite (next_fn_fuel (S L) fuel); [rewrite Hx; reflexivity|simpl; lia|simpl; lia].
Qed.

(** Express's dispatch of any route, from any state, terminates: the
    fuel of one step per layer plus one is enough for [next_fn] to
    return a state. *)
Corollary dispatch_total (s : App) : exists x, dispatch stack rl sync_exit s = Some x.
Proof.
  unfold dispatch.
  destruct (next_fn_total (S L) None (init_x s)) as (x & -> & _); [simpl; lia|].
  eexists. reflexivity.
Qed.

(** An error skips every remaining layer and leaves the route. *)
Lemma next_fn_err fuel e (x : xstate App) :
  L - xs_idx x < fuel ->
  next_fn fuel (Some e) x = Some (exit_at (Some e) x).
Proof.
  revert x. induction fuel as [|fuel IH]; intros x Hf; [lia|].
  simpl. destruct (stack !! xs_idx x) as [l|] eqn:Hl.
  - assert (xs_idx x < L) by (apply lookup_lt_Some in Hl; lia).
    assert (Hnext : next_fn fuel (Some e) (set_idx (S (xs_idx x)) x)
                    = Some (exit_at (Some e) x)).
    { rewrite IH by (simpl; lia). unfold exit_at.
      rewrite xs_idx_set_idx, set_idx_set_idx.
      replace (Nat.max L (S (xs_idx x))) with (Nat.max L (xs_idx x)) by lia.
      reflexivity. }
    destruct (method_ok l _); exact Hnext.
  - apply lookup_ge_None in Hl. unfold exit_at.
    replace (Nat.max L (xs_idx x)) with (xs_idx x) by lia. reflexivity.
Qed.

(** Past the end of the stack, [next(e)] leaves the route. *)
Lemma next_fn_past fuel e (x : xstate App) :
  L <= xs_idx x ->
  next_fn (S fuel) e x = Some (exit_at e x).
Proof.
  intros H. simpl. rewrite (proj2 (lookup_ge_None stack (xs_idx x)) H).
  unfold exit_at. replace (Nat.max L (xs_idx x)) with (xs_idx x) by lia. reflexivity.
Qed.
End DispatchFacts.

(** ** Validator shapes

    Every validator of the code runs a few assignments and then takes
    one of three forms: it passes ([next()], possibly followed by a late
    [next(err)]), it fails ([next(err)], possibly falling through to
    more assignments and a [next()]), or it throws.  A handler runs
    assignments and sends a response, or throws. *)

Section Chains.
Context {App : Type}.

Inductive vres :=
| VPass (pre : list (App -> App)) (late : option err)
| VFail (pre : list (App -> App)) (e : err) (post : option (list (App -> App)))
| VThrow (pre : list (App -> App)) (e : err).

Inductive hres :=
| HSend (pre : list (App -> App)) (r : App -> response)
| HThrow (pre : list (App -> App)) (e : err).

Definition effs (fs : list (App -> App)) : list (cmd App) := map CEff fs.

Definition vprog (v : vres) : list (cmd App) :=
  match v with
  | VPass pre late =>
      effs pre ++ CNext None :: match late with None => [] | Some e => [CNext (Some e)] end
  | VFail pre e post =>
      effs pre ++ CNext (Some e) :: match post with None => [] | Some fs => effs fs ++ [CNext None] end
  | VThrow pre e => effs pre ++ [CThrow e]
  end.

Definition hprog (h : hres) : list (cmd App) :=
  match h with
  | HSend pre r => effs pre ++ [CSend r]
  | HThrow pre e => effs pre ++ [CThrow e]
  end.

Definition apply_all (fs : list (App -> App)) (a : App) : App :=
  fold_left (fun a f => f a) fs a.

Definition run_effs (fs : list (App -> App)) (x : xstate App) : xstate App :=
  set_app (apply_all fs (xs_app x)) x.

Lemma run_prog_effs next fs p (x : xstate App) :
  run_prog next (effs fs ++ p) x = run_prog next p (run_effs fs x).
Proof.
  revert x. induction fs as [|f fs IH]; intros x; simpl.
  - unfold run_effs, set_app. destruct x. reflexivity.
  - rewrite IH. reflexivity.
Qed.

Lemma xs_idx_run_effs fs (x : xstate App) : xs_idx (run_effs fs x) = xs_idx x.
Proof. reflexivity. Qed.

Variables (stack : list (layer App)) (rl : reqline) (se : bool).

Abbreviation L := (length stack).
Abbreviation exit := (exit_at stack rl se).
Abbreviation M := (route_method stack rl).

(** The big-step semantics of a chain, entered at its first layer. *)
Fixpoint run_chain (vs : list (App -> vres)) (h : App -> hres) (x : xstate App) : xstate App :=
  match vs with
  | [] =>
      match h (xs_app x) with
      | HSend pre r =>
          let x1 := run_effs pre x in
          if xs_sent x1 then exit (Some ErrHeadersSent) x1 else send (r (xs_app x1)) x1
      | HThrow pre e => exit (Some e) (run_effs pre x)
      end
  | v :: vs' =>
      match v (xs_app x) with
      | VPass pre late =>
          let x1 := run_effs pre x in
          let x2 := run_chain vs' h (set_idx (S (xs_idx x1)) x1) in
          match late with None => x2 | Some e => exit (Some e) x2 end
      | VFail pre e post =>
          let x1 := exit (Some e) (run_effs pre x) in
          match post with None => x1 | Some fs => exit None (run_effs fs x1) end
      | VThrow pre e => exit (Some e) (run_effs pre x)
      end
  end.

(** The chain [vs] then the handler [h] occupy the layers from [k],
    each matching the request's method. *)
Definition layer_runs (k : nat) (p : App -> list (cmd App)) : Prop :=
  exists l, stack !! k = Some l /\ method_ok l M = true /\ forall a, layer_handle l a = p a.

Definition chain_at (k : nat) (vs : list (App -> vres)) (h : App -> hres) : Prop :=
  (forall i v, vs !! i = Some v -> layer_runs (k + i) (fun a => vprog (v a))) /\
  layer_runs (k + length vs) (fun a => hprog (h a)).

Lemma chain_at_cons k v vs h :
  chain_at k (v :: vs) h ->
  layer_runs k (fun a => vprog (v a)) /\ chain_at (S k) vs h.
Proof.
  intros [Hvs Hh]. split.
  - specialize (Hvs 0 v eq_refl). now rewrite Nat.add_0_r in Hvs.
  - split.
    + intros i v' Hi. specialize (Hvs (S i) v' Hi). now rewrite Nat.add_succ_r in Hvs.
    + simpl in Hh. now rewrite Nat.add_succ_r in Hh.
Qed.

Lemma exit_idx e (x : xstate App) : xs_idx x < xs_idx (exit e x).
Proof.
  unfold exit_at, route_done, app_exit, error_handler, emit, send, defer, set_exited.
  destruct (se && _), e; simpl; try destruct (xs_sent _); simpl; lia.
Qed.

Lemma run_chain_idx vs h (x : xstate App) : xs_idx x <= xs_idx (run_chain vs h x).
Proof.
  revert x. induction vs as [|v vs IH]; intros x; simpl.
  - destruct (h (xs_app x)) as [pre r|pre e].
    + destruct (xs_sent _); [pose proof (exit_idx (Some ErrHeadersSent) (run_effs pre x))|];
        simpl in *; lia.
    + pose proof (exit_idx (Some e) (run_effs pre x)). simpl in *. lia.
  - destruct (v (xs_app x)) as [pre [e|]|pre e [fs|]|pre e].
    + pose proof (IH (set_idx (S (xs_idx (run_effs pre x))) (run_effs pre x))).
      pose proof (exit_idx (Some e) (run_chain vs h (set_idx (S (xs_idx (run_effs pre x))) (run_effs pre x)))).
      simpl in *. lia.
    + pose proof (IH (set_idx (S (xs_idx (run_effs pre x))) (run_effs pre x))). simpl in *. lia.
    + pose proof (exit_idx (Some e) (run_effs pre x)).
      pose proof (exit_idx None (run_effs fs (exit (Some e) (run_effs pre x)))).
      simpl in *. lia.
    + pose proof (exit_idx (Some e) (run_effs pre x)). simpl in *. lia.
    + pose proof (exit_idx (Some e) (run_effs pre x)). simpl in *. lia.
Qed.

(** Express's [next] runs a chain as its big-step semantics says. *)
Theorem next_fn_chain vs h : forall k fuel (x : xstate App),
  chain_at k vs h -> xs_idx x = k -> L - k < fuel ->
  next_fn stack rl se fuel None x = Some (run_chain vs h (set_idx (S k) x)).
Proof.
  induction vs as [|v vs IH]; intros k fuel x Hc Hk Hf.
  - destruct Hc as [_ (l & Hl & Hm & Hp)]. rewrite Nat.add_0_r in Hl.
    assert (k < L) by (apply lookup_lt_Some in Hl; lia).
    destruct fuel as [|fuel]; [lia|]. simpl. rewrite Hk, Hl, Hm, Hp. simpl.
    destruct (h (xs_app x)) as [pre r|pre e]; simpl; rewrite run_prog_effs; simpl.
    + destruct (xs_sent _); [|reflexivity].
      apply next_fn_err. simpl. lia.
    + apply next_fn_err. simpl. lia.
  - apply chain_at_cons in Hc as [(l & Hl & Hm & Hp) Hc].
    assert (k < L) by (apply lookup_lt_Some in Hl; lia).
    destruct fuel as [|fuel]; [lia|]. simpl. rewrite Hk, Hl, Hm, Hp. simpl.
    destruct (v (xs_app x)) as [pre late|pre e post|pre e]; simpl; rewrite run_prog_effs; simpl.
    + rewrite (IH (S k)) by (simpl; lia || assumption). simpl.
      destruct late as [e|]; [|reflexivity]. simpl.
      rewrite next_fn_err; [reflexivity|].
      pose proof (run_chain_idx vs h (set_idx (S (S k)) (run_effs pre (set_idx (S k) x)))).
      simpl in *. lia.
    + rewrite next_fn_err by (simpl; lia).
      destruct post as [fs|]; simpl; [|reflexivity].
      rewrite run_prog_effs. simpl.
      destruct fuel as [|fuel]; [lia|].
      rewrite next_fn_past; [reflexivity|].
      rewrite xs_idx_run_effs. pose proof (exit_idx (Some e) (run_effs pre (set_idx (S k) x))).
      unfold exit_at at 1. unfold route_done, app_exit, error_handler, emit, send, defer, set_exited.
      destruct (se && _); simpl; try destruct (xs_sent _); simpl; lia.
    + apply next_fn_err. simpl. lia.
Qed.
End Chains.

Arguments vres : clear implicits.
Arguments hres : clear implicits.

(** ** The abstract pipeline and what the client observes

    The spec describes each validator as a pure function returning a
    result, composed in a fixed order that stops at the first failure.
    [pipeline] is that description, extended with what the code adds: a
    validator that passes and then calls [next(err)] ([late]), and the
    assignments a failing validator still performs.  [dispatch_pipeline]
    proves that Express running the chain gives the pipeline's state and
    response, and that the connection is destroyed exactly when some
    passing validator raised a late error. *)

Section Observation.
Context {App : Type}.
Variables (stack : list (layer App)) (rl : reqline) (se : bool).

Abbreviation url := (rl_url rl).
Abbreviation exit := (exit_at stack rl se).

Record presult := PResult { pr_app : App; pr_resp : response; pr_destroyed : bool }.

Fixpoint pipeline (vs : list (App -> vres App)) (h : App -> hres App) (a : App) : presult :=
  match vs with
  | [] =>
      match h a with
      | HSend pre r => let a' := apply_all pre a in PResult a' (r a') false
      | HThrow pre e => PResult (apply_all pre a) (RError (err_status e) e) false
      end
  | v :: vs' =>
      match v a with
      | VPass pre late =>
          let p := pipeline vs' h (apply_all pre a) in
          match late with None => p | Some _ => PResult (pr_app p) (pr_resp p) true end
      | VFail pre e post =>
          PResult (apply_all (pre ++ default [] post) a) (RError (err_status e) e) false
      | VThrow pre e => PResult (apply_all pre a) (RError (err_status e) e) false
      end
  end.

(** A request state before anything was sent or queued. *)
Definition clean (x : xstate App) : Prop :=
  xs_sent x = false /\ xs_exited x = false /\ xs_events x = [] /\ xs_deferred x = [].

(** Reaching the application implies a response was sent; a queued
    exit of a route that exits synchronously follows the first exit. *)
Definition coherent (x : xstate App) : Prop :=
  (xs_exited x = true -> xs_sent x = true) /\
  (se = true -> xs_deferred x <> [] -> xs_exited x = true).

(** The first signal of the request (a response or a route exit) has
    happened. *)
Definition settled (x : xstate App) : Prop :=
  xs_sent x = true \/ xs_exited x = true \/ xs_deferred x <> [].

Definition obs (x : xstate App) : list event := xs_events (flush url x).

Lemma flush_one_set_idx i (x : xstate App) e :
  flush_one url (set_idx i x) e = set_idx i (flush_one url x e).
Proof.
  destruct x as [a j sent ex evs d]. unfold flush_one, final_handler, app_exit, error_handler.
  simpl. destruct ex, e, sent; reflexivity.
Qed.

Lemma obs_set_idx i (x : xstate App) : obs (set_idx i x) = obs x.
Proof.
  unfold obs, flush. simpl.
  change (clear_deferred (set_idx i x)) with (set_idx i (clear_deferred x)).
  generalize (clear_deferred x). induction (xs_deferred x) as [|e d IH]; intros y; simpl.
  - reflexivity.
  - rewrite flush_one_set_idx. apply IH.
Qed.

Lemma flush_app (x : xstate App) : xs_app (flush url x) = xs_app x.
Proof.
  unfold flush. change (xs_app x) with (xs_app (clear_deferred x)).
  generalize (clear_deferred x). induction (xs_deferred x) as [|e d IH]; intros y; simpl.
  - reflexivity.
  - rewrite IH. unfold flush_one, final_handler, app_exit, error_handler.
    destruct (xs_exited y), e, (xs_sent _); reflexivity.
Qed.

Lemma flush_one_sent (x : xstate App) e : xs_sent (flush_one url x e) = true.
Proof.
  unfold flush_one, final_handler, app_exit, error_handler, emit, send, set_exited.
  cbn. destruct (xs_exited x), e, (xs_sent x) eqn:E; cbn; rewrite ?E; reflexivity.
Qed.

Lemma flush_one_events_sent (x : xstate App) e :
  xs_sent x = true ->
  xs_events (flush_one url x e) =
    xs_events x ++ match e, xs_exited x with None, true => [] | _, _ => [EDestroy] end.
Proof.
  intros Hs. unfold flush_one, final_handler, app_exit, error_handler, emit, send, set_exited.
  cbn. rewrite Hs. destruct (xs_exited x), e; rewrite ?app_nil_r; reflexivity.
Qed.

Lemma flush_defer (x : xstate App) e : flush url (defer e x) = flush_one url (flush url x) e.
Proof. unfold flush. simpl. rewrite fold_left_app. reflexivity. Qed.

Lemma flush_no_deferred (x : xstate App) : xs_deferred x = [] -> flush url x = x.
Proof. destruct x as [a i sn ex evs d]. simpl. intros ->. reflexivity. Qed.

(** A flag that every processed exit sets stays set through [flush]. *)
Lemma fold_flush_one_flag (P : xstate App -> bool) :
  (forall y d, P (flush_one url y d) = true) ->
  forall l y, P y = true \/ l <> [] -> P (fold_left (flush_one url) l y) = true.
Proof.
  intros HP l. induction l as [|d l IH]; intros y Hy; simpl.
  - destruct Hy as [Hy|Hy]; [exact Hy|congruence].
  - apply IH. left. apply HP.
Qed.

Lemma flush_one_exited (y : xstate App) d : xs_exited (flush_one url y d) = true.
Proof.
  unfold flush_one, final_handler, app_exit, error_handler, emit, send, set_exited.
  destruct (xs_exited y) eqn:E; cbn; [|destruct d, (xs_sent y); reflexivity].
  destruct d, (xs_sent y); cbn; rewrite ?E; reflexivity.
Qed.

Lemma flush_sent (x : xstate App) :
  coherent x -> settled x -> xs_sent (flush url x) = true.
Proof.
  intros [Hex _] Hs. unfold flush. apply fold_flush_one_flag; [apply flush_one_sent|].
  simpl. destruct Hs as [Hs|[Hs|Hs]]; auto.
Qed.

Lemma flush_exited (x : xstate App) :
  xs_exited x = true \/ xs_deferred x <> [] -> xs_exited (flush url x) = true.
Proof.
  intros Hx. unfold flush. apply fold_flush_one_flag; [apply flush_one_exited|].
  exact Hx.
Qed.

Lemma xs_app_exit e (x : xstate App) : xs_app (exit e x) = xs_app x.
Proof.
  unfold exit_at, route_done, app_exit, error_handler.
  destruct (se && _), e; try destruct (xs_sent _); reflexivity.
Qed.

(** A late error, after the first signal: the response is kept and the
    connection is destroyed. *)
Lemma obs_exit_late (x : xstate App) e :
  coherent x -> settled x ->
  obs (exit (Some e) x) = obs x ++ [EDestroy] /\
  coherent (exit (Some e) x) /\ settled (exit (Some e) x).
Proof.
  intros [Hc1 Hc2] Hs.
  assert (Hy : forall i, coherent (set_idx i x) /\ settled (set_idx i x))
    by (intros i; split; [split|]; assumption).
  unfold exit_at, route_done.
  change (xs_exited (set_idx ?i x)) with (xs_exited x).
  destruct (se && negb (xs_exited x)) eqn:Hb.
  - apply andb_true_iff in Hb as [Hse Hex]. apply negb_true_iff in Hex.
    assert (Hd : xs_deferred x = []).
    { destruct (xs_deferred x) eqn:E; [reflexivity|].
      rewrite (Hc2 Hse) in Hex by discriminate. discriminate. }
    assert (Hsent : xs_sent x = true) by (destruct Hs as [?|[?|?]]; congruence).
    unfold app_exit, error_handler, obs. cbn. rewrite Hsent.
    rewrite !flush_no_deferred by (cbn; exact Hd). cbn.
    split; [reflexivity|]. unfold coherent, settled; cbn. rewrite Hd.
    split; [split|]; auto.
  - unfold obs at 1. rewrite flush_defer, flush_one_events_sent
      by (apply flush_sent; apply Hy).
    rewrite <- (obs_set_idx (S (Nat.max (length stack) (xs_idx x))) x).
    split; [reflexivity|].
    unfold coherent, settled; cbn. split; [split|].
    + assumption.
    + intros Hse _. rewrite Hse in Hb. apply negb_false_iff in Hb. exact Hb.
    + right; right. destruct (xs_deferred x); discriminate.
Qed.

(** A second [next()] after the first exit changes nothing visible. *)
Lemma obs_exit_none (x : xstate App) :
  coherent x -> xs_exited x = true \/ xs_deferred x <> [] ->
  obs (exit None x) = obs x /\ coherent (exit None x) /\ settled (exit None x).
Proof.
  intros [Hc1 Hc2] Hx. unfold exit_at, route_done.
  change (xs_exited (set_idx ?i x)) with (xs_exited x).
  assert (Hb : se && negb (xs_exited x) = false).
  { destruct se eqn:Hse, (xs_exited x) eqn:Hex; try reflexivity.
    destruct Hx as [Hx|Hx]; [discriminate|]. specialize (Hc2 eq_refl Hx). congruence. }
  rewrite Hb. unfold obs at 1. rewrite flush_defer, flush_one_events_sent.
  2: { apply flush_sent; [split; assumption|]. right. exact Hx. }
  rewrite flush_exited by exact Hx. rewrite app_nil_r.
  rewrite <- (obs_set_idx (S (Nat.max (length stack) (xs_idx x))) x).
  split; [reflexivity|]. unfold coherent, settled; cbn. split; [split|].
  - assumption.
  - intros Hse _. rewrite Hse in Hb. apply negb_false_iff in Hb. exact Hb.
  - right; right. destruct (xs_deferred x); discriminate.
Qed.

(** The first exit, from a clean state, sends the error response. *)
Lemma obs_exit_clean (x : xstate App) e :
  clean x ->
  obs (exit (Some e) x) = [ESend (RError (err_status e) e)] /\
  coherent (exit (Some e) x) /\
  (xs_exited (exit (Some e) x) = true \/ xs_deferred (exit (Some e) x) <> []).
Proof.
  intros (Hs & Hex & Hev & Hd). unfold exit_at, route_done.
  change (xs_exited (set_idx ?i x)) with (xs_exited x). rewrite Hex.
  destruct se eqn:Hse; cbn.
  - unfold app_exit, error_handler, obs. cbn. rewrite Hs.
    rewrite flush_no_deferred by (cbn; exact Hd). cbn. rewrite ?Hev, ?Hd.
    split; [reflexivity|]. split; [split|]; auto.
  - unfold obs, flush. cbn. rewrite ?Hd. cbn.
    unfold flush_one, app_exit, error_handler. cbn. rewrite ?Hex, ?Hs. cbn. rewrite ?Hev.
    split; [reflexivity|]. split; [split|]; cbn; rewrite ?Hd, ?Hex; try congruence.
    right; cbn; discriminate.
Qed.

Lemma obs_send_clean (x : xstate App) r :
  clean x -> obs (send r x) = [ESend r] /\ coherent (send r x) /\ settled (send r x).
Proof.
  intros (Hs & Hex & Hev & Hd). unfold obs. rewrite flush_no_deferred by exact Hd.
  cbn. rewrite ?Hev, ?Hd. split; [reflexivity|]. split; [split|]; cbn; rewrite ?Hd; auto.
  left. reflexivity.
Qed.

Lemma clean_run_effs fs (x : xstate App) : clean x -> clean (run_effs fs x).
Proof. intros H. exact H. Qed.

Lemma clean_set_idx i (x : xstate App) : clean x -> clean (set_idx i x).
Proof. intros H. exact H. Qed.

Lemma coherent_run_effs fs (x : xstate App) : coherent x -> coherent (run_effs fs x).
Proof. intros H. exact H. Qed.

Lemma flush_one_set_app a (y : xstate App) d :
  flush_one url (set_app a y) d = set_app a (flush_one url y d).
Proof.
  destruct y as [b i sn ex evs q]. unfold flush_one, final_handler, app_exit, error_handler.
  cbn. destruct ex, d, sn; reflexivity.
Qed.

Lemma obs_run_effs fs (x : xstate App) : obs (run_effs fs x) = obs x.
Proof.
  assert (H : forall a l (y : xstate App),
    fold_left (flush_one url) l (set_app a y) = set_app a (fold_left (flush_one url) l y)).
  { intros a l. induction l as [|d l IH]; intros y; cbn; [reflexivity|].
    rewrite flush_one_set_app. apply IH. }
  unfold obs, flush, run_effs.
  change (clear_deferred (set_app ?a x)) with (set_app a (clear_deferred x)).
  cbn [xs_deferred set_app]. rewrite H. reflexivity.
Qed.

Lemma apply_all_app fs gs (a : App) : apply_all (fs ++ gs) a = apply_all gs (apply_all fs a).
Proof. unfold apply_all. apply fold_left_app. Qed.

Lemma first_response_snoc evs ev r :
  first_response evs = Some r -> first_response (evs ++ [ev]) = Some r.
Proof.
  induction evs as [|[r'|] evs IH]; cbn; intros H; [discriminate|exact H|auto].
Qed.

Lemma destroyed_snoc evs : destroyed (evs ++ [EDestroy]) = true.
Proof. unfold destroyed. rewrite existsb_app. cbn. apply orb_true_r. Qed.

(** What the client observes from a chain run is the pipeline's
    response, preceded by nothing, and a destroyed connection exactly
    when the pipeline says so. *)
Theorem run_chain_obs vs h : forall (x : xstate App),
  clean x ->
  let y := run_chain stack rl se vs h x in
  let p := pipeline vs h (xs_app x) in
  xs_app y = pr_app p /\ coherent y /\ settled y /\
  first_response (obs y) = Some (pr_resp p) /\ destroyed (obs y) = pr_destroyed p.
Proof.
  induction vs as [|v vs IH]; intros x Hx; cbn zeta.
  - unfold run_chain, pipeline. destruct (h (xs_app x)) as [pre r|pre e].
    + destruct Hx as (Hs & Hx'). unfold run_effs at 1. cbn. rewrite Hs.
      destruct (obs_send_clean (run_effs pre x) (r (apply_all pre (xs_app x))) (clean_run_effs pre x (conj Hs Hx')))
        as (Ho & Hc & Hst).
      split; [reflexivity|]. split; [exact Hc|]. split; [exact Hst|].
      rewrite Ho. split; reflexivity.
    + destruct (obs_exit_clean (run_effs pre x) e (clean_run_effs pre x Hx)) as (Ho & Hc & Hst).
      split; [apply xs_app_exit|]. split; [exact Hc|].
      split; [unfold settled; tauto|]. rewrite Ho. split; reflexivity.
  - cbn [run_chain pipeline]. destruct (v (xs_app x)) as [pre late|pre e post|pre e].
    + set (x1 := set_idx (S (xs_idx (run_effs pre x))) (run_effs pre x)).
      destruct (IH x1 (clean_set_idx _ _ (clean_run_effs pre x Hx)))
        as (Ha & Hc & Hst & Hr & Hd).
      destruct late as [e|].
      * destruct (obs_exit_late _ e Hc Hst) as (Ho & Hc' & Hst').
        split; [rewrite xs_app_exit; exact Ha|]. split; [exact Hc'|]. split; [exact Hst'|].
        rewrite Ho. split; [apply first_response_snoc; exact Hr|].
        apply destroyed_snoc.
      * split; [exact Ha|]. split; [exact Hc|]. split; [exact Hst|].
        split; [exact Hr|exact Hd].
    + destruct (obs_exit_clean (run_effs pre x) e (clean_run_effs pre x Hx)) as (Ho & Hc & Hst).
      destruct post as [fs|].
      * destruct (obs_exit_none (run_effs fs (exit (Some e) (run_effs pre x)))
                    (coherent_run_effs _ _ Hc) Hst) as (Ho' & Hc' & Hst').
        split; [rewrite xs_app_exit; cbn; rewrite xs_app_exit; cbn;
                symmetry; apply apply_all_app|].
        split; [exact Hc'|]. split; [exact Hst'|].
        rewrite Ho', obs_run_effs, Ho. split; reflexivity.
      * split; [rewrite xs_app_exit; cbn; now rewrite app_nil_r|].
        split; [exact Hc|]. split; [unfold settled; tauto|].
        rewrite Ho. split; reflexivity.
    + destruct (obs_exit_clean (run_effs pre x) e (clean_run_effs pre x Hx)) as (Ho & Hc & Hst).
      split; [apply xs_app_exit|]. split; [exact Hc|].
      split; [unfold settled; tauto|]. rewrite Ho. split; reflexivity.
Qed.
End Observation.

Section Pipeline.
Context {App : Type}.
Variables (stack : list (layer App)) (rl : reqline) (se : bool).

(** The layers before [k] belong to other methods. *)
Definition skipped_before (k : nat) : Prop :=
  forall i, i < k -> exists l, stack !! i = Some l /\ method_ok l (route_method stack rl) = false.

Lemma next_fn_skip k : skipped_before k -> forall d fuel (x : xstate App),
  d = k - xs_idx x -> xs_idx x <= k ->
  next_fn stack rl se (fuel + d) None x = next_fn stack rl se fuel None (set_idx k x).
Proof.
  intros Hk d. induction d as [|d IH]; intros fuel x Hd Hle.
  - assert (xs_idx x = k) as <- by lia. rewrite Nat.add_0_r.
    destruct x. reflexivity.
  - rewrite Nat.add_succ_r. destruct (Hk (xs_idx x)) as (l & Hl & Hm); [lia|].
    simpl. rewrite Hl, Hm. rewrite IH by (simpl; lia). reflexivity.
Qed.

(** Refinement: Express running a route whose layers for the request's
    method are the validators [vs] and the handler [h] gives exactly
    the state, the response and the connection fate of the abstract
    pipeline. *)
Theorem dispatch_pipeline k vs h (s : App) :
  skipped_before k -> chain_at stack rl k vs h ->
  exists x, dispatch stack rl se s = Some x /\
    xs_app x = pr_app (pipeline vs h s) /\
    outcome_of (xs_events x) =
      Outcome (Some (pr_resp (pipeline vs h s))) (pr_destroyed (pipeline vs h s)).
Proof.
  intros Hk Hc.
  assert (Hlt : k < length stack).
  { destruct Hc as [_ (l & Hl & _)]. apply lookup_lt_Some in Hl. lia. }
  unfold dispatch.
  replace (S (length stack)) with ((S (length stack) - k) + (k - xs_idx (init_x s)))
    by (simpl; lia).
  rewrite (next_fn_skip k Hk _ _ _ eq_refl) by (simpl; lia).
  rewrite (next_fn_chain stack rl se vs h k) by (simpl; lia || assumption).
  eexists. split; [reflexivity|].
  destruct (run_chain_obs stack rl se vs h (set_idx (S k) (set_idx k (init_x s))))
    as (Ha & _ & _ & Hr & Hd); [repeat split|].
  split.
  - rewrite flush_app. exact Ha.
  - unfold outcome_of. fold (obs rl (run_chain stack rl se vs h
                               (set_idx (S k) (set_idx k (init_x s))))).
    rewrite Hr, Hd. reflexivity.
Qed.

(** A route whose first layer for the request's method calls
    [next(e)] at once (as [methodNotAllowed] does) answers [e] and
    changes nothing. *)
Theorem dispatch_fail k e (s : App) :
  skipped_before k -> layer_runs stack rl k (fun _ => [CNext (Some e)]) ->
  exists x, dispatch stack rl se s = Some x /\ xs_app x = s /\
    outcome_of (xs_events x) = Outcome (Some (RError (err_status e) e)) false.
Proof.
  intros Hk (l & Hl & Hm & Hp).
  assert (Hlt : k < length stack) by (apply lookup_lt_Some in Hl; lia).
  unfold dispatch.
  replace (S (length stack)) with ((S (length stack) - k) + (k - xs_idx (init_x s)))
    by (simpl; lia).
  rewrite (next_fn_skip k Hk _ _ _ eq_refl) by (simpl; lia).
  replace (S (length stack) - k) with (S (length stack - k)) by lia.
  cbn [next_fn]. rewrite xs_idx_set_idx, Hl, Hm, Hp. cbn [run_prog].
  rewrite next_fn_err by (simpl; lia).
  eexists. split; [reflexivity|].
  destruct (obs_exit_clean stack rl se (set_idx (S k) (set_idx k (init_x s))) e)
    as (Ho & _ & _); [repeat split|].
  split.
  - rewrite flush_app, xs_app_exit. reflexivity.
  - unfold outcome_of. fold (obs rl (exit_at stack rl se (Some e) (set_idx (S k) (set_idx k (init_x s))))).
    rewrite Ho. reflexivity.
Qed.
End Pipeline.

(** Discharge one [layer_runs] goal of a concrete route: look the layer
    up, check its method with the route-method equation [Hr], and
    identify its program with [shape]. *)
Ltac solve_layer_runs Hr shape :=
  eexists; split; [reflexivity|]; split;
  [unfold method_ok; rewrite Hr; reflexivity
  |intros a; simpl; apply shape].
