(* ===== verification/Store.v ===== *)
(** * The repository: the arrays of dishes and orders, and [response.locals]

    The controllers keep their records in two module-level arrays,
    [dishes] (from [src/data/dishes-data]) and [orders] (from
    [src/data/orders-data]); a record is an object whose fields hold
    whatever the validated request body held.  A request's
    [response.locals] carries what the validators stage for the handlers:
    references to the found records (their positions) and the values
    read from the body.  [orders.controller.js] also assigns the
    undeclared variable [dishes], a global of the process shared by all
    requests ([st_global_dishes]).

    The ids come from [src/utils/nextId] (outside [src/]), modelled from
    the spec as the interface [IdGen]: a function of the ids in use that
    never returns one of them. *)

From S2P Require Import Prelude Json Express.

(** ** Records *)

Record dish := Dish {
  dish_id : string;
  dish_name : jsval;
  dish_description : jsval;
  dish_price : jsval;
  dish_image_url : jsval
}.

Record order := Order {
  order_id : string;
  order_deliverTo : jsval;
  order_mobileNumber : jsval;
  order_status : jsval;
  order_dishes : jsval
}.

(** The JSON of a record, with the fields in the order [create] writes them. *)
Definition dish_json (d : dish) : jsval :=
  JObj [("id", JStr (dish_id d)); ("name", dish_name d);
        ("description", dish_description d); ("price", dish_price d);
        ("image_url", dish_image_url d)].

Definition order_json (o : order) : jsval :=
  JObj [("id", JStr (order_id o)); ("deliverTo", order_deliverTo o);
        ("mobileNumber", order_mobileNumber o); ("status", order_status o);
        ("dishes", order_dishes o)].

(** ** [response.locals] *)

Record locals := Locals {
  loc_dish : option nat;
  loc_name : jsval;
  loc_description : jsval;
  loc_price : jsval;
  loc_image_url : jsval;
  loc_order : option nat;
  loc_deliverTo : jsval;
  loc_mobileNumber : jsval;
  loc_dishes : jsval;
  loc_status : jsval
}.

Definition no_locals : locals :=
  Locals None JUndefined JUndefined JUndefined JUndefined
         None JUndefined JUndefined JUndefined JUndefined.

Section LocalsSetters.
Variable l : locals.
Definition with_dish (i : option nat) : locals :=
  Locals i (loc_name l) (loc_description l) (loc_price l) (loc_image_url l)
    (loc_order l) (loc_deliverTo l) (loc_mobileNumber l) (loc_dishes l) (loc_status l).
Definition with_name (v : jsval) : locals :=
  Locals (loc_dish l) v (loc_description l) (loc_price l) (loc_image_url l)
    (loc_order l) (loc_deliverTo l) (loc_mobileNumber l) (loc_dishes l) (loc_status l).
Definition with_description (v : jsval) : locals :=
  Locals (loc_dish l) (loc_name l) v (loc_price l) (loc_image_url l)
    (loc_order l) (loc_deliverTo l) (loc_mobileNumber l) (loc_dishes l) (loc_status l).
Definition with_price (v : jsval) : locals :=
  Locals (loc_dish l) (loc_name l) (loc_description l) v (loc_image_url l)
    (loc_order l) (loc_deliverTo l) (loc_mobileNumber l) (loc_dishes l) (loc_status l).
Definition with_image_url (v : jsval) : locals :=
  Locals (loc_dish l) (loc_name l) (loc_description l) (loc_price l) v
    (loc_order l) (loc_deliverTo l) (loc_mobileNumber l) (loc_dishes l) (loc_status l).
Definition with_order (i : option nat) : locals :=
  Locals (loc_dish l) (loc_name l) (loc_description l) (loc_price l) (loc_image_url l)
    i (loc_deliverTo l) (loc_mobileNumber l) (loc_dishes l) (loc_status l).
Definition with_deliverTo (v : jsval) : locals :=
  Locals (loc_dish l) (loc_name l) (loc_description l) (loc_price l) (loc_image_url l)
    (loc_order l) v (loc_mobileNumber l) (loc_dishes l) (loc_status l).
Definition with_mobileNumber (v : jsval) : locals :=
  Locals (loc_dish l) (loc_name l) (loc_description l) (loc_price l) (loc_image_url l)
    (loc_order l) (loc_deliverTo l) v (loc_dishes l) (loc_status l).
Definition with_dishes (v : jsval) : locals :=
  Locals (loc_dish l) (loc_name l) (loc_description l) (loc_price l) (loc_image_url l)
    (loc_order l) (loc_deliverTo l) (loc_mobileNumber l) v (loc_status l).
Definition with_status (v : jsval) : locals :=
  Locals (loc_dish l) (loc_name l) (loc_description l) (loc_price l) (loc_image_url l)
    (loc_order l) (loc_deliverTo l) (loc_mobileNumber l) (loc_dishes l) v.
End LocalsSetters.

(** ** The process state *)

Record st := St {
  st_dishes : list dish;
  st_orders : list order;
  st_locals : locals;
  st_global_dishes : jsval
}.

Definition upd_locals (f : locals -> locals) (s : st) : st :=
  St (st_dishes s) (st_orders s) (f (st_locals s)) (st_global_dishes s).

Definition set_dishes (ds : list dish) (s : st) : st :=
  St ds (st_orders s) (st_locals s) (st_global_dishes s).

Definition set_orders (os : list order) (s : st) : st :=
  St (st_dishes s) os (st_locals s) (st_global_dishes s).

Definition set_global_dishes (v : jsval) (s : st) : st :=
  St (st_dishes s) (st_orders s) (st_locals s) v.

(** The ids in use. *)
Definition used_ids (s : st) : list string :=
  map dish_id (st_dishes s) ++ map order_id (st_orders s).

(** ** The id generator *)

Class IdGen := {
  nextId : list string -> string;
  nextId_fresh : forall used, nextId used ∉ used
}.

(** An implementation: a string longer than all the ids in use. *)
Fixpoint pad (n : nat) : string :=
  match n with O => EmptyString | S n => String (Ascii.ascii_of_nat 120) (pad n) end.

Definition long_id (used : list string) : string :=
  pad (S (sum_list (map String.length used))).

#[export] Instance long_idgen : IdGen.
Proof.
  refine {| nextId := long_id |}.
  intros used Hin.
  assert (Hpad : forall n, String.length (pad n) = n) by (induction n; simpl; auto).
  assert (Hle : forall u (l : list string), u ∈ l -> String.length u <= sum_list (map String.length l)).
  { intros u l. induction l as [|v l IH]; intros Hu; [apply not_elem_of_nil in Hu; contradiction|].
    apply elem_of_cons in Hu as [->|Hu]; simpl; [lia|]. specialize (IH Hu). lia. }
  apply Hle in Hin. unfold long_id in Hin. rewrite Hpad in Hin. lia.
Defined.

(** ** Requests *)

(** What a controller reads from [request]: the request line, the route
    parameter ([params.dishId] or [params.orderId]) and the parsed body. *)
Record request := Req { req_line : reqline; req_param : string; req_body : jsval }.

(** ** The shared validator pattern

    [dishHasName], [dishHasDescription], [dishHasImageUrl],
    [orderRequiresDeliverTo] and [orderRequiresMobileNumber] are the same
    function on different fields:
<<
  const { data: { k } } = request.body;
  if (!k || k === "") { next({ status: 400, message }); }
  response.locals.k = k;
  next();
>>
    the [if] has no [return], so a failing check falls through to the
    assignment and a second [next()]. *)
Definition require_text_field (k : string) (m : message) (store : locals -> jsval -> locals)
    (req : request) : middleware st :=
  fun _ =>
    match body_field (req_body req) k with
    | Err _ => [CThrow ErrTypeError]
    | Ok v =>
        (if negb (truthy v) || strict_eq_str v "" then [CNext (Some (ErrHttp 400 m))] else [])
        ++ [CEff (upd_locals (fun l => store l v)); CNext None]
    end.

(** Its shape. *)
Definition require_text_field_v (k : string) (m : message) (store : locals -> jsval -> locals)
    (req : request) : st -> vres st :=
  fun _ =>
    match body_field (req_body req) k with
    | Err _ => VThrow [] ErrTypeError
    | Ok v =>
        if negb (truthy v)
        then VFail [] (ErrHttp 400 m) (Some [upd_locals (fun l => store l v)])
        else VPass [upd_locals (fun l => store l v)] None
    end.

(** ** Lemmas *)

Lemma require_text_field_shape k m store req s :
  require_text_field k m store req s = vprog (require_text_field_v k m store req s).
Proof.
  unfold require_text_field, require_text_field_v.
  destruct (body_field (req_body req) k) as [v|]; [|reflexivity].
  rewrite truthy_empty_string. destruct (truthy v); reflexivity.
Qed.

Lemma st_dishes_upd_locals f s : st_dishes (upd_locals f s) = st_dishes s.
Proof. reflexivity. Qed.
Lemma st_orders_upd_locals f s : st_orders (upd_locals f s) = st_orders s.
Proof. reflexivity. Qed.
Lemma st_dishes_set_global v s : st_dishes (set_global_dishes v s) = st_dishes s.
Proof. reflexivity. Qed.
Lemma st_orders_set_global v s : st_orders (set_global_dishes v s) = st_orders s.
Proof. reflexivity. Qed.

#[export] Hint Rewrite st_dishes_upd_locals st_orders_upd_locals
  st_dishes_set_global st_orders_set_global : grub.
