(* ===== verification/Dishes.v ===== *)
(** * The dishes controller ([src/dishes/dishes.controller.js])

    [Module DishesController] translates every function of the file:
    the validators [dishExists], [dishIdAbsentOrMatches], [dishHasName],
    [dishHasDescription], [dishHasPrice], [priceIsPositiveInteger],
    [dishHasImageUrl], the handlers [create], [read], [update], [list],
    and the exported chains.  The router of [/dishes]
    ([src/dishes/dishes.router.js], outside [src/]) is modelled from the
    spec like the orders router: [/:dishId] answers [GET] and [PUT],
    [/] answers [POST] and [GET], anything else is [methodNotAllowed].

    Each validator comes with its shape ([_v]) for the pipeline theorem
    of [Express], and [DishSpec] states the spec's contract for creating
    and updating a dish as a pure function returning a result.  The
    theorems show that the Express execution of each chain implements
    that contract. *)

From S2P Require Import Prelude Json Express Store.

Module DishesController.
Section Controller.
Context `{IdGen}.

(** ** Validators *)

Definition dishExists (req : request) : middleware st :=
  fun s =>
    let dishId := req_param req in
    match js_find (fun d => bool_decide (dish_id d = dishId)) (st_dishes s) with
    | Some (i, _) => [CEff (upd_locals (fun l => with_dish l (Some i))); CNext None]
    | None => [CNext (Some (ErrHttp 404 (MsgDishNotFound dishId)))]
    end.

(** The message template interpolates the body's [id], whose
    conversion to a string throws for an object with an own
    [toString]. *)
Definition dishIdAbsentOrMatches (req : request) : middleware st :=
  fun _ =>
    match body_field (req_body req) "id" with
    | Err _ => [CThrow ErrTypeError]
    | Ok id =>
        if negb (truthy id) || strict_eq_str id (req_param req) then [CNext None]
        else if to_primitive_throws id then [CThrow ErrTypeError]
        else [CNext (Some (ErrHttp 400 (MsgDishIdMismatch id (req_param req))))]
    end.

Definition dishHasName : request -> middleware st :=
  require_text_field "name" MsgDishName with_name.

Definition dishHasDescription : request -> middleware st :=
  require_text_field "description" MsgDishDescription with_description.

Definition dishHasPrice (req : request) : middleware st :=
  fun _ =>
    match body_field (req_body req) "price" with
    | Err _ => [CThrow ErrTypeError]
    | Ok price =>
        (if negb (truthy price) then [CNext (Some (ErrHttp 400 MsgDishPrice))] else [])
        ++ [CEff (upd_locals (fun l => with_price l price)); CNext None]
    end.

(** [if (price <= 0 || !Number.isInteger(price)) next(err); next();] *)
Definition priceIsPositiveInteger (req : request) : middleware st :=
  fun s =>
    let price := loc_price (st_locals s) in
    match (c ← js_le_zero price; Ok (kor c (Some (negb (number_isInteger price))))
           : js (option bool)) with
    | Err _ => [CThrow ErrTypeError]
    | Ok c =>
        match c with
        | Some false => []
        | _ => [CNext (Some (ErrHttp 400 MsgDishPriceInvalid))]
        end ++ [CNext None]
    end.

Definition dishHasImageUrl : request -> middleware st :=
  require_text_field "image_url" MsgDishImageUrl with_image_url.

(** ** Handlers *)

(** The new dish, from the body, with a fresh id. *)
Definition new_dish (body : jsval) (s : st) : js dish :=
  data ← get_prop body "data";
  name ← get_prop data "name";
  description ← get_prop data "description";
  price ← get_prop data "price";
  image_url ← get_prop data "image_url";
  Ok (Dish (nextId (used_ids s)) name description price image_url).

Definition create (req : request) : middleware st :=
  fun s =>
    match new_dish (req_body req) s with
    | Err _ => [CThrow ErrTypeError]
    | Ok d =>
        [CEff (fun s => set_dishes (js_push (st_dishes s) d) s);
         CSend (fun _ => RJson 201 (JObj [("data", dish_json d)]))]
    end.

(** [response.locals.dish] as JSON ([undefined] when absent). *)
Definition found_dish_json (s : st) : jsval :=
  match loc_dish (st_locals s) with
  | Some i => from_option dish_json JUndefined (st_dishes s !! i)
  | None => JUndefined
  end.

Definition read (req : request) : middleware st :=
  fun _ => [CSend (fun s => RJson 200 (JObj [("data", found_dish_json s)]))].

(** The four assignments to the found dish, which keep its id. *)
Definition overwrite_dish (l : locals) (d : dish) : dish :=
  Dish (dish_id d) (loc_name l) (loc_description l) (loc_price l) (loc_image_url l).

Definition update (req : request) : middleware st :=
  fun s =>
    let l := st_locals s in
    match loc_dish l with
    | None => [CThrow ErrTypeError]
    | Some i =>
        [CEff (fun s => set_dishes (alter (overwrite_dish l) i (st_dishes s)) s);
         CSend (fun s => RJson 200 (JObj [("data", found_dish_json s)]))]
    end.

Definition list (req : request) : middleware st :=
  fun _ => [CSend (fun s => RJson 200 (JObj [("data", JArr (map dish_json (st_dishes s)))]))].

(** ** The exported chains *)

Definition create_chain (req : request) : Datatypes.list (middleware st) :=
  [dishHasName req; dishHasDescription req; dishHasPrice req;
   priceIsPositiveInteger req; dishHasImageUrl req; create req].

Definition update_chain (req : request) : Datatypes.list (middleware st) :=
  [dishExists req; dishIdAbsentOrMatches req; dishHasName req; dishHasDescription req;
   dishHasPrice req; priceIsPositiveInteger req; dishHasImageUrl req; update req].

Definition read_chain (req : request) : Datatypes.list (middleware st) :=
  [dishExists req; read req].

(** ** The router of [/dishes] (from the spec) *)

Definition item_stack (req : request) : Datatypes.list (layer st) :=
  map (Layer (Some GET)) (read_chain req) ++
  map (Layer (Some PUT)) (update_chain req) ++
  [Layer None (methodNotAllowed (req_line req))].

Definition collection_stack (req : request) : Datatypes.list (layer st) :=
  map (Layer (Some POST)) (create_chain req) ++
  [Layer (Some GET) (list req); Layer None (methodNotAllowed (req_line req))].

(** ** Shapes *)

Definition dishExists_v (req : request) : st -> vres st :=
  fun s =>
    match js_find (fun d => bool_decide (dish_id d = req_param req)) (st_dishes s) with
    | Some (i, _) => VPass [upd_locals (fun l => with_dish l (Some i))] None
    | None => VFail [] (ErrHttp 404 (MsgDishNotFound (req_param req))) None
    end.

Definition dishIdAbsentOrMatches_v (req : request) : st -> vres st :=
  fun _ =>
    match body_field (req_body req) "id" with
    | Err _ => VThrow [] ErrTypeError
    | Ok id =>
        if negb (truthy id) || strict_eq_str id (req_param req) then VPass [] None
        else if to_primitive_throws id then VThrow [] ErrTypeError
        else VFail [] (ErrHttp 400 (MsgDishIdMismatch id (req_param req))) None
    end.

Definition dishHasPrice_v (req : request) : st -> vres st :=
  fun _ =>
    match body_field (req_body req) "price" with
    | Err _ => VThrow [] ErrTypeError
    | Ok price =>
        if negb (truthy price)
        then VFail [] (ErrHttp 400 MsgDishPrice) (Some [upd_locals (fun l => with_price l price)])
        else VPass [upd_locals (fun l => with_price l price)] None
    end.

Definition priceIsPositiveInteger_v (req : request) : st -> vres st :=
  fun s =>
    let price := loc_price (st_locals s) in
    if to_primitive_throws price then VThrow [] ErrTypeError
    else if is_pos_int price then VPass [] None
    else VFail [] (ErrHttp 400 MsgDishPriceInvalid) (Some []).

Definition create_h (req : request) : st -> hres st :=
  fun s =>
    match new_dish (req_body req) s with
    | Err _ => HThrow [] ErrTypeError
    | Ok d =>
        HSend [fun s => set_dishes (js_push (st_dishes s) d) s]
              (fun _ => RJson 201 (JObj [("data", dish_json d)]))
    end.

Definition create_vs (req : request) : Datatypes.list (st -> vres st) :=
  [require_text_field_v "name" MsgDishName with_name req;
   require_text_field_v "description" MsgDishDescription with_description req;
   dishHasPrice_v req; priceIsPositiveInteger_v req;
   require_text_field_v "image_url" MsgDishImageUrl with_image_url req].
Definition update_h (req : request) : st -> hres st :=
  fun s =>
    let l := st_locals s in
    match loc_dish l with
    | None => HThrow [] ErrTypeError
    | Some i =>
        HSend [fun s => set_dishes (alter (overwrite_dish l) i (st_dishes s)) s]
              (fun s => RJson 200 (JObj [("data", found_dish_json s)]))
    end.

Definition read_h (req : request) : st -> hres st :=
  fun _ => HSend [] (fun s => RJson 200 (JObj [("data", found_dish_json s)])).

Definition list_h (req : request) : st -> hres st :=
  fun _ => HSend [] (fun s => RJson 200 (JObj [("data", JArr (map dish_json (st_dishes s)))])).

Definition update_vs (req : request) : Datatypes.list (st -> vres st) :=
  [dishExists_v req; dishIdAbsentOrMatches_v req] ++ create_vs req.

(** What the five field validators leave in [response.locals]. *)
Definition dish_fields_locals (name description price image_url : jsval) (l : locals) : locals :=
  with_image_url (with_price (with_description (with_name l name) description) price) image_url.
End Controller.
End DishesController.

(** ** The spec's contract for creating a dish *)

Module DishSpec.
Section Spec.
Context `{IdGen}.

Definition lift_js {A} (r : js A) : result err A :=
  match r with Ok a => Ok a | Err _ => Err ErrTypeError end.

Definition require (b : bool) (e : err) : result err unit :=
  if b then Ok tt else Err e.

(** The validation of [POST /dishes], in the spec's order, with the
    code's two additions: a body without [data] and a price whose
    conversion throws give a TypeError (500). *)
Definition validate_dish (body : jsval) : result err (jsval * jsval * jsval * jsval) :=
  name ← lift_js (body_field body "name");
  require (truthy name) (ErrHttp 400 MsgDishName);;
  description ← lift_js (body_field body "description");
  require (truthy description) (ErrHttp 400 MsgDishDescription);;
  price ← lift_js (body_field body "price");
  require (truthy price) (ErrHttp 400 MsgDishPrice);;
  require (negb (to_primitive_throws price)) ErrTypeError;;
  require (is_pos_int price) (ErrHttp 400 MsgDishPriceInvalid);;
  image_url ← lift_js (body_field body "image_url");
  require (truthy image_url) (ErrHttp 400 MsgDishImageUrl);;
  Ok (name, description, price, image_url).

(** Create: mint an id, append the record, respond 201 with it. *)
Definition create_spec (body : jsval) (s : st) : list dish * response :=
  match validate_dish body with
  | Err e => (st_dishes s, RError (err_status e) e)
  | Ok (name, description, price, image_url) =>
      let d := Dish (nextId (used_ids s)) name description price image_url in
      (st_dishes s ++ [d], RJson 201 (JObj [("data", dish_json d)]))
  end.
(** The repository's [find(id)]. *)
Definition find_dish (dishId : string) (ds : list dish) : option (nat * dish) :=
  js_find (fun d => bool_decide (dish_id d = dishId)) ds.

(** A body [id], when present, must be the route's. *)
Definition check_id (dishId : string) (body : jsval) : result err unit :=
  id ← lift_js (body_field body "id");
  if negb (truthy id) || strict_eq_str id dishId then Ok tt
  else if to_primitive_throws id then Err ErrTypeError
  else Err (ErrHttp 400 (MsgDishIdMismatch id dishId)).

(** Update: the found record's mutable fields are replaced, its id kept. *)
Definition update_spec (dishId : string) (body : jsval) (s : st) : list dish * response :=
  match find_dish dishId (st_dishes s) with
  | None => (st_dishes s, RError 404 (ErrHttp 404 (MsgDishNotFound dishId)))
  | Some (i, d) =>
      match check_id dishId body;; validate_dish body with
      | Err e => (st_dishes s, RError (err_status e) e)
      | Ok (name, description, price, image_url) =>
          let d' := Dish (dish_id d) name description price image_url in
          (<[i := d']> (st_dishes s), RJson 200 (JObj [("data", dish_json d')]))
      end
  end.

(** Read: the stored record, or 404. *)
Definition read_spec (dishId : string) (s : st) : response :=
  match find_dish dishId (st_dishes s) with
  | None => RError 404 (ErrHttp 404 (MsgDishNotFound dishId))
  | Some (_, d) => RJson 200 (JObj [("data", dish_json d)])
  end.
End Spec.
End DishSpec.

(** ** Proofs *)

Import DishesController DishSpec.

Section DishProofs.
Context `{IdGen}.

Lemma dishExists_shape req s : dishExists req s = vprog (dishExists_v req s).
Proof. unfold dishExists, dishExists_v. destruct (js_find _ _) as [[i d]|]; reflexivity. Qed.

Lemma dishIdAbsentOrMatches_shape req s :
  dishIdAbsentOrMatches req s = vprog (dishIdAbsentOrMatches_v req s).
Proof.
  unfold dishIdAbsentOrMatches, dishIdAbsentOrMatches_v.
  destruct (body_field _ _) as [id|]; [|reflexivity].
  destruct (_ || _); [reflexivity|]. destruct (to_primitive_throws id); reflexivity.
Qed.

Lemma dishHasPrice_shape req s : dishHasPrice req s = vprog (dishHasPrice_v req s).
Proof.
  unfold dishHasPrice, dishHasPrice_v.
  destruct (body_field _ _) as [p|]; [|reflexivity]. destruct (truthy p); reflexivity.
Qed.

Lemma priceIsPositiveInteger_shape req s :
  priceIsPositiveInteger req s = vprog (priceIsPositiveInteger_v req s).
Proof.
  unfold priceIsPositiveInteger, priceIsPositiveInteger_v. cbv zeta.
  rewrite le_zero_or_not_integer.
  destruct (to_primitive_throws _); [reflexivity|]. destruct (is_pos_int _); reflexivity.
Qed.

Lemma dish_create_shape req s : create req s = hprog (create_h req s).
Proof. unfold create, create_h. destruct (new_dish _ _); reflexivity. Qed.

Lemma dish_create_chain_at req :
  rl_method (req_line req) = POST ->
  skipped_before (collection_stack req) (req_line req) 0 /\
  chain_at (collection_stack req) (req_line req) 0 (create_vs req) (create_h req).
Proof.
  intros Hm.
  assert (Hr : route_method (collection_stack req) (req_line req) = POST)
    by (unfold route_method; rewrite Hm; reflexivity).
  split; [intros i Hi; lia|]. split.
  - intros i v Hi.
    destruct i as [|[|[|[|[|i]]]]]; simpl in Hi;
      [..|rewrite lookup_nil in Hi; discriminate]; inv_res;
      first [solve_layer_runs Hr require_text_field_shape
            |solve_layer_runs Hr dishHasPrice_shape
            |solve_layer_runs Hr priceIsPositiveInteger_shape].
  - solve_layer_runs Hr dish_create_shape.
Qed.

Lemma new_dish_ok body s name description price image_url :
  body_field body "name" = Ok name ->
  body_field body "description" = Ok description ->
  body_field body "price" = Ok price ->
  body_field body "image_url" = Ok image_url ->
  new_dish body s = Ok (Dish (nextId (used_ids s)) name description price image_url).
Proof.
  unfold body_field, new_dish. destruct (get_prop body "data"); simpl; [|discriminate].
  intros -> -> -> ->. reflexivity.
Qed.

Lemma validate_dish_ok body name description price image_url :
  validate_dish body = Ok (name, description, price, image_url) ->
  body_field body "name" = Ok name /\ truthy name = true /\
  body_field body "description" = Ok description /\ truthy description = true /\
  body_field body "price" = Ok price /\ is_pos_int price = true /\
  body_field body "image_url" = Ok image_url /\ truthy image_url = true.
Proof.
  unfold validate_dish, require, lift_js.
  destruct (body_field body "name") as [n|]; [|discriminate]; cbn.
  destruct (truthy n) eqn:?; [|discriminate]; cbn.
  destruct (body_field body "description") as [d|]; [|discriminate]; cbn.
  destruct (truthy d) eqn:?; [|discriminate]; cbn.
  destruct (body_field body "price") as [p|]; [|discriminate]; cbn.
  destruct (truthy p); [|discriminate]; cbn.
  destruct (to_primitive_throws p); [discriminate|]; cbn.
  destruct (is_pos_int p) eqn:?; [|discriminate]; cbn.
  destruct (body_field body "image_url") as [i|]; [|discriminate]; cbn.
  destruct (truthy i) eqn:?; [|discriminate]; cbn.
  intros H'. injection H' as <- <- <- <-. auto 10.
Qed.

(** The five field validators, as a pipeline prefix, are [validate_dish]:
    on a failure nothing but [response.locals] changes and the error is
    the response; on success the handler runs with the fields staged. *)
Lemma dish_fields_pipeline req (h : st -> hres st) s :
  match validate_dish (req_body req) with
  | Err e =>
      let p := pipeline (create_vs req) h s in
      st_dishes (pr_app p) = st_dishes s /\ st_orders (pr_app p) = st_orders s /\
      pr_resp p = RError (err_status e) e /\ pr_destroyed p = false
  | Ok (name, description, price, image_url) =>
      pipeline (create_vs req) h s =
      pipeline [] h (upd_locals (dish_fields_locals name description price image_url) s)
  end.
Proof.
  unfold validate_dish, require, lift_js, create_vs. cbn -[pipeline].
  unfold require_text_field_v, dishHasPrice_v, priceIsPositiveInteger_v. cbn.
  destruct (body_field _ "name") as [n|]; cbn; [|auto].
  destruct (truthy n); cbn; [|auto].
  destruct (body_field _ "description") as [d|]; cbn; [|auto].
  destruct (truthy d); cbn; [|auto].
  destruct (body_field _ "price") as [p|]; cbn; [|auto].
  destruct (truthy p); cbn; [|auto].
  destruct (to_primitive_throws p); cbn; [auto|].
  destruct (is_pos_int p); cbn; [|auto].
  destruct (body_field _ "image_url") as [i|]; cbn; [|auto].
  destruct (truthy i); cbn; [reflexivity|auto].
Qed.

(** The pipeline of [POST /dishes] is the spec's contract. *)
Lemma dish_create_pipeline req s :
  let p := pipeline (create_vs req) (create_h req) s in
  st_dishes (pr_app p) = fst (create_spec (req_body req) s) /\
  st_orders (pr_app p) = st_orders s /\
  pr_resp p = snd (create_spec (req_body req) s) /\
  pr_destroyed p = false.
Proof.
  pose proof (dish_fields_pipeline req (create_h req) s) as Hp.
  unfold create_spec. destruct (validate_dish (req_body req)) as [[[[n d] p] i]|e] eqn:Hv;
    [|exact Hp].
  cbn zeta. rewrite Hp. apply validate_dish_ok in Hv as (En & _ & Ed & _ & Ep & _ & Ei & _).
  unfold create_h. cbn. rewrite (new_dish_ok _ _ n d p i En Ed Ep Ei). cbn. auto.
Qed.

(** C1 (refinement): [POST /dishes], run by Express through the route's
    layers, stores and answers exactly what the spec's validation
    pipeline prescribes, and never destroys the connection. *)
Theorem dish_create_refines req s se :
  rl_method (req_line req) = POST ->
  exists x, dispatch (collection_stack req) (req_line req) se s = Some x /\
    st_dishes (xs_app x) = fst (create_spec (req_body req) s) /\
    st_orders (xs_app x) = st_orders s /\
    outcome_of (xs_events x) = Outcome (Some (snd (create_spec (req_body req) s))) false.
Proof.
  intros Hm. destruct (dish_create_chain_at req Hm) as [Hk Hc].
  destruct (dispatch_pipeline _ _ se 0 _ _ s Hk Hc) as (x & Hx & Ha & Ho).
  destruct (dish_create_pipeline req s) as (H1 & H2 & H3 & H4).
  exists x. split; [exact Hx|]. clear Hx. rewrite Ha, Ho, H1, H2, H3, H4. auto.
Qed.

Lemma dish_update_shape req s : update req s = hprog (update_h req s).
Proof. unfold update, update_h. destruct (loc_dish _); reflexivity. Qed.

Lemma dish_read_shape req s : read req s = hprog (read_h req s).
Proof. reflexivity. Qed.

Lemma dish_list_shape req s : list req s = hprog (list_h req s).
Proof. reflexivity. Qed.

Lemma dish_update_chain_at req :
  rl_method (req_line req) = PUT ->
  skipped_before (item_stack req) (req_line req) 2 /\
  chain_at (item_stack req) (req_line req) 2 (update_vs req) (update_h req).
Proof.
  intros Hm.
  assert (Hr : route_method (item_stack req) (req_line req) = PUT)
    by (unfold route_method; rewrite Hm; reflexivity).
  split; [|split].
  - intros i Hi. destruct i as [|[|i]]; [| |lia];
      (eexists; split; [reflexivity|]; unfold method_ok; rewrite Hr; reflexivity).
  - intros i v Hi.
    destruct i as [|[|[|[|[|[|[|i]]]]]]]; simpl in Hi;
      [..|rewrite lookup_nil in Hi; discriminate]; inv_res;
      first [solve_layer_runs Hr dishExists_shape
            |solve_layer_runs Hr dishIdAbsentOrMatches_shape
            |solve_layer_runs Hr require_text_field_shape
            |solve_layer_runs Hr dishHasPrice_shape
            |solve_layer_runs Hr priceIsPositiveInteger_shape].
  - solve_layer_runs Hr dish_update_shape.
Qed.

Lemma dish_update_pipeline req s :
  let p := pipeline (update_vs req) (update_h req) s in
  st_dishes (pr_app p) = fst (update_spec (req_param req) (req_body req) s) /\
  st_orders (pr_app p) = st_orders s /\
  pr_resp p = snd (update_spec (req_param req) (req_body req) s) /\
  pr_destroyed p = false.
Proof.
  unfold update_spec, find_dish, check_id, lift_js, update_vs. cbn -[create_vs].
  unfold dishExists_v, dishIdAbsentOrMatches_v.
  destruct (js_find _ (st_dishes s)) as [[i d]|] eqn:Ef; cbn -[create_vs]; [|auto].
  apply js_find_Some in Ef as (Hl & _ & _).
  destruct (body_field _ "id") as [id|]; cbn -[create_vs]; [|auto].
  destruct (_ || _); cbn -[create_vs];
    [|destruct (to_primitive_throws id); cbn; auto].
  match goal with |- context [pipeline (create_vs req) (update_h req) ?s1] =>
    pose proof (dish_fields_pipeline req (update_h req) s1) as Hp end.
  destruct (validate_dish (req_body req)) as [[[[n de] p] im]|e]; cbn -[create_vs];
    [|exact Hp].
  rewrite Hp. cbn. rewrite (alter_as_insert _ _ _ _ Hl).
  rewrite list_lookup_insert_eq by (eapply lookup_lt_Some; exact Hl).
  cbn. auto.
Qed.

(** C5 (refinement): [PUT /dishes/:dishId] replaces the found dish's
    mutable fields with the validated values, keeping its id, answers
    200 with the updated record, or answers the first failing check's
    error (404 for an unknown id) and changes nothing; the connection is
    never destroyed. *)
Theorem dish_update_refines req s se :
  rl_method (req_line req) = PUT ->
  exists x, dispatch (item_stack req) (req_line req) se s = Some x /\
    st_dishes (xs_app x) = fst (update_spec (req_param req) (req_body req) s) /\
    st_orders (xs_app x) = st_orders s /\
    outcome_of (xs_events x) =
      Outcome (Some (snd (update_spec (req_param req) (req_body req) s))) false.
Proof.
  intros Hm. destruct (dish_update_chain_at req Hm) as [Hk Hc].
  destruct (dispatch_pipeline _ _ se 2 _ _ s Hk Hc) as (x & Hx & Ha & Ho).
  destruct (dish_update_pipeline req s) as (H1 & H2 & H3 & H4).
  exists x. rewrite Ha, Ho, H1, H2, H3, H4. auto.
Qed.

Lemma dish_read_chain_at req :
  rl_method (req_line req) = GET \/ rl_method (req_line req) = HEAD ->
  skipped_before (item_stack req) (req_line req) 0 /\
  chain_at (item_stack req) (req_line req) 0 [dishExists_v req] (read_h req).
Proof.
  intros Hm.
  assert (Hr : route_method (item_stack req) (req_line req) = GET)
    by (unfold route_method; destruct Hm as [Hm|Hm]; rewrite Hm; reflexivity).
  split; [intros i Hi; lia|]. split.
  - intros i v Hi. destruct i as [|i]; simpl in Hi;
      [|rewrite lookup_nil in Hi; discriminate]; inv_res.
    solve_layer_runs Hr dishExists_shape.
  - solve_layer_runs Hr dish_read_shape.
Qed.

Lemma dish_read_pipeline req s :
  let p := pipeline [dishExists_v req] (read_h req) s in
  st_dishes (pr_app p) = st_dishes s /\ st_orders (pr_app p) = st_orders s /\
  pr_resp p = read_spec (req_param req) s /\ pr_destroyed p = false.
Proof.
  unfold read_spec, find_dish, dishExists_v. cbn.
  destruct (js_find _ (st_dishes s)) as [[i d]|] eqn:Ef; cbn; [|auto].
  apply js_find_Some in Ef as (Hl & _ & _). unfold found_dish_json. cbn.
  rewrite Hl. auto.
Qed.

(** C18 (functional): [GET] (and [HEAD]) [/dishes/:dishId] answers 200
    with exactly the stored record, or 404 for an unknown id, and
    changes no record. *)
Theorem dish_read_refines req s se :
  rl_method (req_line req) = GET \/ rl_method (req_line req) = HEAD ->
  exists x, dispatch (item_stack req) (req_line req) se s = Some x /\
    st_dishes (xs_app x) = st_dishes s /\ st_orders (xs_app x) = st_orders s /\
    outcome_of (xs_events x) = Outcome (Some (read_spec (req_param req) s)) false.
Proof.
  intros Hm. destruct (dish_read_chain_at req Hm) as [Hk Hc].
  destruct (dispatch_pipeline _ _ se 0 _ _ s Hk Hc) as (x & Hx & Ha & Ho).
  destruct (dish_read_pipeline req s) as (H1 & H2 & H3 & H4).
  exists x. split; [exact Hx|]. clear Hx. rewrite Ha, Ho, H1, H2, H3, H4. auto.
Qed.

Lemma dish_list_chain_at req :
  rl_method (req_line req) = GET \/ rl_method (req_line req) = HEAD ->
  skipped_before (collection_stack req) (req_line req) 6 /\
  chain_at (collection_stack req) (req_line req) 6 [] (list_h req).
Proof.
  intros Hm.
  assert (Hr : route_method (collection_stack req) (req_line req) = GET)
    by (unfold route_method; destruct Hm as [Hm|Hm]; rewrite Hm; reflexivity).
  split.
  - intros i Hi. destruct i as [|[|[|[|[|[|i]]]]]]; [..|lia];
      (eexists; split; [reflexivity|]; unfold method_ok; rewrite Hr; reflexivity).
  - split; [intros i v Hi; rewrite lookup_nil in Hi; discriminate|].
    solve_layer_runs Hr dish_list_shape.
Qed.

(** C20 (functional): [GET /dishes] answers 200 with every stored dish,
    in insertion order, and changes nothing. *)
Theorem dish_list_refines req s se :
  rl_method (req_line req) = GET \/ rl_method (req_line req) = HEAD ->
  exists x, dispatch (collection_stack req) (req_line req) se s = Some x /\
    xs_app x = s /\
    outcome_of (xs_events x) =
      Outcome (Some (RJson 200 (JObj [("data", JArr (map dish_json (st_dishes s)))]))) false.
Proof.
  intros Hm. destruct (dish_list_chain_at req Hm) as [Hk Hc].
  destruct (dispatch_pipeline _ _ se 6 _ _ s Hk Hc) as (x & Hx & Ha & Ho).
  exists x. split; [exact Hx|]. clear Hx. rewrite Ha, Ho. auto.
Qed.
End DishProofs.

(** ** Witnesses *)

(** The spec's end-to-end example: [POST /dishes] with a taco. *)
Definition taco_data : jsval :=
  JObj [("name", JStr "Taco"); ("description", JStr "Spicy"); ("price", JInt 8);
        ("image_url", JStr "http://x")].

Definition post_taco : request :=
  Req (ReqLine POST "/dishes") "" (JObj [("data", taco_data)]).

Definition empty_store : st := St [] [] no_locals JUndefined.

Lemma dish_create_refines_witness :
  rl_method (req_line post_taco) = POST /\
  exists x, dispatch (collection_stack post_taco) (req_line post_taco) false empty_store = Some x /\
    st_dishes (xs_app x) = fst (create_spec (req_body post_taco) empty_store) /\
    st_orders (xs_app x) = st_orders empty_store /\
    outcome_of (xs_events x) =
      Outcome (Some (snd (create_spec (req_body post_taco) empty_store))) false.
Proof. split; [reflexivity|]. apply (dish_create_refines post_taco empty_store false). reflexivity. Defined.

Definition taco_store : st :=
  St [Dish "1" (JStr "Taco") (JStr "Spicy") (JInt 8) (JStr "http://x")] [] no_locals JUndefined.

Definition put_burrito : request :=
  Req (ReqLine PUT "/dishes/1") "1"
    (JObj [("data", JObj [("id", JStr "1"); ("name", JStr "Burrito"); ("description", JStr "Big");
                          ("price", JInt 9); ("image_url", JStr "http://y")])]).

Definition get_dish_1 : request := Req (ReqLine GET "/dishes/1") "1" (JObj []).

Definition get_dishes : request := Req (ReqLine GET "/dishes") "" (JObj []).

Lemma dish_update_refines_witness :
  rl_method (req_line put_burrito) = PUT /\
  exists x, dispatch (item_stack put_burrito) (req_line put_burrito) true taco_store = Some x /\
    st_dishes (xs_app x) = fst (update_spec (req_param put_burrito) (req_body put_burrito) taco_store) /\
    st_orders (xs_app x) = st_orders taco_store /\
    outcome_of (xs_events x) =
      Outcome (Some (snd (update_spec (req_param put_burrito) (req_body put_burrito) taco_store))) false.
Proof. split; [reflexivity|]. apply (dish_update_refines put_burrito taco_store true). reflexivity. Defined.

Lemma dish_read_refines_witness :
  (rl_method (req_line get_dish_1) = GET \/ rl_method (req_line get_dish_1) = HEAD) /\
  exists x, dispatch (item_stack get_dish_1) (req_line get_dish_1) true taco_store = Some x /\
    st_dishes (xs_app x) = st_dishes taco_store /\ st_orders (xs_app x) = st_orders taco_store /\
    outcome_of (xs_events x) = Outcome (Some (read_spec (req_param get_dish_1) taco_store)) false.
Proof. split; [left; reflexivity|]. apply (dish_read_refines get_dish_1 taco_store true). left; reflexivity. Defined.

Lemma dish_list_refines_witness :
  (rl_method (req_line get_dishes) = GET \/ rl_method (req_line get_dishes) = HEAD) /\
  exists x, dispatch (collection_stack get_dishes) (req_line get_dishes) false taco_store = Some x /\
    xs_app x = taco_store /\
    outcome_of (xs_events x) =
      Outcome (Some (RJson 200 (JObj [("data", JArr (map dish_json (st_dishes taco_store)))]))) false.
Proof. split; [left; reflexivity|]. apply (dish_list_refines get_dishes taco_store false). left; reflexivity. Defined.
