(* ===== verification/Orders.v ===== *)
(** * The orders controller ([src/orders/orders.controller.js]) and router
      ([src/orders/orders.router.js])

    [Module OrdersController] translates every function of the
    controller: the validators [orderExists], [orderRequiresDeliverTo],
    [orderRequiresMobileNumber], [orderRequiresDish],
    [dishesMustBeNonEmptyArray], [eachDishMustHaveQuantityAboveZero],
    [orderIdAbsentOrMatches], [statusMustExistAndBeValid],
    [orderStatusIsPending], the handlers [create], [read], [update],
    [destroy], [list], the exported chains, and the two routes of the
    router.  Two validators assign the undeclared variable [dishes], a
    global of the process ([st_global_dishes]).

    [OrderSpec] states what each operation does as a pure function of
    the body and the repository, including what the code adds to the
    spec: the late [next(err)] of [statusMustExistAndBeValid] and
    [orderStatusIsPending], which runs after the handler has answered and
    makes the error handler destroy the connection; the [status] of a new
    order, read from the top level of the body; TypeErrors on malformed
    bodies.  The theorems show that Express running each chain of the
    router implements these functions, and that the handler [destroy],
    run on its own, removes the first order with the id and answers 204
    (the last order if none has it: only [orderExists] guards it). *)

From S2P Require Import Prelude Json Express Store.

Module OrdersController.
Section Controller.
Context `{IdGen}.

(** ** Validators *)

Definition orderExists (req : request) : middleware st :=
  fun s =>
    let orderId := req_param req in
    match js_find (fun o => bool_decide (order_id o = orderId)) (st_orders s) with
    | Some (i, _) => [CEff (upd_locals (fun l => with_order l (Some i))); CNext None]
    | None => [CNext (Some (ErrHttp 404 (MsgOrderNotFound orderId)))]
    end.

Definition orderRequiresDeliverTo : request -> middleware st :=
  require_text_field "deliverTo" MsgOrderDeliverTo with_deliverTo.

Definition orderRequiresMobileNumber : request -> middleware st :=
  require_text_field "mobileNumber" MsgOrderMobileNumber with_mobileNumber.

(** [if (!dishes) next(err); response.locals.dishes = dishes; next();] *)
Definition orderRequiresDish (req : request) : middleware st :=
  fun _ =>
    match body_field (req_body req) "dishes" with
    | Err _ => [CThrow ErrTypeError]
    | Ok dishes =>
        (if negb (truthy dishes) then [CNext (Some (ErrHttp 400 MsgOrderDish))] else [])
        ++ [CEff (upd_locals (fun l => with_dishes l dishes)); CNext None]
    end.

(** The elements of an array ([[]] for any other value). *)
Definition array_elems (v : jsval) : list jsval :=
  match v with JArr xs => xs | _ => [] end.

(** [dishes = response.locals.dishes;] assigns the global, then
    [!Array.isArray(dishes) || dishes.length === 0] (the length is read
    only of an array). *)
Definition dishesMustBeNonEmptyArray (req : request) : middleware st :=
  fun s =>
    let dishes := loc_dishes (st_locals s) in
    CEff (set_global_dishes dishes) ::
    if negb (Array_isArray dishes) || bool_decide (length (array_elems dishes) = 0)
    then [CNext (Some (ErrHttp 400 MsgOrderDishes))]
    else [CNext None].

(** The [for] loop of [eachDishMustHaveQuantityAboveZero] from index
    [i] over the remaining elements: [dishes[i].quantity] throws for a
    [null] element; the test is [quantity_test]. *)
Fixpoint quantity_loop (i : nat) (xs : list jsval) : list (cmd st) :=
  match xs with
  | [] => [CNext None]
  | d :: xs' =>
      match get_prop d "quantity" with
      | Err _ => [CThrow ErrTypeError]
      | Ok q =>
          match quantity_test q with
          | Err _ => [CThrow ErrTypeError]
          | Ok (Some false) => quantity_loop (S i) xs'
          | Ok _ => [CNext (Some (ErrHttp 400 (MsgOrderQuantity i)))]
          end
      end
  end.

(** The loop runs over an array: in both chains the middleware follows
    [dishesMustBeNonEmptyArray], which stops the chain for any other
    value, so [array_elems] is only applied to arrays there. *)
Definition eachDishMustHaveQuantityAboveZero (req : request) : middleware st :=
  fun s =>
    let dishes := loc_dishes (st_locals s) in
    CEff (set_global_dishes dishes) :: quantity_loop 0 (array_elems dishes).

(** Like [dishIdAbsentOrMatches]; the template interpolates [id]. *)
Definition orderIdAbsentOrMatches (req : request) : middleware st :=
  fun _ =>
    match body_field (req_body req) "id" with
    | Err _ => [CThrow ErrTypeError]
    | Ok id =>
        if negb (truthy id) || strict_eq_str id (req_param req) then [CNext None]
        else if to_primitive_throws id then [CThrow ErrTypeError]
        else [CNext (Some (ErrHttp 400 (MsgOrderIdMismatch id (req_param req))))]
    end.

(** The four statuses of the enum. *)
Definition valid_status (v : jsval) : bool :=
  strict_eq_str v "pending" || strict_eq_str v "preparing" ||
  strict_eq_str v "out-for-delivery" || strict_eq_str v "delivered".

(** A valid status is staged and [next()] runs the rest of the chain;
    [next(err)] follows in every case. *)
Definition statusMustExistAndBeValid (req : request) : middleware st :=
  fun _ =>
    match body_field (req_body req) "status" with
    | Err _ => [CThrow ErrTypeError]
    | Ok status =>
        (if truthy status && valid_status status
         then [CEff (upd_locals (fun l => with_status l status)); CNext None] else [])
        ++ [CNext (Some (ErrHttp 400 MsgOrderStatus))]
    end.

(** [response.locals.order], the order found by [orderExists]
    ([undefined] when absent). *)
Definition found_order (s : st) : option order :=
  i ← loc_order (st_locals s); st_orders s !! i.

Definition orderStatusIsPending (req : request) : middleware st :=
  fun s =>
    match found_order s with
    | None => [CThrow ErrTypeError]
    | Some o =>
        (if strict_eq_str (order_status o) "pending" then [CNext None] else [])
        ++ [CNext (Some (ErrHttp 400 MsgOrderNotPending))]
    end.

(** ** Handlers *)

(** The new order: the staged fields, [status] from the top level of
    the body ([const { status = "pending" } = request.body]), and a
    fresh id. *)
Definition new_order (body : jsval) (s : st) : js order :=
  let l := st_locals s in
  status ← get_prop_default body "status" (JStr "pending");
  Ok (Order (nextId (used_ids s)) (loc_deliverTo l) (loc_mobileNumber l) status (loc_dishes l)).

Definition create (req : request) : middleware st :=
  fun s =>
    match new_order (req_body req) s with
    | Err _ => [CThrow ErrTypeError]
    | Ok o =>
        [CEff (fun s => set_orders (js_push (st_orders s) o) s);
         CSend (fun _ => RJson 201 (JObj [("data", order_json o)]))]
    end.

Definition found_order_json (s : st) : jsval :=
  from_option order_json JUndefined (found_order s).

Definition read (req : request) : middleware st :=
  fun _ => [CSend (fun s => RJson 200 (JObj [("data", found_order_json s)]))].

(** [const { data: { id, deliverTo, mobileNumber, status, dishes } = {} }
    = request.body]. *)
Definition update_fields (body : jsval) : js (jsval * jsval * jsval * jsval) :=
  data ← get_prop_default body "data" (JObj []);
  deliverTo ← get_prop data "deliverTo";
  mobileNumber ← get_prop data "mobileNumber";
  status ← get_prop data "status";
  dishes ← get_prop data "dishes";
  Ok (deliverTo, mobileNumber, status, dishes).

(** The four assignments to the found order, which keep its id. *)
Definition overwrite_order (deliverTo mobileNumber status dishes : jsval) (o : order) : order :=
  Order (order_id o) deliverTo mobileNumber status dishes.

Definition update (req : request) : middleware st :=
  fun s =>
    match update_fields (req_body req), loc_order (st_locals s) with
    | Ok (deliverTo, mobileNumber, status, dishes), Some i =>
        [CEff (fun s => set_orders (alter (overwrite_order deliverTo mobileNumber status dishes) i
                                          (st_orders s)) s);
         CSend (fun s => RJson 200 (JObj [("data", found_order_json s)]))]
    | _, _ => [CThrow ErrTypeError]
    end.

(** [orders.splice(orders.findIndex(...), 1)], then [sendStatus(204)]. *)
(** [orders.findIndex((order) => order.id === orderId)]. *)
Definition order_index (orderId : string) (os : list order) : Z :=
  js_findIndex (fun o => bool_decide (order_id o = orderId)) os.

Definition destroy (req : request) : middleware st :=
  fun s =>
    let index := order_index (req_param req) (st_orders s) in
    [CEff (fun s => set_orders (js_splice1 index (st_orders s)) s);
     CSend (fun _ => RStatus 204)].

Definition list (req : request) : middleware st :=
  fun _ => [CSend (fun s => RJson 200 (JObj [("data", JArr (map order_json (st_orders s)))]))].

(** ** The exported chains *)

Definition create_chain (req : request) : Datatypes.list (middleware st) :=
  [orderRequiresDeliverTo req; orderRequiresMobileNumber req; orderRequiresDish req;
   dishesMustBeNonEmptyArray req; eachDishMustHaveQuantityAboveZero req; create req].

Definition read_chain (req : request) : Datatypes.list (middleware st) :=
  [orderExists req; read req].

Definition update_chain (req : request) : Datatypes.list (middleware st) :=
  [orderExists req; statusMustExistAndBeValid req; orderIdAbsentOrMatches req;
   orderRequiresDeliverTo req; orderRequiresMobileNumber req; orderRequiresDish req;
   dishesMustBeNonEmptyArray req; eachDishMustHaveQuantityAboveZero req; update req].

Definition delete_chain (req : request) : Datatypes.list (middleware st) :=
  [orderExists req; orderStatusIsPending req; destroy req].

(** ** The router *)

Definition item_stack (req : request) : Datatypes.list (layer st) :=
  map (Layer (Some GET)) (read_chain req) ++
  map (Layer (Some PUT)) (update_chain req) ++
  map (Layer (Some DELETE)) (delete_chain req) ++
  [Layer None (methodNotAllowed (req_line req))].

Definition collection_stack (req : request) : Datatypes.list (layer st) :=
  map (Layer (Some POST)) (create_chain req) ++
  [Layer (Some GET) (list req); Layer None (methodNotAllowed (req_line req))].

(** [/:orderId] is the router's first layer: its exits reach the
    application synchronously; [/] is the last, exited through
    [setImmediate]. *)
Definition item_sync_exit : bool := true.
Definition collection_sync_exit : bool := false.
End Controller.
End OrdersController.

(** ** The contract of each operation *)

Module OrderSpec.
Section Spec.
Context `{IdGen}.

Definition lift_js {A} (r : js A) : result err A :=
  match r with Ok a => Ok a | Err _ => Err ErrTypeError end.

Definition require (b : bool) (e : err) : result err unit :=
  if b then Ok tt else Err e.

Definition nonempty_array (v : jsval) : bool :=
  match v with JArr (_ :: _) => true | _ => false end.

(** Every line item, from index [i], has an integer quantity greater
    than 0; the first that has not is named.  A quantity that is an
    object with an own [toString] makes the comparison throw. *)
Fixpoint quantities_ok (i : nat) (xs : list jsval) : result err unit :=
  match xs with
  | [] => Ok tt
  | d :: xs' =>
      q ← lift_js (get_prop d "quantity");
      require (negb (truthy q && to_primitive_throws q)) ErrTypeError;;
      require (is_pos_int q) (ErrHttp 400 (MsgOrderQuantity i));;
      quantities_ok (S i) xs'
  end.

(** The order validation pipeline of the spec (4.2, create path). *)
Definition validate_order (body : jsval) : result err (jsval * jsval * jsval) :=
  deliverTo ← lift_js (body_field body "deliverTo");
  require (truthy deliverTo) (ErrHttp 400 MsgOrderDeliverTo);;
  mobileNumber ← lift_js (body_field body "mobileNumber");
  require (truthy mobileNumber) (ErrHttp 400 MsgOrderMobileNumber);;
  dishes ← lift_js (body_field body "dishes");
  require (truthy dishes) (ErrHttp 400 MsgOrderDish);;
  require (nonempty_array dishes) (ErrHttp 400 MsgOrderDishes);;
  quantities_ok 0 (OrdersController.array_elems dishes);;
  Ok (deliverTo, mobileNumber, dishes).

(** Create: the validated fields, [status] from the top level of the
    body (default ["pending"]), a fresh id; append and answer 201. *)
Definition create_spec (body : jsval) (s : st) : list order * response :=
  match validate_order body with
  | Err e => (st_orders s, RError (err_status e) e)
  | Ok (deliverTo, mobileNumber, dishes) =>
      match get_prop_default body "status" (JStr "pending") with
      | Err _ => (st_orders s, RError 500 ErrTypeError)
      | Ok status =>
          let o := Order (nextId (used_ids s)) deliverTo mobileNumber status dishes in
          (st_orders s ++ [o], RJson 201 (JObj [("data", order_json o)]))
      end
  end.

Definition find_order (orderId : string) (os : list order) : option (nat * order) :=
  js_find (fun o => bool_decide (order_id o = orderId)) os.

Definition check_order_id (orderId : string) (body : jsval) : result err unit :=
  id ← lift_js (body_field body "id");
  if negb (truthy id) || strict_eq_str id orderId then Ok tt
  else if to_primitive_throws id then Err ErrTypeError
  else Err (ErrHttp 400 (MsgOrderIdMismatch id orderId)).

(** The status of an update: required and one of the four. *)
Definition check_status (body : jsval) : result err jsval :=
  status ← lift_js (body_field body "status");
  require (truthy status && OrdersController.valid_status status) (ErrHttp 400 MsgOrderStatus);;
  Ok status.

(** Update: the records, the response, and whether the connection is
    destroyed.  Once the status has passed, its validator's late
    [next(err)] destroys the connection after whatever the rest of the
    chain answered. *)
Definition update_spec (orderId : string) (body : jsval) (s : st) : list order * response * bool :=
  match find_order orderId (st_orders s) with
  | None => (st_orders s, RError 404 (ErrHttp 404 (MsgOrderNotFound orderId)), false)
  | Some (i, o) =>
      match check_status body with
      | Err e => (st_orders s, RError (err_status e) e, false)
      | Ok status =>
          match check_order_id orderId body;; validate_order body with
          | Err e => (st_orders s, RError (err_status e) e, true)
          | Ok (deliverTo, mobileNumber, dishes) =>
              let o' := Order (order_id o) deliverTo mobileNumber status dishes in
              (<[i := o']> (st_orders s), RJson 200 (JObj [("data", order_json o')]), true)
          end
      end
  end.

(** Delete: only a pending order is removed (answer 204, then the
    late error destroys the connection). *)
Definition delete_spec (orderId : string) (s : st) : list order * response * bool :=
  match find_order orderId (st_orders s) with
  | None => (st_orders s, RError 404 (ErrHttp 404 (MsgOrderNotFound orderId)), false)
  | Some (i, o) =>
      if strict_eq_str (order_status o) "pending"
      then (delete i (st_orders s), RStatus 204, true)
      else (st_orders s, RError 400 (ErrHttp 400 MsgOrderNotPending), false)
  end.

Definition read_spec (orderId : string) (s : st) : response :=
  match find_order orderId (st_orders s) with
  | None => RError 404 (ErrHttp 404 (MsgOrderNotFound orderId))
  | Some (_, o) => RJson 200 (JObj [("data", order_json o)])
  end.
End Spec.
End OrderSpec.

(** ** Shapes *)

Module OrderShapes.
Import OrdersController OrderSpec.
Section Shapes.
Context `{IdGen}.

(** A check's result as a validator's shape, after the assignments [pre]. *)
Definition check_v (pre : Datatypes.list (st -> st)) (r : result err unit) : vres st :=
  match r with
  | Ok _ => VPass pre None
  | Err ErrTypeError => VThrow pre ErrTypeError
  | Err e => VFail pre e None
  end.

Definition orderExists_v (req : request) : st -> vres st :=
  fun s =>
    match find_order (req_param req) (st_orders s) with
    | Some (i, _) => VPass [upd_locals (fun l => with_order l (Some i))] None
    | None => VFail [] (ErrHttp 404 (MsgOrderNotFound (req_param req))) None
    end.

Definition dishesMustBeNonEmptyArray_v (req : request) : st -> vres st :=
  fun s =>
    let dishes := loc_dishes (st_locals s) in
    if nonempty_array dishes then VPass [set_global_dishes dishes] None
    else VFail [set_global_dishes dishes] (ErrHttp 400 MsgOrderDishes) None.

Definition eachDish_v (req : request) : st -> vres st :=
  fun s =>
    let dishes := loc_dishes (st_locals s) in
    check_v [set_global_dishes dishes] (quantities_ok 0 (array_elems dishes)).

Definition orderIdAbsentOrMatches_v (req : request) : st -> vres st :=
  fun _ =>
    match check_order_id (req_param req) (req_body req) with
    | Ok _ => VPass [] None
    | Err e => check_v [] (Err e)
    end.

Definition statusMustExistAndBeValid_v (req : request) : st -> vres st :=
  fun _ =>
    match check_status (req_body req) with
    | Ok status => VPass [upd_locals (fun l => with_status l status)] (Some (ErrHttp 400 MsgOrderStatus))
    | Err e => check_v [] (Err e)
    end.

Definition orderStatusIsPending_v (req : request) : st -> vres st :=
  fun s =>
    match found_order s with
    | None => VThrow [] ErrTypeError
    | Some o =>
        if strict_eq_str (order_status o) "pending"
        then VPass [] (Some (ErrHttp 400 MsgOrderNotPending))
        else VFail [] (ErrHttp 400 MsgOrderNotPending) None
    end.

Definition create_vs (req : request) : Datatypes.list (st -> vres st) :=
  [require_text_field_v "deliverTo" MsgOrderDeliverTo with_deliverTo req;
   require_text_field_v "mobileNumber" MsgOrderMobileNumber with_mobileNumber req;
   require_text_field_v "dishes" MsgOrderDish with_dishes req;
   dishesMustBeNonEmptyArray_v req; eachDish_v req].

Definition update_vs (req : request) : Datatypes.list (st -> vres st) :=
  [orderExists_v req; statusMustExistAndBeValid_v req; orderIdAbsentOrMatches_v req]
  ++ create_vs req.

Definition delete_vs (req : request) : Datatypes.list (st -> vres st) :=
  [orderExists_v req; orderStatusIsPending_v req].

Definition create_h (req : request) : st -> hres st :=
  fun s =>
    match new_order (req_body req) s with
    | Err _ => HThrow [] ErrTypeError
    | Ok o => HSend [fun s => set_orders (js_push (st_orders s) o) s]
                    (fun _ => RJson 201 (JObj [("data", order_json o)]))
    end.

Definition read_h (req : request) : st -> hres st :=
  fun _ => HSend [] (fun s => RJson 200 (JObj [("data", found_order_json s)])).

Definition update_h (req : request) : st -> hres st :=
  fun s =>
    match update_fields (req_body req), loc_order (st_locals s) with
    | Ok (deliverTo, mobileNumber, status, dishes), Some i =>
        HSend [fun s => set_orders (alter (overwrite_order deliverTo mobileNumber status dishes) i
                                          (st_orders s)) s]
              (fun s => RJson 200 (JObj [("data", found_order_json s)]))
    | _, _ => HThrow [] ErrTypeError
    end.

Definition destroy_h (req : request) : st -> hres st :=
  fun s =>
    let index := order_index (req_param req) (st_orders s) in
    HSend [fun s => set_orders (js_splice1 index (st_orders s)) s] (fun _ => RStatus 204).

Definition list_h (req : request) : st -> hres st :=
  fun _ => HSend [] (fun s => RJson 200 (JObj [("data", JArr (map order_json (st_orders s)))])).

(** What the five field validators leave in [response.locals]. *)
Definition order_fields_locals (deliverTo mobileNumber dishes : jsval) (l : locals) : locals :=
  with_dishes (with_mobileNumber (with_deliverTo l deliverTo) mobileNumber) dishes.
End Shapes.
End OrderShapes.

(** ** Proofs *)

Import OrdersController OrderSpec OrderShapes.

Section OrderProofs.
Context `{IdGen}.

(** The program a check's shape runs. *)
Definition check_prog (r : result err unit) : Datatypes.list (cmd st) :=
  match r with
  | Ok _ => [CNext None]
  | Err ErrTypeError => [CThrow ErrTypeError]
  | Err e => [CNext (Some e)]
  end.

Lemma vprog_check_v pre r : vprog (check_v pre r) = effs pre ++ check_prog r.
Proof. destruct r as [|[]]; reflexivity. Qed.

(** The [for] loop computes [quantities_ok]: it stops at the first
    line item without an integer quantity greater than 0, naming its
    index, and throws exactly where the reference check does. *)
Lemma quantity_loop_spec xs : forall i, quantity_loop i xs = check_prog (quantities_ok i xs).
Proof.
  induction xs as [|d xs IH]; intros i; [reflexivity|]. cbn.
  destruct (get_prop d "quantity") as [q|]; [|reflexivity]. cbn.
  rewrite quantity_test_spec. unfold require.
  destruct (truthy q) eqn:Ht; cbn.
  - destruct (to_primitive_throws q); cbn; [reflexivity|].
    destruct (is_pos_int q); cbn; [apply IH|reflexivity].
  - assert (Hp : is_pos_int q = false)
      by (destruct (is_pos_int q) eqn:E; [apply is_pos_int_truthy in E; congruence|reflexivity]).
    rewrite Hp. reflexivity.
Qed.

Lemma orderExists_shape req s : orderExists req s = vprog (orderExists_v req s).
Proof. unfold orderExists, orderExists_v, find_order. destruct (js_find _ _) as [[i o]|]; reflexivity. Qed.

Lemma orderRequiresDish_shape req s :
  orderRequiresDish req s = vprog (require_text_field_v "dishes" MsgOrderDish with_dishes req s).
Proof.
  unfold orderRequiresDish, require_text_field_v.
  destruct (body_field _ _) as [v|]; [|reflexivity]. destruct (truthy v); reflexivity.
Qed.

Lemma nonempty_array_spec v :
  negb (Array_isArray v) || bool_decide (length (array_elems v) = 0) = negb (nonempty_array v).
Proof. destruct v as [| | | | |[|x xs]|]; reflexivity. Qed.

Lemma dishesMustBeNonEmptyArray_shape req s :
  dishesMustBeNonEmptyArray req s = vprog (dishesMustBeNonEmptyArray_v req s).
Proof.
  unfold dishesMustBeNonEmptyArray, dishesMustBeNonEmptyArray_v. cbv zeta.
  rewrite nonempty_array_spec. destruct (nonempty_array _); reflexivity.
Qed.

Lemma eachDish_shape req s :
  eachDishMustHaveQuantityAboveZero req s = vprog (eachDish_v req s).
Proof.
  unfold eachDishMustHaveQuantityAboveZero, eachDish_v. cbv zeta.
  rewrite vprog_check_v, quantity_loop_spec. reflexivity.
Qed.

Lemma orderIdAbsentOrMatches_shape req s :
  orderIdAbsentOrMatches req s = vprog (orderIdAbsentOrMatches_v req s).
Proof.
  unfold orderIdAbsentOrMatches, orderIdAbsentOrMatches_v, check_order_id, lift_js.
  destruct (body_field _ _) as [id|]; [|reflexivity]. cbn.
  destruct (_ || _); [reflexivity|]. destruct (to_primitive_throws id); reflexivity.
Qed.

Lemma statusMustExistAndBeValid_shape req s :
  statusMustExistAndBeValid req s = vprog (statusMustExistAndBeValid_v req s).
Proof.
  unfold statusMustExistAndBeValid, statusMustExistAndBeValid_v, check_status, lift_js, require.
  destruct (body_field _ _) as [v|]; [|reflexivity]. cbn.
  destruct (truthy v && valid_status v); reflexivity.
Qed.

Lemma orderStatusIsPending_shape req s :
  orderStatusIsPending req s = vprog (orderStatusIsPending_v req s).
Proof.
  unfold orderStatusIsPending, orderStatusIsPending_v.
  destruct (found_order s) as [o|]; [|reflexivity].
  destruct (strict_eq_str _ _); reflexivity.
Qed.

Lemma order_create_shape req s : create req s = hprog (create_h req s).
Proof. unfold create, create_h. destruct (new_order _ _); reflexivity. Qed.

Lemma order_read_shape req s : read req s = hprog (read_h req s).
Proof. reflexivity. Qed.

Lemma order_update_shape req s : update req s = hprog (update_h req s).
Proof.
  unfold update, update_h.
  destruct (update_fields _) as [[[[a b] c] d]|], (loc_order (st_locals s)); reflexivity.
Qed.

Lemma order_destroy_shape req s : destroy req s = hprog (destroy_h req s).
Proof. reflexivity. Qed.

Lemma order_list_shape req s : list req s = hprog (list_h req s).
Proof. reflexivity. Qed.
End OrderProofs.

Section OrderPipelines.
Context `{IdGen}.

(** The five field validators, as a pipeline prefix, are
    [validate_order]: a failure changes no record and answers the first
    failing check's error; on success the handler runs with the fields
    staged in [response.locals] and the global [dishes] assigned. *)
Lemma order_fields_pipeline req (h : st -> hres st) s :
  match validate_order (req_body req) with
  | Err e =>
      let p := pipeline (create_vs req) h s in
      st_dishes (pr_app p) = st_dishes s /\ st_orders (pr_app p) = st_orders s /\
      pr_resp p = RError (err_status e) e /\ pr_destroyed p = false
  | Ok (deliverTo, mobileNumber, dishes) =>
      pipeline (create_vs req) h s =
      pipeline [] h (set_global_dishes dishes (set_global_dishes dishes
        (upd_locals (order_fields_locals deliverTo mobileNumber dishes) s)))
  end.
Proof.
  unfold validate_order, require, lift_js, create_vs. cbn -[pipeline].
  unfold require_text_field_v, dishesMustBeNonEmptyArray_v, eachDish_v. cbn.
  destruct (body_field _ "deliverTo") as [d|]; cbn; [|auto].
  destruct (truthy d); cbn; [|auto].
  destruct (body_field _ "mobileNumber") as [m|]; cbn; [|auto].
  destruct (truthy m); cbn; [|auto].
  destruct (body_field _ "dishes") as [ds|]; cbn; [|auto].
  destruct (truthy ds); cbn; [|auto].
  destruct (nonempty_array ds); cbn; [|auto].
  destruct (quantities_ok 0 _) as [[]|[]]; cbn; auto.
Qed.

(** The status a new order gets, when the fields are valid: the body
    is then an object, and [status] defaults to ["pending"]. *)
Lemma validate_order_body_obj body r :
  validate_order body = Ok r -> exists ps, body = JObj ps.
Proof.
  unfold validate_order, lift_js, body_field.
  destruct body; cbn; try discriminate. eauto.
Qed.

Lemma order_create_pipeline req s :
  let p := pipeline (create_vs req) (create_h req) s in
  st_orders (pr_app p) = fst (create_spec (req_body req) s) /\
  st_dishes (pr_app p) = st_dishes s /\
  pr_resp p = snd (create_spec (req_body req) s) /\
  pr_destroyed p = false.
Proof.
  pose proof (order_fields_pipeline req (create_h req) s) as Hp.
  unfold create_spec. destruct (validate_order (req_body req)) as [[[d m] ds]|e] eqn:Hv;
    [|destruct Hp as (? & ? & ? & ?); auto].
  cbn zeta. rewrite Hp. apply validate_order_body_obj in Hv as (ps & Hb).
  unfold create_h, new_order. rewrite Hb. cbn. auto.
Qed.

Lemma order_create_chain_at req :
  rl_method (req_line req) = POST ->
  skipped_before (collection_stack req) (req_line req) 0 /\
  chain_at (collection_stack req) (req_line req) 0 (create_vs req) (create_h req).
Proof.
  intros Hm.
  assert (Hr : route_method (collection_stack req) (req_line req) = POST)
    by (unfold route_method; rewrite Hm; reflexivity).
  split; [intros i Hi; lia|]. split.
  - intros i v Hi.
    destruct i as [|[|[|[|[|i]]]]]; simpl in Hi;
      [..|rewrite lookup_nil in Hi; discriminate]; inv_res;
      first [solve_layer_runs Hr require_text_field_shape
            |solve_layer_runs Hr orderRequiresDish_shape
            |solve_layer_runs Hr dishesMustBeNonEmptyArray_shape
            |solve_layer_runs Hr eachDish_shape].
  - solve_layer_runs Hr order_create_shape.
Qed.

(** C4 (refinement): [POST /orders], run by Express through the
    router's [/] route, appends and answers exactly what [create_spec]
    prescribes (the validated fields, a fresh id, the top-level
    [status] of the body or ["pending"]), or answers the first failing
    check's error and changes no record; the connection is never
    destroyed. *)
Theorem order_create_refines req s :
  rl_method (req_line req) = POST ->
  exists x, dispatch (collection_stack req) (req_line req) collection_sync_exit s = Some x /\
    st_orders (xs_app x) = fst (create_spec (req_body req) s) /\
    st_dishes (xs_app x) = st_dishes s /\
    outcome_of (xs_events x) = Outcome (Some (snd (create_spec (req_body req) s))) false.
Proof.
  intros Hm. destruct (order_create_chain_at req Hm) as [Hk Hc].
  destruct (dispatch_pipeline _ _ collection_sync_exit 0 _ _ s Hk Hc) as (x & Hx & Ha & Ho).
  destruct (order_create_pipeline req s) as (H1 & H2 & H3 & H4).
  exists x. split; [exact Hx|]. clear Hx. rewrite Ha, Ho, H1, H2, H3, H4. auto.
Qed.

Lemma validate_order_ok body deliverTo mobileNumber dishes :
  validate_order body = Ok (deliverTo, mobileNumber, dishes) ->
  body_field body "deliverTo" = Ok deliverTo /\ truthy deliverTo = true /\
  body_field body "mobileNumber" = Ok mobileNumber /\ truthy mobileNumber = true /\
  body_field body "dishes" = Ok dishes /\ nonempty_array dishes = true /\
  quantities_ok 0 (array_elems dishes) = Ok tt.
Proof.
  unfold validate_order, require, lift_js.
  destruct (body_field body "deliverTo") as [d|]; [|discriminate]; cbn.
  destruct (truthy d) eqn:?; [|discriminate]; cbn.
  destruct (body_field body "mobileNumber") as [m|]; [|discriminate]; cbn.
  destruct (truthy m) eqn:?; [|discriminate]; cbn.
  destruct (body_field body "dishes") as [ds|]; [|discriminate]; cbn.
  destruct (truthy ds); [|discriminate]; cbn.
  destruct (nonempty_array ds) eqn:?; [|discriminate]; cbn.
  destruct (quantities_ok 0 _) as [[]|] eqn:?; [|discriminate]; cbn.
  intros H'. injection H' as <- <- <-. auto 10.
Qed.

(** The handler of [PUT] re-reads the fields the validators read. *)
Lemma update_fields_ok body deliverTo mobileNumber status dishes :
  body_field body "deliverTo" = Ok deliverTo ->
  body_field body "mobileNumber" = Ok mobileNumber ->
  body_field body "status" = Ok status ->
  body_field body "dishes" = Ok dishes ->
  update_fields body = Ok (deliverTo, mobileNumber, status, dishes).
Proof.
  unfold body_field, update_fields, get_prop_default.
  destruct (get_prop body "data") as [data|]; cbn; [|discriminate].
  destruct data; cbn; intros; inv_res; reflexivity.
Qed.

Lemma check_status_ok body status :
  check_status body = Ok status -> body_field body "status" = Ok status /\
    truthy status = true /\ valid_status status = true.
Proof.
  unfold check_status, lift_js, require.
  destruct (body_field body "status") as [v|]; [|discriminate]; cbn.
  destruct (truthy v) eqn:?, (valid_status v) eqn:?; cbn; try discriminate.
  intros H'. injection H' as <-. auto.
Qed.

Lemma order_update_chain_at req :
  rl_method (req_line req) = PUT ->
  skipped_before (item_stack req) (req_line req) 2 /\
  chain_at (item_stack req) (req_line req) 2 (update_vs req) (update_h req).
Proof.
  intros Hm.
  assert (Hr : route_method (item_stack req) (req_line req) = PUT)
    by (unfold route_method; rewrite Hm; reflexivity).
  split; [|split].
  - intros i Hi. destruct i as [|[|i]]; [| |lia];
      (eexists; split; [reflexivity|]; unfold method_ok; rewrite Hr; reflexivity).
  - intros i v Hi.
    destruct i as [|[|[|[|[|[|[|[|i]]]]]]]]; simpl in Hi;
      [..|rewrite lookup_nil in Hi; discriminate]; inv_res;
      first [solve_layer_runs Hr orderExists_shape
            |solve_layer_runs Hr statusMustExistAndBeValid_shape
            |solve_layer_runs Hr orderIdAbsentOrMatches_shape
            |solve_layer_runs Hr require_text_field_shape
            |solve_layer_runs Hr orderRequiresDish_shape
            |solve_layer_runs Hr dishesMustBeNonEmptyArray_shape
            |solve_layer_runs Hr eachDish_shape].
  - solve_layer_runs Hr order_update_shape.
Qed.

Lemma order_update_pipeline req s :
  let p := pipeline (update_vs req) (update_h req) s in
  let r := update_spec (req_param req) (req_body req) s in
  st_orders (pr_app p) = r.1.1 /\ st_dishes (pr_app p) = st_dishes s /\
  pr_resp p = r.1.2 /\ pr_destroyed p = r.2.
Proof.
  unfold update_spec, find_order, update_vs. cbn -[create_vs].
  unfold orderExists_v, statusMustExistAndBeValid_v, orderIdAbsentOrMatches_v, find_order.
  destruct (js_find _ (st_orders s)) as [[i o]|] eqn:Ef; cbn -[create_vs]; [|auto].
  apply js_find_Some in Ef as (Hl & _ & _).
  destruct (check_status (req_body req)) as [status|e] eqn:Hs;
    [|destruct e; cbn; auto].
  destruct (check_order_id _ _) as [[]|e]; cbn -[create_vs]; [|destruct e; cbn; auto].
  match goal with |- context [pipeline (create_vs req) (update_h req) ?s1] =>
    pose proof (order_fields_pipeline req (update_h req) s1) as Hp end.
  destruct (validate_order (req_body req)) as [[[d m] ds]|e] eqn:Hv; cbn -[create_vs];
    [|destruct Hp as (? & ? & ? & ?); auto].
  rewrite Hp. apply validate_order_ok in Hv as (Ed & _ & Em & _ & Eds & _).
  apply check_status_ok in Hs as (Es & _).
  unfold update_h. cbn. rewrite (update_fields_ok _ _ _ _ _ Ed Em Es Eds). cbn.
  rewrite (alter_as_insert _ _ _ _ Hl). unfold found_order_json, found_order. cbn.
  rewrite list_lookup_insert_eq by (eapply lookup_lt_Some; exact Hl). cbn. auto.
Qed.

(** C2 (refinement): [PUT /orders/:orderId], run by Express through the
    router's [/:orderId] route, does what [update_spec] says: 404 for an
    unknown order and 400 for a missing or invalid [status], changing
    nothing; otherwise the rest of the chain runs as the spec's update
    pipeline (replacing the order's fields, keeping its id, answering
    200, or answering the first failing check's error), and then the
    validator's second [next(err)] makes the error handler destroy the
    connection. *)
Theorem order_update_refines req s :
  rl_method (req_line req) = PUT ->
  exists x, dispatch (item_stack req) (req_line req) item_sync_exit s = Some x /\
    let r := update_spec (req_param req) (req_body req) s in
    st_orders (xs_app x) = r.1.1 /\ st_dishes (xs_app x) = st_dishes s /\
    outcome_of (xs_events x) = Outcome (Some r.1.2) r.2.
Proof.
  intros Hm. destruct (order_update_chain_at req Hm) as [Hk Hc].
  destruct (dispatch_pipeline _ _ item_sync_exit 2 _ _ s Hk Hc) as (x & Hx & Ha & Ho).
  destruct (order_update_pipeline req s) as (H1 & H2 & H3 & H4).
  exists x. split; [exact Hx|]. clear Hx. cbn zeta. rewrite Ha, Ho, H1, H2, H3, H4. auto.
Qed.
End OrderPipelines.

Section OrderItemRoutes.
Context `{IdGen}.

Lemma order_delete_chain_at req :
  rl_method (req_line req) = DELETE ->
  skipped_before (item_stack req) (req_line req) 11 /\
  chain_at (item_stack req) (req_line req) 11 (delete_vs req) (destroy_h req).
Proof.
  intros Hm.
  assert (Hr : route_method (item_stack req) (req_line req) = DELETE)
    by (unfold route_method; rewrite Hm; reflexivity).
  split; [|split].
  - intros i Hi. do 11 (destruct i as [|i]; [eexists; split; [reflexivity|];
      unfold method_ok; rewrite Hr; reflexivity|]). lia.
  - intros i v Hi.
    destruct i as [|[|i]]; simpl in Hi; [..|rewrite lookup_nil in Hi; discriminate]; inv_res;
      first [solve_layer_runs Hr orderExists_shape
            |solve_layer_runs Hr orderStatusIsPending_shape].
  - solve_layer_runs Hr order_destroy_shape.
Qed.

Lemma order_delete_pipeline req s :
  let p := pipeline (delete_vs req) (destroy_h req) s in
  let r := delete_spec (req_param req) s in
  st_orders (pr_app p) = r.1.1 /\ st_dishes (pr_app p) = st_dishes s /\
  pr_resp p = r.1.2 /\ pr_destroyed p = r.2.
Proof.
  unfold delete_spec, delete_vs, find_order. cbn.
  unfold orderExists_v, orderStatusIsPending_v, find_order.
  destruct (js_find _ (st_orders s)) as [[i o]|] eqn:Ef; cbn; [|auto].
  pose proof (js_findIndex_Some _ _ _ _ Ef) as Hi.
  apply js_find_Some in Ef as (Hl & _ & _).
  unfold found_order. cbn. rewrite Hl. cbn.
  destruct (strict_eq_str (order_status o) "pending"); cbn; [|auto].
  unfold destroy_h, order_index. cbn. rewrite Hi, js_splice1_nat. auto.
Qed.

(** C3 (refinement): [DELETE /orders/:orderId] removes the order and
    answers 204 exactly when it exists and is pending, then the
    validator's second [next(err)] destroys the connection; an unknown
    order gets 404 and an order in any other status 400, with no record
    changed. *)
Theorem order_delete_refines req s :
  rl_method (req_line req) = DELETE ->
  exists x, dispatch (item_stack req) (req_line req) item_sync_exit s = Some x /\
    let r := delete_spec (req_param req) s in
    st_orders (xs_app x) = r.1.1 /\ st_dishes (xs_app x) = st_dishes s /\
    outcome_of (xs_events x) = Outcome (Some r.1.2) r.2.
Proof.
  intros Hm. destruct (order_delete_chain_at req Hm) as [Hk Hc].
  destruct (dispatch_pipeline _ _ item_sync_exit 11 _ _ s Hk Hc) as (x & Hx & Ha & Ho).
  destruct (order_delete_pipeline req s) as (H1 & H2 & H3 & H4).
  exists x. split; [exact Hx|]. clear Hx. cbn zeta. rewrite Ha, Ho, H1, H2, H3, H4. auto.
Qed.

Lemma order_read_chain_at req :
  rl_method (req_line req) = GET \/ rl_method (req_line req) = HEAD ->
  skipped_before (item_stack req) (req_line req) 0 /\
  chain_at (item_stack req) (req_line req) 0 [orderExists_v req] (read_h req).
Proof.
  intros Hm.
  assert (Hr : route_method (item_stack req) (req_line req) = GET)
    by (unfold route_method; destruct Hm as [Hm|Hm]; rewrite Hm; reflexivity).
  split; [intros i Hi; lia|]. split.
  - intros i v Hi. destruct i as [|i]; simpl in Hi;
      [|rewrite lookup_nil in Hi; discriminate]; inv_res.
    solve_layer_runs Hr orderExists_shape.
  - solve_layer_runs Hr order_read_shape.
Qed.

Lemma order_read_pipeline req s :
  let p := pipeline [orderExists_v req] (read_h req) s in
  st_orders (pr_app p) = st_orders s /\ st_dishes (pr_app p) = st_dishes s /\
  pr_resp p = read_spec (req_param req) s /\ pr_destroyed p = false.
Proof.
  unfold read_spec, find_order, orderExists_v, find_order. cbn.
  destruct (js_find _ (st_orders s)) as [[i o]|] eqn:Ef; cbn; [|auto].
  apply js_find_Some in Ef as (Hl & _ & _). unfold found_order_json, found_order. cbn.
  rewrite Hl. auto.
Qed.

(** C19 (functional): [GET] (and [HEAD]) [/orders/:orderId] answers 200
    with exactly the stored order, or 404, and changes no record. *)
Theorem order_read_refines req s :
  rl_method (req_line req) = GET \/ rl_method (req_line req) = HEAD ->
  exists x, dispatch (item_stack req) (req_line req) item_sync_exit s = Some x /\
    st_orders (xs_app x) = st_orders s /\ st_dishes (xs_app x) = st_dishes s /\
    outcome_of (xs_events x) = Outcome (Some (read_spec (req_param req) s)) false.
Proof.
  intros Hm. destruct (order_read_chain_at req Hm) as [Hk Hc].
  destruct (dispatch_pipeline _ _ item_sync_exit 0 _ _ s Hk Hc) as (x & Hx & Ha & Ho).
  destruct (order_read_pipeline req s) as (H1 & H2 & H3 & H4).
  exists x. split; [exact Hx|]. clear Hx. rewrite Ha, Ho, H1, H2, H3, H4. auto.
Qed.

Lemma order_list_chain_at req :
  rl_method (req_line req) = GET \/ rl_method (req_line req) = HEAD ->
  skipped_before (collection_stack req) (req_line req) 6 /\
  chain_at (collection_stack req) (req_line req) 6 [] (list_h req).
Proof.
  intros Hm.
  assert (Hr : route_method (collection_stack req) (req_line req) = GET)
    by (unfold route_method; destruct Hm as [Hm|Hm]; rewrite Hm; reflexivity).
  split.
  - intros i Hi. destruct i as [|[|[|[|[|[|i]]]]]]; [..|lia];
      (eexists; split; [reflexivity|]; unfold method_ok; rewrite Hr; reflexivity).
  - split; [intros i v Hi; rewrite lookup_nil in Hi; discriminate|].
    solve_layer_runs Hr order_list_shape.
Qed.

(** C21 (functional): [GET /orders] answers 200 with every stored
    order, in insertion order, and changes nothing. *)
Theorem order_list_refines req s :
  rl_method (req_line req) = GET \/ rl_method (req_line req) = HEAD ->
  exists x, dispatch (collection_stack req) (req_line req) collection_sync_exit s = Some x /\
    xs_app x = s /\
    outcome_of (xs_events x) =
      Outcome (Some (RJson 200 (JObj [("data", JArr (map order_json (st_orders s)))]))) false.
Proof.
  intros Hm. destruct (order_list_chain_at req Hm) as [Hk Hc].
  destruct (dispatch_pipeline _ _ collection_sync_exit 6 _ _ s Hk Hc) as (x & Hx & Ha & Ho).
  exists x. split; [exact Hx|]. clear Hx. rewrite Ha, Ho. auto.
Qed.
End OrderItemRoutes.

(** ** Witnesses *)

Definition line_item (q : jsval) : jsval := JObj [("id", JStr "d1"); ("quantity", q)].

Definition order_1 : order :=
  Order "1" (JStr "Rick") (JStr "555") (JStr "pending") (JArr [line_item (JInt 1)]).

Definition order_store : st := St [] [order_1] no_locals JUndefined.

Definition order_data (status : jsval) : jsval :=
  JObj [("deliverTo", JStr "Morty"); ("mobileNumber", JStr "556"); ("status", status);
        ("dishes", JArr [line_item (JInt 2)])].

Definition post_order : request :=
  Req (ReqLine POST "/orders") "" (JObj [("data", order_data JUndefined)]).

Definition put_order_1 : request :=
  Req (ReqLine PUT "/orders/1") "1" (JObj [("data", order_data (JStr "delivered"))]).

Definition delete_order_1 : request := Req (ReqLine DELETE "/orders/1") "1" (JObj []).

Definition get_order_1 : request := Req (ReqLine GET "/orders/1") "1" (JObj []).

Definition get_orders : request := Req (ReqLine GET "/orders") "" (JObj []).

Lemma order_create_refines_witness :
  rl_method (req_line post_order) = POST /\
  exists x, dispatch (collection_stack post_order) (req_line post_order) collection_sync_exit
              order_store = Some x /\
    st_orders (xs_app x) = fst (create_spec (req_body post_order) order_store) /\
    st_dishes (xs_app x) = st_dishes order_store /\
    outcome_of (xs_events x) = Outcome (Some (snd (create_spec (req_body post_order) order_store))) false.
Proof. split; [reflexivity|]. apply (order_create_refines post_order order_store). reflexivity. Defined.

Lemma order_update_refines_witness :
  rl_method (req_line put_order_1) = PUT /\
  exists x, dispatch (item_stack put_order_1) (req_line put_order_1) item_sync_exit order_store = Some x /\
    let r := update_spec (req_param put_order_1) (req_body put_order_1) order_store in
    st_orders (xs_app x) = r.1.1 /\ st_dishes (xs_app x) = st_dishes order_store /\
    outcome_of (xs_events x) = Outcome (Some r.1.2) r.2.
Proof. split; [reflexivity|]. apply (order_update_refines put_order_1 order_store). reflexivity. Defined.

Lemma order_delete_refines_witness :
  rl_method (req_line delete_order_1) = DELETE /\
  exists x, dispatch (item_stack delete_order_1) (req_line delete_order_1) item_sync_exit order_store = Some x /\
    let r := delete_spec (req_param delete_order_1) order_store in
    st_orders (xs_app x) = r.1.1 /\ st_dishes (xs_app x) = st_dishes order_store /\
    outcome_of (xs_events x) = Outcome (Some r.1.2) r.2.
Proof. split; [reflexivity|]. apply (order_delete_refines delete_order_1 order_store). reflexivity. Defined.

Lemma order_read_refines_witness :
  (rl_method (req_line get_order_1) = GET \/ rl_method (req_line get_order_1) = HEAD) /\
  exists x, dispatch (item_stack get_order_1) (req_line get_order_1) item_sync_exit order_store = Some x /\
    st_orders (xs_app x) = st_orders order_store /\ st_dishes (xs_app x) = st_dishes order_store /\
    outcome_of (xs_events x) = Outcome (Some (read_spec (req_param get_order_1) order_store)) false.
Proof. split; [left; reflexivity|]. apply (order_read_refines get_order_1 order_store). left; reflexivity. Defined.

Lemma order_list_refines_witness :
  (rl_method (req_line get_orders) = GET \/ rl_method (req_line get_orders) = HEAD) /\
  exists x, dispatch (collection_stack get_orders) (req_line get_orders) collection_sync_exit
              order_store = Some x /\
    xs_app x = order_store /\
    outcome_of (xs_events x) =
      Outcome (Some (RJson 200 (JObj [("data", JArr (map order_json (st_orders order_store)))]))) false.
Proof. split; [left; reflexivity|]. apply (order_list_refines get_orders order_store). left; reflexivity. Defined.

(** ** The index named by the quantity check *)

(** Line item [k] is the first whose quantity is not an integer greater
    than 0 (and does not make the comparison throw); every earlier one
    has a valid quantity. *)
Definition first_bad_quantity (xs : Datatypes.list jsval) (k : nat) : Prop :=
  (exists d q, xs !! k = Some d /\ get_prop d "quantity" = Ok q /\ is_pos_int q = false /\
     negb (truthy q && to_primitive_throws q) = true) /\
  (forall j d, j < k -> xs !! j = Some d ->
     exists q, get_prop d "quantity" = Ok q /\ is_pos_int q = true).

Lemma quantities_ok_index xs : forall i n,
  quantities_ok i xs = Err (ErrHttp 400 (MsgOrderQuantity n)) -> i <= n.
Proof.
  induction xs as [|d xs IH]; intros i n; cbn; [discriminate|].
  unfold lift_js, require.
  destruct (get_prop d "quantity") as [q|]; cbn; [|discriminate].
  destruct (negb _); cbn; [|discriminate].
  destruct (is_pos_int q); cbn; [intros Hq; apply IH in Hq; lia|].
  intros Hq. injection Hq as ->. lia.
Qed.

Lemma quantities_ok_first_bad xs : forall i k,
  quantities_ok i xs = Err (ErrHttp 400 (MsgOrderQuantity (i + k))) <-> first_bad_quantity xs k.
Proof.
  induction xs as [|d xs IH]; intros i k.
  { split; [discriminate|]. intros [(d & q & Hd & _) _]. rewrite lookup_nil in Hd. discriminate. }
  cbn. unfold lift_js, require.
  destruct (get_prop d "quantity") as [q|] eqn:Eq; cbn.
  2: { split; [discriminate|]. intros [(d' & q & Hd & Hq & _) Hb]. destruct k as [|k].
       - injection Hd as <-. congruence.
       - destruct (Hb 0 d) as (q' & Hq' & _); [lia|reflexivity|congruence]. }
  destruct (negb (truthy q && to_primitive_throws q)) eqn:Et; cbn.
  2: { split; [discriminate|]. intros [(d' & q' & Hd & Hq & _ & Ht) Hb]. destruct k as [|k].
       - injection Hd as <-. congruence.
       - destruct (Hb 0 d) as (q'' & Hq'' & Hp); [lia|reflexivity|].
         rewrite Eq in Hq''. injection Hq'' as <-.
         apply is_pos_int_no_throw in Hp. rewrite Hp, andb_false_r in Et. discriminate. }
  destruct (is_pos_int q) eqn:Hp; cbn.
  - destruct k as [|k].
    + split.
      * intros Hq. apply quantities_ok_index in Hq. lia.
      * intros [(d' & q' & Hd & Hq & Hb & _) _]. injection Hd as <-. congruence.
    + rewrite Nat.add_succ_r, <- Nat.add_succ_l, IH. unfold first_bad_quantity.
      split; intros [(d' & q' & Hd & Hrest) Hb].
      * split; [exists d', q'; split; [exact Hd|exact Hrest]|].
        intros [|j] d'' Hj Hd''; [injection Hd'' as <-; eauto|]. apply (Hb j); [lia|exact Hd''].
      * split; [exists d', q'; split; [exact Hd|exact Hrest]|].
        intros j d'' Hj Hd''. apply (Hb (S j)); [lia|exact Hd''].
  - destruct k as [|k].
    + rewrite Nat.add_0_r. split; [|reflexivity]. intros _. split; [eauto 7|intros j ? Hj; lia].
    + split.
      * intros Hq. injection Hq as Hq. lia.
      * intros [_ Hb]. destruct (Hb 0 d) as (q' & Hq' & Hp'); [lia|reflexivity|congruence].
Qed.

(** C13 (functional): the [for] loop of [eachDishMustHaveQuantityAboveZero]
    stops with [next({ status: 400, message: "Dish k must have a quantity
    that is an integer greater than 0" })] exactly when line item [k] is
    the first offending one, as the spec requires (4.2, step 5). *)
Theorem quantity_loop_names_first_bad xs k :
  quantity_loop 0 xs = [CNext (Some (ErrHttp 400 (MsgOrderQuantity k)))] <-> first_bad_quantity xs k.
Proof.
  rewrite quantity_loop_spec, <- (quantities_ok_first_bad xs 0 k). cbn.
  destruct (quantities_ok 0 xs) as [[]|[status msg| |]]; cbn; split; intros H; inv_res; auto;
    congruence.
Qed.

Definition two_items : Datatypes.list jsval := [line_item (JInt 2); line_item (JInt 0)].

Lemma quantity_loop_names_first_bad_witness :
  quantity_loop 0 two_items = [CNext (Some (ErrHttp 400 (MsgOrderQuantity 1)))] /\ first_bad_quantity two_items 1.
Proof.
  assert (H : quantity_loop 0 two_items = [CNext (Some (ErrHttp 400 (MsgOrderQuantity 1)))])
    by reflexivity.
  split; [exact H|]. apply (quantity_loop_names_first_bad two_items 1). exact H.
Defined.

(** ** The handler [destroy] *)

Section Destroy.

(** [orders.splice(orders.findIndex(...), 1)] removes the first order
    with the id, or the last order when there is none ([findIndex] gives
    [-1]). *)
Lemma splice_order_index orderId os :
  js_splice1 (order_index orderId os) os =
  match find_order orderId os with Some (i, _) => delete i os | None => removelast os end.
Proof.
  unfold order_index, find_order.
  destruct (js_find _ os) as [[i o]|] eqn:Ef.
  - rewrite (js_findIndex_Some _ _ _ _ Ef). apply js_splice1_nat.
  - rewrite (js_findIndex_None _ _ Ef). apply js_splice1_removelast.
Qed.

(** C23 (functional): the handler [destroy] run by Express on its own,
    whatever the route's [next] and before any response: it never
    calls [next], removes from the orders exactly the first order with
    the route's id, as the spec's [remove(id)] does, leaves the dishes
    and [response.locals] alone, and answers 204.  It does not check
    that the order exists: when no order has the id, [findIndex] gives
    [-1] and the splice removes the last order.  Only [orderExists],
    run before it in the delete chain, keeps that case away. *)
Theorem destroy_removes_found_or_last req (next : option err -> xstate st -> option (xstate st)) x :
  xs_sent x = false ->
  run_prog next (destroy req (xs_app x)) x =
  Some (send (RStatus 204)
          (set_app (set_orders (match find_order (req_param req) (st_orders (xs_app x)) with
                                | Some (i, _) => delete i (st_orders (xs_app x))
                                | None => removelast (st_orders (xs_app x))
                                end) (xs_app x)) x)).
Proof. intros Hs. cbn. rewrite Hs, splice_order_index. reflexivity. Qed.
End Destroy.

Lemma destroy_removes_found_or_last_witness :
  xs_sent (init_x order_store) = false /\
  run_prog (fun _ _ => None) (destroy (Req (ReqLine DELETE "/orders/9") "9" (JObj [])) (xs_app (init_x order_store)))
    (init_x order_store) =
  Some (send (RStatus 204)
          (set_app (set_orders (match find_order "9" (st_orders (xs_app (init_x order_store))) with
                                | Some (i, _) => delete i (st_orders (xs_app (init_x order_store)))
                                | None => removelast (st_orders (xs_app (init_x order_store)))
                                end) (xs_app (init_x order_store))) (init_x order_store))).
Proof.
  split; [reflexivity|].
  apply (destroy_removes_found_or_last (Req (ReqLine DELETE "/orders/9") "9" (JObj []))). reflexivity.
Defined.
