(* ===== verification/App.v ===== *)
(** * The application: requests served one after another

    The application ([src/app.js] of the repository, outside [src/])
    mounts the dishes router at [/dishes] and the orders router at
    [/orders], then [notFound] and [errorHandler].  [serve] runs one
    request from the process state: a fresh [response.locals], the route
    its path selects, and Express's dispatch; it returns the next state
    and what the client observes.  The arrays and the global [dishes]
    persist from one request to the next.

    Paths are given already matched ([target]); [Routing] computes them
    from the URL.  The theorems classify what a request can do to the
    repository, prove that the record invariants the spec states hold
    in every reachable state, and the round trips of the spec's
    examples.  [app_spec] states the whole API of spec 6 as a function
    of the two arrays; [serve] refines it, and the safety, bounds and
    response-shape theorems are read off that contract, as are the
    atomicity of refused requests (spec 7), the idempotence of every
    request but [POST] and [DELETE], the methods each route answers,
    and the rules of spec 4.3 and 8 for the price, the line items, the
    status and the body [id] of an update. *)

From S2P Require Import Prelude Json Express Store Dishes Orders.

Module DC := DishesController.
Module DS := DishSpec.
Module OC := OrdersController.
Module OS := OrderSpec.

(** ** Requests and the server *)

(** The route a path matches, with its parameter. *)
Inductive target := TDishes | TDish (dishId : string) | TOrders | TOrder (orderId : string) | TNone.

#[export] Instance target_eq_dec : EqDecision target.
Proof. solve_decision. Defined.

Record http_request := HttpReq {
  hr_method : method; hr_url : string; hr_target : target; hr_body : jsval
}.

Definition request_of (hr : http_request) : request :=
  Req (ReqLine (hr_method hr) (hr_url hr))
      (match hr_target hr with TDish i | TOrder i => i | _ => ""%string end)
      (hr_body hr).

(** The order of the routes in the dishes router (from the spec): the
    item route first, like the orders router. *)
Definition dish_item_sync_exit : bool := true.
Definition dish_collection_sync_exit : bool := false.

(** A fresh [response.locals] for every request. *)
Definition fresh_locals (s : st) : st := upd_locals (fun _ => no_locals) s.

Section Server.
Context `{IdGen}.

Definition run_route (stack : list (layer st)) (rl : reqline) (se : bool) (s : st) : st * outcome :=
  match dispatch stack rl se s with
  | Some x => (xs_app x, outcome_of (xs_events x))
  | None => (s, Outcome None false)
  end.

Definition serve (s : st) (hr : http_request) : st * outcome :=
  let req := request_of hr in
  let s0 := fresh_locals s in
  match hr_target hr with
  | TDishes => run_route (DC.collection_stack req) (req_line req) dish_collection_sync_exit s0
  | TDish _ => run_route (DC.item_stack req) (req_line req) dish_item_sync_exit s0
  | TOrders => run_route (OC.collection_stack req) (req_line req) OC.collection_sync_exit s0
  | TOrder _ => run_route (OC.item_stack req) (req_line req) OC.item_sync_exit s0
  | TNone => (s0, Outcome (Some (RError 404 (ErrHttp 404 (MsgPathNotFound (hr_url hr))))) false)
  end.

(** The server as a transition system. *)
Inductive step : st -> st -> Prop :=
| step_serve s hr : step s (fst (serve s hr)).

Inductive reachable (init : st) : st -> Prop :=
| reach_init : reachable init init
| reach_step s s' : reachable init s -> step s s' -> reachable init s'.

(** What a request can do to the two arrays: nothing, or one of the
    five operations of the spec. *)
Inductive repo_change (s s' : st) : Prop :=
| rc_none :
    st_dishes s' = st_dishes s -> st_orders s' = st_orders s -> repo_change s s'
| rc_dish_create body :
    st_dishes s' = fst (DS.create_spec body s) -> st_orders s' = st_orders s -> repo_change s s'
| rc_dish_update dishId body :
    st_dishes s' = fst (DS.update_spec dishId body s) -> st_orders s' = st_orders s ->
    repo_change s s'
| rc_order_create body :
    st_dishes s' = st_dishes s -> st_orders s' = fst (OS.create_spec body s) -> repo_change s s'
| rc_order_update orderId body :
    st_dishes s' = st_dishes s -> st_orders s' = (OS.update_spec orderId body s).1.1 ->
    repo_change s s'
| rc_order_delete orderId :
    st_dishes s' = st_dishes s -> st_orders s' = (OS.delete_spec orderId s).1.1 ->
    repo_change s s'.
End Server.

(** ** Every request is answered and changes the arrays as one operation *)

Section Routes.
Context `{IdGen}.

(** A route whose layers for the method are a chain runs as its pipeline. *)
Lemma run_route_pipeline stack rl se k vs h s :
  skipped_before stack rl k -> chain_at stack rl k vs h ->
  run_route stack rl se s =
    (pr_app (pipeline vs h s), Outcome (Some (pr_resp (pipeline vs h s))) (pr_destroyed (pipeline vs h s))).
Proof.
  intros Hk Hc. destruct (dispatch_pipeline stack rl se k vs h s Hk Hc) as (x & Hx & Ha & Ho).
  unfold run_route. rewrite Hx, Ha, Ho. reflexivity.
Qed.

(** A method no layer of the route accepts reaches [methodNotAllowed]. *)
Lemma route_405 stack rl se k s :
  skipped_before stack rl k -> stack !! k = Some (Layer None (methodNotAllowed rl)) ->
  repo_change s (fst (run_route stack rl se s)) /\ out_response (snd (run_route stack rl se s)) <> None.
Proof.
  intros Hk Hl.
  destruct (dispatch_fail stack rl se k (ErrHttp 405 (MsgMethodNotAllowed (rl_method rl) (rl_url rl))) s)
    as (x & Hx & Ha & Ho); [exact Hk|exists (Layer None (methodNotAllowed rl)); auto|].
  unfold run_route. rewrite Hx, Ha, Ho. split; [apply rc_none; reflexivity|discriminate].
Qed.
End Routes.

(** Skip the layers before the route's [methodNotAllowed] at [k]. *)
Ltac solve_405 Hm k :=
  apply (route_405 _ _ _ k);
  [intros i Hi;
   repeat (destruct i as [|i];
     [eexists; split; [reflexivity|]; unfold method_ok, route_method; rewrite Hm; reflexivity|]);
   lia
  |reflexivity].

(** Run a route through its pipeline lemma [pipe] and classify the
    change with the constructor [c]. *)
Ltac via chain pipe c :=
  let Hk := fresh "Hk" in let Hc := fresh "Hc" in
  destruct chain as [Hk Hc];
  rewrite (run_route_pipeline _ _ _ _ _ _ _ Hk Hc);
  cbn [fst snd out_response]; split; [|discriminate];
  let H1 := fresh "H1" in let H2 := fresh "H2" in let H3 := fresh "H3" in let H4 := fresh "H4" in
  destruct pipe as (H1 & H2 & H3 & H4); eapply c; eassumption.

Ltac via_list chain :=
  let Hk := fresh "Hk" in let Hc := fresh "Hc" in
  destruct chain as [Hk Hc];
  rewrite (run_route_pipeline _ _ _ _ _ _ _ Hk Hc);
  cbn [fst snd out_response]; split; [apply rc_none; reflexivity|discriminate].

Section RouteCases.
Context `{IdGen}.

Abbreviation routed stack req se s :=
  (repo_change s (fst (run_route stack (req_line req) se s)) /\
   out_response (snd (run_route stack (req_line req) se s)) <> None).

Lemma dish_item_route req s : routed (DC.item_stack req) req dish_item_sync_exit s.
Proof.
  destruct (rl_method (req_line req)) eqn:Hm; try solve_405 Hm 10.
  - via (dish_read_chain_at req (or_introl Hm)) (dish_read_pipeline req s) rc_none.
  - via (dish_read_chain_at req (or_intror Hm)) (dish_read_pipeline req s) rc_none.
  - via (dish_update_chain_at req Hm) (dish_update_pipeline req s) rc_dish_update.
Qed.

Lemma dish_collection_route req s : routed (DC.collection_stack req) req dish_collection_sync_exit s.
Proof.
  destruct (rl_method (req_line req)) eqn:Hm; try solve_405 Hm 7.
  - via_list (dish_list_chain_at req (or_introl Hm)).
  - via_list (dish_list_chain_at req (or_intror Hm)).
  - via (dish_create_chain_at req Hm) (dish_create_pipeline req s) rc_dish_create.
Qed.

Lemma order_item_route req s : routed (OC.item_stack req) req OC.item_sync_exit s.
Proof.
  destruct (rl_method (req_line req)) eqn:Hm; try solve_405 Hm 14.
  - via (order_read_chain_at req (or_introl Hm)) (order_read_pipeline req s) rc_none.
  - via (order_read_chain_at req (or_intror Hm)) (order_read_pipeline req s) rc_none.
  - via (order_update_chain_at req Hm) (order_update_pipeline req s) rc_order_update.
  - via (order_delete_chain_at req Hm) (order_delete_pipeline req s) rc_order_delete.
Qed.

Lemma order_collection_route req s : routed (OC.collection_stack req) req OC.collection_sync_exit s.
Proof.
  destruct (rl_method (req_line req)) eqn:Hm; try solve_405 Hm 7.
  - via_list (order_list_chain_at req (or_introl Hm)).
  - via_list (order_list_chain_at req (or_intror Hm)).
  - via (order_create_chain_at req Hm) (order_create_pipeline req s) rc_order_create.
Qed.
End RouteCases.

(** ** The application as the spec describes it

    [app_spec] is the contract of the whole API (spec 6): per route and
    method, the operation's specification from [DishSpec] and
    [OrderSpec], 405 for the other methods, 404 for other paths.  It
    reads nothing but the two arrays.  [serve_refines_app_spec] proves
    that the server, Express included, observes exactly this. *)

(** What a request leaves observable: the two arrays and the outcome. *)
Definition observe (r : st * outcome) : list dish * list order * outcome :=
  (st_dishes (fst r), st_orders (fst r), snd r).

Definition keep (s : st) (r : response) : list dish * list order * outcome :=
  (st_dishes s, st_orders s, Outcome (Some r) false).

Definition not_allowed (rl : reqline) : response :=
  RError 405 (ErrHttp 405 (MsgMethodNotAllowed (rl_method rl) (rl_url rl))).

Section AppSpec.
Context `{IdGen}.

Definition dish_collection_spec (req : request) (s : st) : list dish * list order * outcome :=
  match rl_method (req_line req) with
  | GET | HEAD => keep s (RJson 200 (JObj [("data", JArr (map dish_json (st_dishes s)))]))
  | POST => (fst (DS.create_spec (req_body req) s), st_orders s,
             Outcome (Some (snd (DS.create_spec (req_body req) s))) false)
  | _ => keep s (not_allowed (req_line req))
  end.

Definition dish_item_spec (req : request) (s : st) : list dish * list order * outcome :=
  match rl_method (req_line req) with
  | GET | HEAD => keep s (DS.read_spec (req_param req) s)
  | PUT => (fst (DS.update_spec (req_param req) (req_body req) s), st_orders s,
            Outcome (Some (snd (DS.update_spec (req_param req) (req_body req) s))) false)
  | _ => keep s (not_allowed (req_line req))
  end.

Definition order_collection_spec (req : request) (s : st) : list dish * list order * outcome :=
  match rl_method (req_line req) with
  | GET | HEAD => keep s (RJson 200 (JObj [("data", JArr (map order_json (st_orders s)))]))
  | POST => (st_dishes s, fst (OS.create_spec (req_body req) s),
             Outcome (Some (snd (OS.create_spec (req_body req) s))) false)
  | _ => keep s (not_allowed (req_line req))
  end.

Definition order_item_spec (req : request) (s : st) : list dish * list order * outcome :=
  match rl_method (req_line req) with
  | GET | HEAD => keep s (OS.read_spec (req_param req) s)
  | PUT => let r := OS.update_spec (req_param req) (req_body req) s in
           (st_dishes s, r.1.1, Outcome (Some r.1.2) r.2)
  | DELETE => let r := OS.delete_spec (req_param req) s in
              (st_dishes s, r.1.1, Outcome (Some r.1.2) r.2)
  | _ => keep s (not_allowed (req_line req))
  end.

(** The request an operation of the spec is applied to: the method, URL
    and body of the HTTP request, and the id the path names. *)
Definition spec_req (hr : http_request) (id : string) : request :=
  Req (ReqLine (hr_method hr) (hr_url hr)) id (hr_body hr).

Definition app_spec (s : st) (hr : http_request) : list dish * list order * outcome :=
  match hr_target hr with
  | TDishes => dish_collection_spec (spec_req hr "") s
  | TDish dishId => dish_item_spec (spec_req hr dishId) s
  | TOrders => order_collection_spec (spec_req hr "") s
  | TOrder orderId => order_item_spec (spec_req hr orderId) s
  | TNone => keep s (RError 404 (ErrHttp 404 (MsgPathNotFound (hr_url hr))))
  end.
End AppSpec.

Section AppRefinement.
Context `{IdGen}.

(** [methodNotAllowed]'s answer, exactly. *)
Lemma run_route_405 stack rl se k s :
  skipped_before stack rl k -> stack !! k = Some (Layer None (methodNotAllowed rl)) ->
  run_route stack rl se s = (s, Outcome (Some (not_allowed rl)) false).
Proof.
  intros Hk Hl.
  destruct (dispatch_fail stack rl se k (ErrHttp 405 (MsgMethodNotAllowed (rl_method rl) (rl_url rl))) s)
    as (x & Hx & Ha & Ho); [exact Hk|exists (Layer None (methodNotAllowed rl)); auto|].
  unfold run_route. rewrite Hx, Ha, Ho. reflexivity.
Qed.
End AppRefinement.

(** The 405 case of a route whose [methodNotAllowed] is layer [k]. *)
Ltac spec_405 Hm k :=
  unfold keep, observe; rewrite (run_route_405 _ _ _ k);
  [reflexivity
  |intros i Hi;
   repeat (destruct i as [|i];
     [eexists; split; [reflexivity|]; unfold method_ok, route_method; rewrite Hm; reflexivity|]);
   lia
  |reflexivity].

(** A case of a route run through its chain lemma and pipeline lemma. *)
Ltac spec_chain chain pipe :=
  let Hk := fresh "Hk" in let Hc := fresh "Hc" in
  destruct chain as [Hk Hc];
  unfold observe; rewrite (run_route_pipeline _ _ _ _ _ _ _ Hk Hc); cbn [fst snd];
  let H1 := fresh "H1" in let H2 := fresh "H2" in let H3 := fresh "H3" in let H4 := fresh "H4" in
  destruct pipe as (H1 & H2 & H3 & H4); rewrite H1, H2, H3, H4; reflexivity.

Ltac spec_list chain :=
  let Hk := fresh "Hk" in let Hc := fresh "Hc" in
  destruct chain as [Hk Hc];
  unfold observe; rewrite (run_route_pipeline _ _ _ _ _ _ _ Hk Hc); reflexivity.

Section AppRefinementRoutes.
Context `{IdGen}.

Lemma dish_collection_observe req s :
  observe (run_route (DC.collection_stack req) (req_line req) dish_collection_sync_exit s)
  = dish_collection_spec req s.
Proof.
  unfold dish_collection_spec. destruct (rl_method (req_line req)) eqn:Hm; try spec_405 Hm 7.
  - spec_list (dish_list_chain_at req (or_introl Hm)).
  - spec_list (dish_list_chain_at req (or_intror Hm)).
  - spec_chain (dish_create_chain_at req Hm) (dish_create_pipeline req s).
Qed.

Lemma dish_item_observe req s :
  observe (run_route (DC.item_stack req) (req_line req) dish_item_sync_exit s) = dish_item_spec req s.
Proof.
  unfold dish_item_spec. destruct (rl_method (req_line req)) eqn:Hm; try spec_405 Hm 10.
  - spec_chain (dish_read_chain_at req (or_introl Hm)) (dish_read_pipeline req s).
  - spec_chain (dish_read_chain_at req (or_intror Hm)) (dish_read_pipeline req s).
  - spec_chain (dish_update_chain_at req Hm) (dish_update_pipeline req s).
Qed.

Lemma order_collection_observe req s :
  observe (run_route (OC.collection_stack req) (req_line req) OC.collection_sync_exit s)
  = order_collection_spec req s.
Proof.
  unfold order_collection_spec. destruct (rl_method (req_line req)) eqn:Hm; try spec_405 Hm 7.
  - spec_list (order_list_chain_at req (or_introl Hm)).
  - spec_list (order_list_chain_at req (or_intror Hm)).
  - spec_chain (order_create_chain_at req Hm) (order_create_pipeline req s).
Qed.

Lemma order_item_observe req s :
  observe (run_route (OC.item_stack req) (req_line req) OC.item_sync_exit s) = order_item_spec req s.
Proof.
  unfold order_item_spec. destruct (rl_method (req_line req)) eqn:Hm; try spec_405 Hm 14.
  - spec_chain (order_read_chain_at req (or_introl Hm)) (order_read_pipeline req s).
  - spec_chain (order_read_chain_at req (or_intror Hm)) (order_read_pipeline req s).
  - spec_chain (order_update_chain_at req Hm) (order_update_pipeline req s).
  - spec_chain (order_delete_chain_at req Hm) (order_delete_pipeline req s).
Qed.

(** What a request observes is the contract at its fresh state. *)
Lemma serve_observe s hr : observe (serve s hr) = app_spec (fresh_locals s) hr.
Proof.
  unfold serve, app_spec, request_of, spec_req. destruct (hr_target hr).
  - apply dish_collection_observe.
  - apply dish_item_observe.
  - apply order_collection_observe.
  - apply order_item_observe.
  - reflexivity.
Qed.

(** The contract reads nothing but the two arrays. *)
Lemma app_spec_canon s hr :
  app_spec s hr = app_spec (St (st_dishes s) (st_orders s) no_locals JUndefined) hr.
Proof. reflexivity. Qed.

Lemma app_spec_arrays s s' hr :
  st_dishes s = st_dishes s' -> st_orders s = st_orders s' -> app_spec s hr = app_spec s' hr.
Proof.
  intros Hd Ho. rewrite (app_spec_canon s), (app_spec_canon s'), Hd, Ho. reflexivity.
Qed.

(** C24 (refinement): the server refines the API contract.  For every
    state and request, the arrays after [serve] and what the client
    observes are exactly those [app_spec] gives: the router chosen by
    the path, the chain chosen by the method, Express's dispatch, the
    validators' double calls and the error handler all included. *)
Theorem serve_refines_app_spec s hr : observe (serve s hr) = app_spec s hr.
Proof. rewrite serve_observe. apply app_spec_arrays; reflexivity. Qed.
End AppRefinementRoutes.

Section Serve.
Context `{IdGen}.

(** The operations of the spec do not read [response.locals]. *)
Lemma repo_change_fresh s s' : repo_change (fresh_locals s) s' -> repo_change s s'.
Proof.
  intros [];
    [eapply rc_none|eapply rc_dish_create|eapply rc_dish_update
    |eapply rc_order_create|eapply rc_order_update|eapply rc_order_delete];
    (etransitivity; [eassumption|reflexivity]).
Qed.

(** Every request is answered, and changes the arrays as at most one
    operation of the spec. *)
Lemma serve_spec s hr :
  repo_change s (fst (serve s hr)) /\ out_response (snd (serve s hr)) <> None.
Proof.
  unfold serve.
  destruct (hr_target hr);
    [ destruct (dish_collection_route (request_of hr) (fresh_locals s)) as [Hc Ha]
    | destruct (dish_item_route (request_of hr) (fresh_locals s)) as [Hc Ha]
    | destruct (order_collection_route (request_of hr) (fresh_locals s)) as [Hc Ha]
    | destruct (order_item_route (request_of hr) (fresh_locals s)) as [Hc Ha]
    | cbn; split; [apply rc_none; reflexivity|discriminate] ].
  all: split; [apply repo_change_fresh; exact Hc|exact Ha].
Qed.
End Serve.

(** ** The record invariants *)

(** A stored dish: the fields the validators require, a price that is an
    integer greater than 0. *)
Definition dish_ok (d : dish) : bool :=
  truthy (dish_name d) && truthy (dish_description d) && is_pos_int (dish_price d) &&
  truthy (dish_image_url d).

(** A stored order: the fields the validators require, a non-empty array
    of line items whose quantities are integers greater than 0. *)
Definition order_ok (o : order) : bool :=
  truthy (order_deliverTo o) && truthy (order_mobileNumber o) &&
  OS.nonempty_array (order_dishes o) &&
  is_ok (OS.quantities_ok 0 (OC.array_elems (order_dishes o))).

Definition records_ok (s : st) : Prop :=
  Forall (fun d => dish_ok d = true) (st_dishes s) /\
  Forall (fun o => order_ok o = true) (st_orders s).

Section Invariants.
Context `{IdGen}.

Lemma dish_create_spec_ok body s :
  Forall (fun d => dish_ok d = true) (st_dishes s) ->
  Forall (fun d => dish_ok d = true) (fst (DS.create_spec body s)).
Proof.
  unfold DS.create_spec. destruct (DS.validate_dish body) as [[[[n d] p] i]|e] eqn:Hv; cbn; [|auto].
  apply validate_dish_ok in Hv as (_ & Hn & _ & Hd & _ & Hp & _ & Hi).
  intros Hf. apply Forall_app; split; [exact Hf|]. constructor; [|constructor].
  unfold dish_ok. cbn. now rewrite Hn, Hd, Hp, Hi.
Qed.

Lemma dish_update_spec_ok dishId body s :
  Forall (fun d => dish_ok d = true) (st_dishes s) ->
  Forall (fun d => dish_ok d = true) (fst (DS.update_spec dishId body s)).
Proof.
  unfold DS.update_spec. destruct (DS.find_dish _ _) as [[i d]|]; cbn; [|auto].
  destruct (_ ;; DS.validate_dish body) as [[[[n de] p] im]|e] eqn:Hv; cbn; [|auto].
  apply result_bind_eq_Ok in Hv as ([] & _ & Hv).
  apply validate_dish_ok in Hv as (_ & Hn & _ & Hd & _ & Hp & _ & Hi).
  intros Hf. apply Forall_insert; [exact Hf|]. unfold dish_ok. cbn. now rewrite Hn, Hd, Hp, Hi.
Qed.

(** A validated order payload makes a valid order, whatever its id and status. *)
Lemma validated_order_ok body deliverTo mobileNumber dishes orderId status :
  OS.validate_order body = Ok (deliverTo, mobileNumber, dishes) ->
  order_ok (Order orderId deliverTo mobileNumber status dishes) = true.
Proof.
  intros Hv. apply validate_order_ok in Hv as (_ & Hd & _ & Hm & _ & Hn & Hq).
  unfold order_ok. cbn. now rewrite Hd, Hm, Hn, Hq.
Qed.

Lemma order_create_spec_ok body s :
  Forall (fun o => order_ok o = true) (st_orders s) ->
  Forall (fun o => order_ok o = true) (fst (OS.create_spec body s)).
Proof.
  unfold OS.create_spec.
  destruct (OS.validate_order body) as [[[d m] ds]|e] eqn:Hv; cbn; [|auto].
  destruct (get_prop_default _ _ _); cbn; [|auto].
  intros Hf. apply Forall_app; split; [exact Hf|]. constructor; [|constructor].
  eapply validated_order_ok; exact Hv.
Qed.

Lemma order_update_spec_ok orderId body s :
  Forall (fun o => order_ok o = true) (st_orders s) ->
  Forall (fun o => order_ok o = true) (OS.update_spec orderId body s).1.1.
Proof.
  unfold OS.update_spec. destruct (OS.find_order _ _) as [[i o]|]; cbn; [|auto].
  destruct (OS.check_status body); cbn; [|auto].
  destruct (_ ;; OS.validate_order body) as [[[d m] ds]|e] eqn:Hv; cbn; [|auto].
  apply result_bind_eq_Ok in Hv as ([] & _ & Hv).
  intros Hf. apply Forall_insert; [exact Hf|]. eapply validated_order_ok; exact Hv.
Qed.

Lemma order_delete_spec_ok orderId s :
  Forall (fun o => order_ok o = true) (st_orders s) ->
  Forall (fun o => order_ok o = true) (OS.delete_spec orderId s).1.1.
Proof.
  unfold OS.delete_spec. destruct (OS.find_order _ _) as [[i o]|]; cbn; [|auto].
  destruct (strict_eq_str _ _); cbn; [apply Forall_delete|auto].
Qed.

#[local] Hint Resolve dish_create_spec_ok dish_update_spec_ok order_create_spec_ok
  order_update_spec_ok order_delete_spec_ok : grub.

Lemma repo_change_records_ok s s' : repo_change s s' -> records_ok s -> records_ok s'.
Proof.
  intros Hc [Hd Ho]. unfold records_ok.
  destruct Hc as [H1 H2|? H1 H2|? ? H1 H2|? H1 H2|? ? H1 H2|? H1 H2];
    rewrite ?H1, ?H2; split; auto with grub.
Qed.

(** The ids of a record kept by an update. *)
Lemma dish_update_spec_ids dishId body s :
  map dish_id (fst (DS.update_spec dishId body s)) = map dish_id (st_dishes s).
Proof.
  unfold DS.update_spec, DS.find_dish. destruct (js_find _ _) as [[i d]|] eqn:Ef; cbn; [|auto].
  apply js_find_Some in Ef as (Hl & _ & _).
  destruct (_ ;; DS.validate_dish body) as [[[[n de] p] im]|e]; cbn; [|auto].
  eapply map_insert_same_key; [exact Hl|reflexivity].
Qed.

Lemma order_update_spec_ids orderId body s :
  map order_id (OS.update_spec orderId body s).1.1 = map order_id (st_orders s).
Proof.
  unfold OS.update_spec, OS.find_order. destruct (js_find _ _) as [[i o]|] eqn:Ef; cbn; [|auto].
  apply js_find_Some in Ef as (Hl & _ & _).
  destruct (OS.check_status body); cbn; [|auto].
  destruct (_ ;; OS.validate_order body) as [[[d m] ds]|e]; cbn; [|auto].
  eapply map_insert_same_key; [exact Hl|reflexivity].
Qed.

Lemma repo_change_ids s s' : repo_change s s' -> NoDup (used_ids s) -> NoDup (used_ids s').
Proof.
  unfold used_ids. intros Hc Hn.
  destruct Hc as [H1 H2|body H1 H2|dishId body H1 H2|body H1 H2|orderId body H1 H2|orderId H1 H2];
    rewrite H1, H2.
  - exact Hn.
  - unfold DS.create_spec. destruct (DS.validate_dish body) as [[[[n d] p] i]|]; cbn; [|exact Hn].
    rewrite map_app. apply NoDup_snoc_l; [exact Hn|apply nextId_fresh].
  - rewrite dish_update_spec_ids. exact Hn.
  - unfold OS.create_spec. destruct (OS.validate_order body) as [[[d m] ds]|]; cbn; [|exact Hn].
    destruct (get_prop_default _ _ _); cbn; [|exact Hn].
    rewrite map_app. apply NoDup_snoc_r; [exact Hn|apply nextId_fresh].
  - rewrite order_update_spec_ids. exact Hn.
  - unfold OS.delete_spec. destruct (OS.find_order _ _) as [[i o]|]; cbn; [|exact Hn].
    destruct (strict_eq_str _ _); cbn; [|exact Hn].
    rewrite list_map_fmap, list_fmap_delete, <- list_map_fmap. apply NoDup_delete_r, Hn.
Qed.

(** C6 (invariant): in every state the server reaches from a state whose
    records are valid, every dish has a name, a description, an
    image_url and a price that is an integer greater than 0, and every
    order has a deliverTo, a mobileNumber and a non-empty array of line
    items whose quantities are integers greater than 0. *)
Theorem reachable_records_ok init s :
  records_ok init -> reachable init s -> records_ok s.
Proof.
  intros Hi Hr. induction Hr as [|s s' _ IH Hs]; [exact Hi|].
  destruct Hs as [s hr]. eapply repo_change_records_ok; [apply serve_spec|exact IH].
Qed.

(** C7 (invariant): ids stay unique: from a state without duplicate ids
    among the dishes and orders, no reachable state has one; new records
    get fresh ids, updates keep the ids, and a delete removes one. *)
Theorem reachable_ids_unique init s :
  NoDup (used_ids init) -> reachable init s -> NoDup (used_ids s).
Proof.
  intros Hi Hr. induction Hr as [|s s' _ IH Hs]; [exact Hi|].
  destruct Hs as [s hr]. eapply repo_change_ids; [apply serve_spec|exact IH].
Qed.
End Invariants.

(** ** Requests in sequence: the spec's examples *)

Section Scenarios.
Context `{IdGen}.

Lemma serve_dish_create s hr :
  hr_target hr = TDishes -> hr_method hr = POST ->
  st_dishes (fst (serve s hr)) = fst (DS.create_spec (hr_body hr) s) /\
  out_response (snd (serve s hr)) = Some (snd (DS.create_spec (hr_body hr) s)).
Proof.
  intros Ht Hm. destruct (dish_create_chain_at (request_of hr) Hm) as [Hk Hc].
  destruct (dish_create_pipeline (request_of hr) (fresh_locals s)) as (H1 & _ & H3 & _).
  unfold serve. rewrite Ht, (run_route_pipeline _ _ _ _ _ _ _ Hk Hc).
  cbn [fst snd out_response]. rewrite H1, H3. split; reflexivity.
Qed.

Lemma serve_dish_read s hr dishId :
  hr_target hr = TDish dishId -> hr_method hr = GET ->
  out_response (snd (serve s hr)) = Some (DS.read_spec dishId s).
Proof.
  intros Ht Hm. destruct (dish_read_chain_at (request_of hr) (or_introl Hm)) as [Hk Hc].
  destruct (dish_read_pipeline (request_of hr) (fresh_locals s)) as (_ & _ & H3 & _).
  unfold serve. rewrite Ht, (run_route_pipeline _ _ _ _ _ _ _ Hk Hc).
  cbn [fst snd out_response]. rewrite H3. unfold request_of. rewrite Ht. reflexivity.
Qed.

Lemma serve_order_item s hr orderId :
  hr_target hr = TOrder orderId ->
  let s' := fst (serve s hr) in let r := out_response (snd (serve s hr)) in
  (hr_method hr = GET -> r = Some (OS.read_spec orderId s)) /\
  (hr_method hr = PUT ->
     st_orders s' = (OS.update_spec orderId (hr_body hr) s).1.1 /\
     r = Some (OS.update_spec orderId (hr_body hr) s).1.2) /\
  (hr_method hr = DELETE ->
     st_orders s' = (OS.delete_spec orderId s).1.1 /\ r = Some (OS.delete_spec orderId s).1.2).
Proof.
  intros Ht. cbn zeta. unfold serve. rewrite Ht.
  assert (Hp : req_param (request_of hr) = orderId) by (unfold request_of; rewrite Ht; reflexivity).
  split; [|split]; intros Hm.
  - destruct (order_read_chain_at (request_of hr) (or_introl Hm)) as [Hk Hc].
    destruct (order_read_pipeline (request_of hr) (fresh_locals s)) as (_ & _ & H3 & _).
    rewrite (run_route_pipeline _ _ _ _ _ _ _ Hk Hc). cbn [fst snd out_response].
    rewrite H3, <- Hp. reflexivity.
  - destruct (order_update_chain_at (request_of hr) Hm) as [Hk Hc].
    destruct (order_update_pipeline (request_of hr) (fresh_locals s)) as (H1 & _ & H3 & _).
    rewrite (run_route_pipeline _ _ _ _ _ _ _ Hk Hc). cbn [fst snd out_response].
    rewrite H1, H3, <- Hp. split; reflexivity.
  - destruct (order_delete_chain_at (request_of hr) Hm) as [Hk Hc].
    destruct (order_delete_pipeline (request_of hr) (fresh_locals s)) as (H1 & _ & H3 & _).
    rewrite (run_route_pipeline _ _ _ _ _ _ _ Hk Hc). cbn [fst snd out_response].
    rewrite H1, H3, <- Hp. split; reflexivity.
Qed.

(** A fresh id is no stored dish's. *)
Lemma fresh_id_not_found s :
  DS.find_dish (nextId (used_ids s)) (st_dishes s) = None.
Proof.
  apply js_find_None. intros d Hd. apply bool_decide_eq_false. intros He.
  apply (nextId_fresh (used_ids s)). rewrite <- He. unfold used_ids.
  apply elem_of_app. left. rewrite list_map_fmap. apply list_elem_of_fmap_2, Hd.
Qed.

(** C9 (roundtrip): the spec's end-to-end example.  A dish created by
    [POST /dishes] (answered 201 with the dish) is then read back by
    [GET /dishes/<its id>] as exactly the same object. *)
Theorem dish_create_then_read s hr d hr2 :
  hr_target hr = TDishes -> hr_method hr = POST ->
  out_response (snd (serve s hr)) = Some (RJson 201 (JObj [("data", dish_json d)])) ->
  hr_target hr2 = TDish (dish_id d) -> hr_method hr2 = GET ->
  out_response (snd (serve (fst (serve s hr)) hr2)) = Some (RJson 200 (JObj [("data", dish_json d)])).
Proof.
  intros Ht Hm Hr Ht2 Hm2.
  destruct (serve_dish_create s hr Ht Hm) as [H1 H2]. rewrite H2 in Hr.
  rewrite (serve_dish_read _ _ _ Ht2 Hm2). unfold DS.read_spec. rewrite H1.
  unfold DS.create_spec in *.
  destruct (DS.validate_dish (hr_body hr)) as [[[[n de] p] i]|e]; cbn in Hr; cbn [fst];
    [|discriminate].
  destruct d as [id' n' de' p' i']. cbn in Hr. injection Hr as <- <- <- <- <-. cbn [dish_id].
  unfold DS.find_dish. rewrite js_find_snoc_new; [reflexivity|apply fresh_id_not_found|].
  apply bool_decide_eq_true. reflexivity.
Qed.

(** C10 (roundtrip): with unique ids (every reachable state has them),
    an order that [DELETE /orders/:orderId] answered with 204 is no
    longer retrievable: [GET] on its id answers 404. *)
Theorem order_delete_then_read s hr orderId hr2 :
  NoDup (used_ids s) ->
  hr_target hr = TOrder orderId -> hr_method hr = DELETE ->
  out_response (snd (serve s hr)) = Some (RStatus 204) ->
  hr_target hr2 = TOrder orderId -> hr_method hr2 = GET ->
  out_response (snd (serve (fst (serve s hr)) hr2)) =
    Some (RError 404 (ErrHttp 404 (MsgOrderNotFound orderId))).
Proof.
  intros Hn Ht Hm Hr Ht2 Hm2.
  destruct (serve_order_item s hr orderId Ht) as (_ & _ & Hd).
  destruct (Hd Hm) as [Ho Hr']. rewrite Hr' in Hr.
  destruct (serve_order_item (fst (serve s hr)) hr2 orderId Ht2) as (Hg & _ & _).
  rewrite (Hg Hm2). unfold OS.read_spec. rewrite Ho.
  unfold OS.delete_spec, OS.find_order in *.
  destruct (js_find _ (st_orders s)) as [[i o]|] eqn:Ef; [|discriminate].
  destruct (strict_eq_str _ _); cbn in Hr; cbn [fst snd]; [|discriminate].
  apply js_find_Some in Ef as (Hl & Hp & _). apply bool_decide_eq_true in Hp.
  rewrite (proj2 (js_find_None _ _)); [reflexivity|].
  intros x Hx. apply bool_decide_eq_false. intros Hxi.
  apply stdpp.list_relations.list.NoDup_app in Hn as (_ & _ & Hn).
  apply (NoDup_lookup_delete (map order_id (st_orders s)) i orderId Hn).
  - rewrite list_map_fmap, list_lookup_fmap, Hl. cbn. rewrite Hp. reflexivity.
  - rewrite list_map_fmap, <- list_fmap_delete. rewrite <- Hxi. apply list_elem_of_fmap_2, Hx.
Qed.

(** C11 (roundtrip): an order that [PUT /orders/:orderId] answered with
    200 and the updated order (the spec's example: a valid status such
    as "delivered") is read back by [GET] as exactly that order. *)
Theorem order_update_then_read s hr orderId v hr2 :
  hr_target hr = TOrder orderId -> hr_method hr = PUT ->
  out_response (snd (serve s hr)) = Some (RJson 200 (JObj [("data", v)])) ->
  hr_target hr2 = TOrder orderId -> hr_method hr2 = GET ->
  out_response (snd (serve (fst (serve s hr)) hr2)) = Some (RJson 200 (JObj [("data", v)])).
Proof.
  intros Ht Hm Hr Ht2 Hm2.
  destruct (serve_order_item s hr orderId Ht) as (_ & Hu & _).
  destruct (Hu Hm) as [Ho Hr']. rewrite Hr' in Hr.
  destruct (serve_order_item (fst (serve s hr)) hr2 orderId Ht2) as (Hg & _ & _).
  rewrite (Hg Hm2). unfold OS.read_spec. rewrite Ho.
  unfold OS.update_spec in *.
  destruct (OS.find_order _ _) as [[i o]|] eqn:Ef; [|discriminate].
  destruct (OS.check_status _) as [st'|]; [|discriminate].
  destruct (_ ;; OS.validate_order _) as [[[d m] ds]|]; cbn in Hr; cbn [fst snd]; [|discriminate].
  injection Hr as <-.
  unfold OS.find_order in *. rewrite (js_find_insert_same _ _ _ _ _ Ef); [reflexivity|].
  apply js_find_Some in Ef as (_ & Hp & _). exact Hp.
Qed.
End Scenarios.

(** ** The status of a new order *)

(** [POST /orders] with a top-level [status] next to a valid [data]. *)
Definition post_order_with_status (status : jsval) : http_request :=
  HttpReq POST "/orders" TOrders (JObj [("status", status); ("data", order_data JUndefined)]).

Section CreateStatus.
Context `{IdGen}.

(** C12 (functional): [POST /orders] with a valid payload stores the
    order with the [status] found at the top level of the body (or
    "pending" when there is none), whatever [data.status] says: the
    status the spec lets a client give is ignored, and the one it does
    not mention is stored unchecked. *)
Theorem order_create_status s hr deliverTo mobileNumber dishes :
  hr_target hr = TOrders -> hr_method hr = POST ->
  OS.validate_order (hr_body hr) = Ok (deliverTo, mobileNumber, dishes) ->
  exists ps, hr_body hr = JObj ps /\
    st_orders (fst (serve s hr)) =
      st_orders s ++ [Order (nextId (used_ids s)) deliverTo mobileNumber
                        (match assoc_lookup ps "status" with JUndefined => JStr "pending" | v => v end)
                        dishes].
Proof.
  intros Ht Hm Hv. destruct (order_create_chain_at (request_of hr) Hm) as [Hk Hc].
  destruct (order_create_pipeline (request_of hr) (fresh_locals s)) as (H1 & _ & _ & _).
  unfold serve. rewrite Ht, (run_route_pipeline _ _ _ _ _ _ _ Hk Hc). cbn [fst]. rewrite H1.
  destruct (validate_order_body_obj _ _ Hv) as (ps & Hb). exists ps. split; [exact Hb|].
  unfold OS.create_spec. change (req_body (request_of hr)) with (hr_body hr).
  rewrite Hv, Hb. cbn. destruct (assoc_lookup ps "status"); reflexivity.
Qed.

End CreateStatus.

(** ** Witnesses *)

Definition post_taco_hr : http_request := HttpReq POST "/dishes" TDishes (JObj [("data", taco_data)]).

(** The taco [POST /dishes] of the spec creates. *)
Definition created_taco : dish :=
  Dish (nextId (used_ids empty_store)) (JStr "Taco") (JStr "Spicy") (JInt 8) (JStr "http://x").

Definition after_post : st := fst (serve order_store (post_order_with_status JUndefined)).

Definition order_1_hr (m : method) (body : jsval) : http_request :=
  HttpReq m "/orders/1" (TOrder "1") body.

Lemma order_store_records_ok : records_ok order_store.
Proof. split; repeat constructor. Qed.

Lemma after_post_reachable : reachable order_store after_post.
Proof. eapply reach_step; [apply reach_init|apply step_serve]. Qed.

Lemma reachable_records_ok_witness :
  records_ok order_store /\ reachable order_store after_post /\ records_ok after_post.
Proof.
  split; [exact order_store_records_ok|]. split; [exact after_post_reachable|].
  apply (reachable_records_ok order_store after_post order_store_records_ok after_post_reachable).
Defined.

Lemma reachable_ids_unique_witness :
  NoDup (used_ids order_store) /\ reachable order_store after_post /\ NoDup (used_ids after_post).
Proof.
  assert (Hn : NoDup (used_ids order_store)) by (cbn; apply NoDup_singleton).
  split; [exact Hn|]. split; [exact after_post_reachable|].
  apply (reachable_ids_unique order_store after_post Hn after_post_reachable).
Defined.

Lemma dish_create_then_read_witness :
  out_response (snd (serve (fst (serve empty_store post_taco_hr))
                          (HttpReq GET "/dishes/x" (TDish (dish_id created_taco)) (JObj [])))) =
    Some (RJson 200 (JObj [("data", dish_json created_taco)])).
Proof.
  apply (dish_create_then_read empty_store post_taco_hr created_taco).
  all: try reflexivity. all: vm_compute; reflexivity.
Defined.

Lemma order_delete_then_read_witness :
  out_response (snd (serve (fst (serve order_store (order_1_hr DELETE (JObj []))))
                          (order_1_hr GET (JObj [])))) =
    Some (RError 404 (ErrHttp 404 (MsgOrderNotFound "1"))).
Proof.
  apply (order_delete_then_read order_store (order_1_hr DELETE (JObj [])) "1").
  all: try reflexivity. all: try (vm_compute; reflexivity). cbn. apply NoDup_singleton.
Defined.

Definition delivered_order : order :=
  Order "1" (JStr "Morty") (JStr "556") (JStr "delivered") (JArr [line_item (JInt 2)]).

Lemma order_update_then_read_witness :
  out_response (snd (serve (fst (serve order_store
                                  (order_1_hr PUT (JObj [("data", order_data (JStr "delivered"))]))))
                          (order_1_hr GET (JObj [])))) =
    Some (RJson 200 (JObj [("data", order_json delivered_order)])).
Proof.
  apply (order_update_then_read order_store
           (order_1_hr PUT (JObj [("data", order_data (JStr "delivered"))])) "1").
  all: try reflexivity. all: vm_compute; reflexivity.
Defined.

(** A [data.status] of "delivered" on create is ignored. *)
Lemma order_create_status_witness :
  exists ps, JObj [("data", order_data (JStr "delivered"))] = JObj ps /\
    st_orders (fst (serve order_store (HttpReq POST "/orders" TOrders
                                         (JObj [("data", order_data (JStr "delivered"))])))) =
      st_orders order_store ++
        [Order (nextId (used_ids order_store)) (JStr "Morty") (JStr "556")
               (match assoc_lookup ps "status" with JUndefined => JStr "pending" | v => v end)
               (JArr [line_item (JInt 2)])].
Proof.
  apply (order_create_status order_store
           (HttpReq POST "/orders" TOrders (JObj [("data", order_data (JStr "delivered"))]))
           (JStr "Morty") (JStr "556") (JArr [line_item (JInt 2)])); reflexivity.
Defined.

(** ** Safety and bounds of one request *)

Section Safety.
Context `{IdGen}.

(** The arrays and the outcome of a request, read off the contract. *)
Lemma serve_parts s hr :
  st_dishes (fst (serve s hr)) = (app_spec s hr).1.1 /\
  st_orders (fst (serve s hr)) = (app_spec s hr).1.2 /\
  snd (serve s hr) = (app_spec s hr).2.
Proof.
  rewrite <- (app_spec_arrays (fresh_locals s) s hr) by reflexivity.
  rewrite <- serve_observe. unfold observe. auto.
Qed.

(** C25 (safety): nothing a request leaves in [response.locals], nor
    the global [dishes] the orders validators assign, influences a
    later request: two states with the same arrays give every request
    the same arrays and the same outcome. *)
Theorem serve_noninterference s s' hr :
  st_dishes s = st_dishes s' -> st_orders s = st_orders s' ->
  observe (serve s hr) = observe (serve s' hr).
Proof. intros Hd Ho. rewrite !serve_observe. apply app_spec_arrays; assumption. Qed.

(** C26 (safety): an order leaves the repository only through [DELETE]
    on its id while it is pending: if an order's id is gone after a
    request, the request was a [DELETE] of that order and its status was
    "pending". *)
Theorem order_removed_only_when_pending s hr o :
  o ∈ st_orders s -> order_id o ∉ map order_id (st_orders (fst (serve s hr))) ->
  hr_target hr = TOrder (order_id o) /\ hr_method hr = DELETE /\
  strict_eq_str (order_status o) "pending" = true.
Proof.
  intros Hin Hnot. destruct (serve_parts s hr) as (_ & Ho & _). rewrite Ho in Hnot. clear Ho.
  pose proof (elem_of_map_2 order_id _ _ Hin) as Hid.
  unfold app_spec, dish_collection_spec, dish_item_spec, order_collection_spec, order_item_spec,
    keep, spec_req in Hnot.
  cbn [req_line rl_method req_param req_body] in Hnot.
  destruct (hr_target hr) as [|dishId| |orderId|] eqn:Ht;
    destruct (hr_method hr) eqn:Hm; cbn [fst snd] in Hnot; try contradiction.
  - unfold OS.create_spec in Hnot.
    destruct (OS.validate_order _) as [[[? ?] ?]|]; [|contradiction].
    destruct (get_prop_default _ _ _); cbn in Hnot; [|contradiction].
    rewrite map_app in Hnot. exfalso. apply Hnot, elem_of_app. left. exact Hid.
  - rewrite order_update_spec_ids in Hnot. contradiction.
  - unfold OS.delete_spec, OS.find_order in *.
    destruct (js_find _ (st_orders s)) as [[i o']|] eqn:Ef; cbn in Hnot; [|contradiction].
    destruct (strict_eq_str (order_status o') "pending") eqn:Hp; cbn in Hnot; [|contradiction].
    apply js_find_Some in Ef as (Hl & Hid' & _). apply bool_decide_eq_true in Hid'.
    apply list_elem_of_lookup_1 in Hin as (j & Hj).
    destruct (decide (j = i)) as [->|Hji].
    + rewrite Hl in Hj. injection Hj as ->. rewrite Hid'. auto.
    + exfalso. apply Hnot, elem_of_map_2, (elem_of_delete_other _ _ _ _ Hj Hji).
Qed.

(** C27 (safety): dishes are never removed and keep their ids and their
    order: the ids before a request are a prefix of the ids after it. *)
Theorem dish_ids_persist s hr :
  map dish_id (st_dishes s) `prefix_of` map dish_id (st_dishes (fst (serve s hr))).
Proof.
  destruct (serve_spec s hr) as [Hc _].
  destruct Hc as [H1 _|body H1 _|dishId body H1 _|body H1 _|orderId body H1 _|orderId H1 _];
    rewrite H1; try reflexivity.
  - unfold DS.create_spec. destruct (DS.validate_dish body) as [[[[? ?] ?] ?]|]; cbn; [|reflexivity].
    rewrite map_app. apply prefix_app_r. reflexivity.
  - rewrite dish_update_spec_ids. reflexivity.
Qed.

Lemma create_spec_lengths body s :
  length (fst (DS.create_spec body s)) = length (st_dishes s) \/
  length (fst (DS.create_spec body s)) = S (length (st_dishes s)).
Proof.
  unfold DS.create_spec. destruct (DS.validate_dish body) as [[[[? ?] ?] ?]|]; cbn; [|auto].
  rewrite length_app. cbn. right. lia.
Qed.

Lemma dish_update_spec_length dishId body s :
  length (fst (DS.update_spec dishId body s)) = length (st_dishes s).
Proof.
  rewrite <- !length_map with (f := dish_id). rewrite dish_update_spec_ids. reflexivity.
Qed.

Lemma order_create_spec_lengths body s :
  length (fst (OS.create_spec body s)) = length (st_orders s) \/
  length (fst (OS.create_spec body s)) = S (length (st_orders s)).
Proof.
  unfold OS.create_spec. destruct (OS.validate_order body) as [[[? ?] ?]|]; cbn; [|auto].
  destruct (get_prop_default _ _ _); cbn; [|auto]. rewrite length_app. cbn. right. lia.
Qed.

Lemma order_update_spec_length orderId body s :
  length (OS.update_spec orderId body s).1.1 = length (st_orders s).
Proof.
  rewrite <- !length_map with (f := order_id). rewrite order_update_spec_ids. reflexivity.
Qed.

Lemma order_delete_spec_lengths orderId s :
  length (OS.delete_spec orderId s).1.1 = length (st_orders s) \/
  S (length (OS.delete_spec orderId s).1.1) = length (st_orders s).
Proof.
  unfold OS.delete_spec. destruct (OS.find_order _ _) as [[i o]|] eqn:Ef; cbn; [|auto].
  apply js_find_Some in Ef as (Hl & _ & _).
  destruct (strict_eq_str _ _); cbn; [|auto]. right.
  rewrite length_delete by (rewrite Hl; eauto). apply lookup_lt_Some in Hl. lia.
Qed.

(** C28 (bounds): one request adds at most one dish and removes none,
    and adds or removes at most one order. *)
Theorem serve_length_bounds s hr :
  let s' := fst (serve s hr) in
  length (st_dishes s) <= length (st_dishes s') <= S (length (st_dishes s)) /\
  length (st_orders s) <= S (length (st_orders s')) /\
  length (st_orders s') <= S (length (st_orders s)).
Proof.
  cbn zeta. destruct (serve_spec s hr) as [Hc _].
  destruct Hc as [H1 H2|body H1 H2|dishId body H1 H2|body H1 H2|orderId body H1 H2|orderId H1 H2];
    rewrite H1, H2.
  - lia.
  - destruct (create_spec_lengths body s); lia.
  - rewrite dish_update_spec_length. lia.
  - destruct (order_create_spec_lengths body s); lia.
  - rewrite order_update_spec_length. lia.
  - destruct (order_delete_spec_lengths orderId s); lia.
Qed.
End Safety.

(** ** The shape of every response *)

(** The statuses of the spec's error taxonomy (spec 7). *)
Definition api_status (n : Z) : Prop := (n = 400 \/ n = 404 \/ n = 405 \/ n = 500)%Z.

(** Spec 6: a success wraps its payload as [{data: ...}] with 200 or 201,
    a delete answers 204 with no body, a failure carries the status of
    its error, one of the taxonomy's. *)
Definition well_formed_response (r : response) : Prop :=
  match r with
  | RJson n (JObj [("data", _)]) => (n = 200 \/ n = 201)%Z
  | RJson _ _ => False
  | RStatus n => (n = 204)%Z
  | RError n e => n = err_status e /\ api_status n
  | RFinal _ => False
  end.

(** The statuses an operation answers with: 405 is only the routers'. *)
Definition op_status (n : Z) : Prop := (n = 400 \/ n = 404 \/ n = 500)%Z.

(** A response an operation of the spec can give: well formed, and not
    the routers' 405. *)
Definition op_response (r : response) : Prop := well_formed_response r /\ (resp_status r <> 405)%Z.

(** The errors a validation can produce. *)
Definition errs_ok {A} (r : result err A) : Prop :=
  match r with Ok _ => True | Err e => op_status (err_status e) end.

Section Shapes.
Context `{IdGen}.

Lemma errs_ok_bind {A B} (r : result err A) (k : A -> result err B) :
  errs_ok r -> (forall a, errs_ok (k a)) -> errs_ok (r ≫= k).
Proof. destruct r; cbn; auto. Qed.

Lemma errs_ok_ret {A} (a : A) : errs_ok (Ok a : result err A).
Proof. exact I. Qed.

Lemma errs_ok_ds_lift {A} (x : js A) : errs_ok (DS.lift_js x).
Proof. destruct x; cbn; unfold op_status; auto. Qed.
Lemma errs_ok_os_lift {A} (x : js A) : errs_ok (OS.lift_js x).
Proof. destruct x; cbn; unfold op_status; auto. Qed.
Lemma errs_ok_ds_require b e : op_status (err_status e) -> errs_ok (DS.require b e).
Proof. destruct b; cbn; auto. Qed.
Lemma errs_ok_os_require b e : op_status (err_status e) -> errs_ok (OS.require b e).
Proof. destruct b; cbn; auto. Qed.

Lemma op_status_400 : op_status 400.
Proof. left. reflexivity. Qed.
Lemma op_status_500 : op_status 500.
Proof. unfold op_status. auto. Qed.

#[local] Hint Resolve errs_ok_ret errs_ok_ds_lift errs_ok_os_lift errs_ok_ds_require
  errs_ok_os_require op_status_400 op_status_500 : grub.

(** Unfold a validation built from binds, [lift_js] and [require]. *)
Ltac solve_errs :=
  repeat (apply errs_ok_bind; [auto with grub|intros ?]); auto with grub.

(** A response with a concrete status. *)
Ltac op_ok := split; cbn; unfold api_status; lia.

Lemma validate_dish_errs body : errs_ok (DS.validate_dish body).
Proof. unfold DS.validate_dish. solve_errs. Qed.

Lemma quantities_ok_errs xs : forall i, errs_ok (OS.quantities_ok i xs).
Proof.
  induction xs as [|d xs IH]; intros i; cbn; [exact I|].
  solve_errs.
Qed.

#[local] Hint Resolve quantities_ok_errs : grub.

Lemma validate_order_errs body : errs_ok (OS.validate_order body).
Proof. unfold OS.validate_order. solve_errs. Qed.

Lemma check_id_errs dishId body : errs_ok (DS.check_id dishId body).
Proof.
  unfold DS.check_id. apply errs_ok_bind; [auto with grub|intros id].
  destruct (_ || _); [exact I|]. destruct (to_primitive_throws id); cbn; auto with grub.
Qed.

Lemma check_order_id_errs orderId body : errs_ok (OS.check_order_id orderId body).
Proof.
  unfold OS.check_order_id. apply errs_ok_bind; [auto with grub|intros id].
  destruct (_ || _); [exact I|]. destruct (to_primitive_throws id); cbn; auto with grub.
Qed.

Lemma check_status_errs body : errs_ok (OS.check_status body).
Proof. unfold OS.check_status. solve_errs. Qed.

#[local] Hint Resolve validate_dish_errs validate_order_errs check_id_errs check_order_id_errs
  check_status_errs : grub.

(** A failed validation answers a well-formed error other than 405. *)
Lemma error_response_ok {A} (r : result err A) e :
  errs_ok r -> r = Err e -> op_response (RError (err_status e) e).
Proof.
  intros Hr ->. cbn in Hr. unfold op_status in Hr.
  split; [split; [reflexivity|unfold api_status; lia]|cbn; lia].
Qed.

Lemma op_response_wf r : op_response r -> well_formed_response r.
Proof. intros [Hw _]. exact Hw. Qed.

(** Case on the validation result [r] a specification answers from:
    its error is well formed, the success is left. *)
Ltac resp_case r :=
  let E := fresh "E" in
  destruct r eqn:E; [cbn|eapply error_response_ok; [|exact E]; auto with grub].

Lemma dish_create_resp body s : op_response (snd (DS.create_spec body s)).
Proof.
  unfold DS.create_spec. resp_case (DS.validate_dish body).
  destruct a as [[[? ?] ?] ?]. op_ok.
Qed.

Lemma dish_update_resp dishId body s : op_response (snd (DS.update_spec dishId body s)).
Proof.
  unfold DS.update_spec. destruct (DS.find_dish _ _) as [[i d]|]; cbn; [|op_ok].
  resp_case (DS.check_id dishId body;; DS.validate_dish body);
    [|apply errs_ok_bind; auto with grub].
  destruct a as [[[? ?] ?] ?]. op_ok.
Qed.

Lemma dish_read_resp dishId s : op_response (DS.read_spec dishId s).
Proof. unfold DS.read_spec. destruct (DS.find_dish _ _) as [[i d]|]; op_ok. Qed.

Lemma order_create_resp body s : op_response (snd (OS.create_spec body s)).
Proof.
  unfold OS.create_spec. resp_case (OS.validate_order body).
  destruct a as [[? ?] ?]. destruct (get_prop_default _ _ _); op_ok.
Qed.

Lemma order_update_resp orderId body s : op_response (OS.update_spec orderId body s).1.2.
Proof.
  unfold OS.update_spec. destruct (OS.find_order _ _) as [[i o]|]; cbn; [|op_ok].
  resp_case (OS.check_status body).
  resp_case (OS.check_order_id orderId body;; OS.validate_order body);
    [|apply errs_ok_bind; auto with grub].
  destruct a0 as [[? ?] ?]. op_ok.
Qed.

Lemma order_delete_resp orderId s : op_response (OS.delete_spec orderId s).1.2.
Proof.
  unfold OS.delete_spec. destruct (OS.find_order _ _) as [[i o]|]; cbn; [|op_ok].
  destruct (strict_eq_str _ _); op_ok.
Qed.

Lemma order_read_resp orderId s : op_response (OS.read_spec orderId s).
Proof. unfold OS.read_spec. destruct (OS.find_order _ _) as [[i o]|]; op_ok. Qed.

(** C29 (type): every request is answered with a response of the API's
    shape (spec 6 and 7): a success is [{data: ...}] with status 200 or
    201, a delete is a bare 204, a failure carries the status of its
    error, which is one of 400, 404, 405 and 500; no request ends in
    Express's default [finalhandler] page. *)
Theorem responses_well_formed s hr :
  match out_response (snd (serve s hr)) with Some r => well_formed_response r | None => False end.
Proof.
  destruct (serve_parts s hr) as (_ & _ & Ho). rewrite Ho.
  unfold app_spec, dish_collection_spec, dish_item_spec, order_collection_spec, order_item_spec,
    keep, spec_req.
  cbn [req_line rl_method req_param req_body].
  destruct (hr_target hr); [..|cbn; split; [reflexivity|right; left; reflexivity]];
    destruct (hr_method hr); cbn [snd out_response];
    first [ apply op_response_wf;
            first [ apply dish_create_resp | apply dish_update_resp | apply dish_read_resp
                  | apply order_create_resp | apply order_update_resp | apply order_delete_resp
                  | apply order_read_resp ]
          | cbn; left; reflexivity
          | cbn; split; [reflexivity|right; right; left; reflexivity] ].
Qed.
End Shapes.

(** ** Witnesses of the safety claims *)

(** The order store after a request that left locals and set the global. *)
Definition order_store_dirty : st :=
  St [] [order_1] (with_status (with_order no_locals (Some 0)) (JStr "delivered")) (JArr [JNull]).

Lemma serve_noninterference_witness :
  st_dishes order_store = st_dishes order_store_dirty /\
  st_orders order_store = st_orders order_store_dirty /\
  observe (serve order_store (post_order_with_status JUndefined)) =
  observe (serve order_store_dirty (post_order_with_status JUndefined)).
Proof.
  split; [reflexivity|]. split; [reflexivity|].
  apply (serve_noninterference order_store order_store_dirty); reflexivity.
Defined.

Lemma order_removed_only_when_pending_witness :
  order_1 ∈ st_orders order_store /\
  (order_id order_1 ∉ map order_id (st_orders (fst (serve order_store (order_1_hr DELETE (JObj [])))))) /\
  (hr_target (order_1_hr DELETE (JObj [])) = TOrder (order_id order_1) /\
   hr_method (order_1_hr DELETE (JObj [])) = DELETE /\
   strict_eq_str (order_status order_1) "pending" = true).
Proof.
  assert (Hin : order_1 ∈ st_orders order_store) by (left; reflexivity).
  assert (Hout : order_id order_1 ∉ map order_id (st_orders (fst (serve order_store (order_1_hr DELETE (JObj []))))))
    by (vm_compute; apply not_elem_of_nil).
  split; [exact Hin|]. split; [exact Hout|].
  apply (order_removed_only_when_pending order_store (order_1_hr DELETE (JObj [])) order_1 Hin Hout).
Defined.

(** ** The price rule of spec 8 *)

(** [POST /dishes] with the four fields of [data]. *)
Definition post_dish (name description price image_url : jsval) : http_request :=
  HttpReq POST "/dishes" TDishes
    (JObj [("data", JObj [("name", name); ("description", description); ("price", price);
                          ("image_url", image_url)])]).

Section PriceRule.
Context `{IdGen}.

(** C33 (functional): with a name, a description and an image URL
    present, [POST /dishes] is decided by the price alone: a falsy price
    (absent, [0], [null], [""], [false]) is "Dish must include a price",
    a price whose conversion throws is a 500, an integer number greater
    than 0 creates the dish (201, with a fresh id), and any other price
    (negative, fractional, a string, [true], an array) is "Dish must
    have a price that is an integer greater than 0". *)
Theorem dish_price_rule s name description price image_url :
  truthy name = true -> truthy description = true -> truthy image_url = true ->
  out_response (snd (serve s (post_dish name description price image_url))) =
  Some (if negb (truthy price) then RError 400 (ErrHttp 400 MsgDishPrice)
        else if to_primitive_throws price then RError 500 ErrTypeError
        else if is_pos_int price
        then RJson 201 (JObj [("data", dish_json (Dish (nextId (used_ids s)) name description price image_url))])
        else RError 400 (ErrHttp 400 MsgDishPriceInvalid)).
Proof.
  intros Hn Hd Hi. destruct (serve_parts s (post_dish name description price image_url)) as (_ & _ & Ho).
  rewrite Ho. cbv -[truthy to_primitive_throws is_pos_int nextId used_ids dish_json].
  rewrite Hn, Hd, Hi.
  destruct (truthy price), (to_primitive_throws price), (is_pos_int price); reflexivity.
Qed.
End PriceRule.

Lemma dish_price_rule_witness :
  truthy (JStr "Taco") = true /\ truthy (JStr "Spicy") = true /\ truthy (JStr "http://x") = true /\
  out_response (snd (serve empty_store (post_dish (JStr "Taco") (JStr "Spicy") (JInt 8) (JStr "http://x")))) =
  Some (if negb (truthy (JInt 8)) then RError 400 (ErrHttp 400 MsgDishPrice)
        else if to_primitive_throws (JInt 8) then RError 500 ErrTypeError
        else if is_pos_int (JInt 8)
        then RJson 201 (JObj [("data", dish_json (Dish (nextId (used_ids empty_store)) (JStr "Taco") (JStr "Spicy")
                                                        (JInt 8) (JStr "http://x")))])
        else RError 400 (ErrHttp 400 MsgDishPriceInvalid)).
Proof.
  split; [reflexivity|]. split; [reflexivity|]. split; [reflexivity|].
  apply dish_price_rule; reflexivity.
Defined.

(** ** The line-item rule of spec 8 *)

(** [POST /orders] with the three fields of [data] and no top-level
    [status]. *)
Definition post_order_lines (deliverTo mobileNumber dishes : jsval) : http_request :=
  HttpReq POST "/orders" TOrders
    (JObj [("data", JObj [("deliverTo", deliverTo); ("mobileNumber", mobileNumber); ("dishes", dishes)])]).

Section LineItemRule.
Context `{IdGen}.

(** C34 (functional): with an address and a mobile number present,
    [POST /orders] with an empty [dishes] array is "Order must include
    at least one dish" (400); with one line item, its quantity decides:
    an integer greater than 0 creates the order, pending, with a fresh
    id (201); a truthy quantity whose conversion throws is a 500; any
    other quantity ([0], negative, fractional, a string, absent) is
    "Dish 0 must have a quantity that is an integer greater than 0". *)
Theorem order_line_item_rule s deliverTo mobileNumber q :
  truthy deliverTo = true -> truthy mobileNumber = true ->
  out_response (snd (serve s (post_order_lines deliverTo mobileNumber (JArr [])))) =
    Some (RError 400 (ErrHttp 400 MsgOrderDishes)) /\
  out_response (snd (serve s (post_order_lines deliverTo mobileNumber (JArr [line_item q])))) =
    Some (if truthy q && to_primitive_throws q then RError 500 ErrTypeError
          else if is_pos_int q
          then RJson 201 (JObj [("data", order_json (Order (nextId (used_ids s)) deliverTo mobileNumber
                                                          (JStr "pending") (JArr [line_item q])))])
          else RError 400 (ErrHttp 400 (MsgOrderQuantity 0))).
Proof.
  intros Hd Hm. split;
    [destruct (serve_parts s (post_order_lines deliverTo mobileNumber (JArr []))) as (_ & _ & Ho)
    |destruct (serve_parts s (post_order_lines deliverTo mobileNumber (JArr [line_item q]))) as (_ & _ & Ho)];
    rewrite Ho; cbv -[truthy to_primitive_throws is_pos_int nextId used_ids order_json]; rewrite Hd, Hm;
    [reflexivity|].
  destruct (truthy q), (to_primitive_throws q), (is_pos_int q); reflexivity.
Qed.
End LineItemRule.

Lemma order_line_item_rule_witness :
  truthy (JStr "Morty") = true /\ truthy (JStr "556") = true /\
  out_response (snd (serve order_store (post_order_lines (JStr "Morty") (JStr "556") (JArr [])))) =
    Some (RError 400 (ErrHttp 400 MsgOrderDishes)) /\
  out_response (snd (serve order_store (post_order_lines (JStr "Morty") (JStr "556") (JArr [line_item (JInt 0)])))) =
    Some (if truthy (JInt 0) && to_primitive_throws (JInt 0) then RError 500 ErrTypeError
          else if is_pos_int (JInt 0)
          then RJson 201 (JObj [("data", order_json (Order (nextId (used_ids order_store)) (JStr "Morty") (JStr "556")
                                                          (JStr "pending") (JArr [line_item (JInt 0)])))])
          else RError 400 (ErrHttp 400 (MsgOrderQuantity 0))).
Proof.
  split; [reflexivity|]. split; [reflexivity|].
  apply order_line_item_rule; reflexivity.
Defined.

(** ** The id rule of spec 8 for [PUT /dishes/:dishId] *)

(** [PUT /dishes/<dishId>] with a body [id] and the four fields. *)
Definition put_dish_body (id name description price image_url : jsval) : jsval :=
  JObj [("data", JObj [("id", id); ("name", name); ("description", description); ("price", price);
                       ("image_url", image_url)])].

Definition put_dish (dishId : string) (id name description price image_url : jsval) : http_request :=
  HttpReq PUT (String.append "/dishes/" dishId) (TDish dishId) (put_dish_body id name description price image_url).

Section DishIdRule.
Context `{IdGen}.

(** The validation of such a body: only the [id] can fail. *)
Lemma put_dish_validation dishId id name description price image_url :
  truthy name = true -> truthy description = true -> truthy image_url = true -> is_pos_int price = true ->
  (DS.check_id dishId (put_dish_body id name description price image_url);;
   DS.validate_dish (put_dish_body id name description price image_url)) =
  if negb (truthy id) || strict_eq_str id dishId then Ok (name, description, price, image_url)
  else if to_primitive_throws id then Err ErrTypeError
  else Err (ErrHttp 400 (MsgDishIdMismatch id dishId)).
Proof.
  intros Hn Hd Hi Hp.
  cbv -[truthy to_primitive_throws is_pos_int strict_eq_str].
  rewrite Hn, Hd, Hi, Hp, (is_pos_int_truthy _ Hp), (is_pos_int_no_throw _ Hp).
  destruct (truthy id), (strict_eq_str id dishId), (to_primitive_throws id); reflexivity.
Qed.

(** C35 (functional): [PUT /dishes/:dishId] on an existing dish with
    valid fields is decided by the body's [id]: absent, falsy or equal
    to the route's id, the dish is replaced in place with the submitted
    fields and keeps its id (200); a truthy different id is "Dish id
    does not match route id" (400), or a 500 when it cannot be
    converted to a string, and the dish is left as it was. *)
Theorem dish_update_id_rule s dishId i d id name description price image_url :
  DS.find_dish dishId (st_dishes s) = Some (i, d) ->
  truthy name = true -> truthy description = true -> truthy image_url = true -> is_pos_int price = true ->
  out_response (snd (serve s (put_dish dishId id name description price image_url))) =
    Some (if negb (truthy id) || strict_eq_str id dishId
          then RJson 200 (JObj [("data", dish_json (Dish dishId name description price image_url))])
          else if to_primitive_throws id then RError 500 ErrTypeError
          else RError 400 (ErrHttp 400 (MsgDishIdMismatch id dishId))) /\
  st_dishes (fst (serve s (put_dish dishId id name description price image_url))) !! i =
    Some (if negb (truthy id) || strict_eq_str id dishId
          then Dish dishId name description price image_url else d).
Proof.
  intros Hf Hn Hd Hi Hp.
  pose proof Hf as Hf'. apply js_find_Some in Hf' as (Hl & Hk & _). apply bool_decide_eq_true in Hk.
  destruct (serve_parts s (put_dish dishId id name description price image_url)) as (Ha & _ & Ho).
  rewrite Ha, Ho. unfold app_spec, dish_item_spec. cbn [put_dish hr_target spec_req req_line rl_method hr_method].
  unfold DS.update_spec. cbn [req_param req_body spec_req put_dish hr_body]. rewrite Hf.
  rewrite (put_dish_validation _ _ _ _ _ _ Hn Hd Hi Hp), Hk.
  destruct (negb (truthy id) || strict_eq_str id dishId); cbn;
    [|destruct (to_primitive_throws id); split; [reflexivity|exact Hl|reflexivity|exact Hl]].
  split; [reflexivity|]. apply list_lookup_insert_eq. eapply lookup_lt_Some. exact Hl.
Qed.
End DishIdRule.

Lemma dish_update_id_rule_witness :
  DS.find_dish "1" (st_dishes taco_store) = Some (0%nat, Dish "1" (JStr "Taco") (JStr "Spicy") (JInt 8) (JStr "http://x")) /\
  truthy (JStr "Burrito") = true /\ truthy (JStr "Big") = true /\ truthy (JStr "http://y") = true /\
  is_pos_int (JInt 9) = true /\
  out_response (snd (serve taco_store (put_dish "1" (JStr "2") (JStr "Burrito") (JStr "Big") (JInt 9) (JStr "http://y")))) =
    Some (if negb (truthy (JStr "2")) || strict_eq_str (JStr "2") "1"
          then RJson 200 (JObj [("data", dish_json (Dish "1" (JStr "Burrito") (JStr "Big") (JInt 9) (JStr "http://y")))])
          else if to_primitive_throws (JStr "2") then RError 500 ErrTypeError
          else RError 400 (ErrHttp 400 (MsgDishIdMismatch (JStr "2") "1"))) /\
  st_dishes (fst (serve taco_store (put_dish "1" (JStr "2") (JStr "Burrito") (JStr "Big") (JInt 9) (JStr "http://y")))) !! 0%nat =
    Some (if negb (truthy (JStr "2")) || strict_eq_str (JStr "2") "1"
          then Dish "1" (JStr "Burrito") (JStr "Big") (JInt 9) (JStr "http://y")
          else Dish "1" (JStr "Taco") (JStr "Spicy") (JInt 8) (JStr "http://x")).
Proof.
  assert (Hf : DS.find_dish "1" (st_dishes taco_store) =
    Some (0%nat, Dish "1" (JStr "Taco") (JStr "Spicy") (JInt 8) (JStr "http://x"))) by reflexivity.
  split; [exact Hf|]. do 4 (split; [reflexivity|]).
  apply (dish_update_id_rule taco_store "1" 0%nat _ (JStr "2") (JStr "Burrito") (JStr "Big") (JInt 9) (JStr "http://y") Hf);
    reflexivity.
Defined.

(** ** Spec 7: a refused request changes nothing *)

Section Atomicity.
Context `{IdGen}.

(** An operation whose answer is an error leaves its array. *)
Ltac err_keeps := intros Herr; repeat (case_match; cbn in *); congruence.

Lemma dish_create_err body s n e :
  snd (DS.create_spec body s) = RError n e -> fst (DS.create_spec body s) = st_dishes s.
Proof. unfold DS.create_spec. err_keeps. Qed.

Lemma dish_update_err dishId body s n e :
  snd (DS.update_spec dishId body s) = RError n e -> fst (DS.update_spec dishId body s) = st_dishes s.
Proof. unfold DS.update_spec. err_keeps. Qed.

Lemma order_create_err body s n e :
  snd (OS.create_spec body s) = RError n e -> fst (OS.create_spec body s) = st_orders s.
Proof. unfold OS.create_spec. err_keeps. Qed.

Lemma order_update_err orderId body s n e :
  (OS.update_spec orderId body s).1.2 = RError n e -> (OS.update_spec orderId body s).1.1 = st_orders s.
Proof. unfold OS.update_spec. err_keeps. Qed.

Lemma order_delete_err orderId s n e :
  (OS.delete_spec orderId s).1.2 = RError n e -> (OS.delete_spec orderId s).1.1 = st_orders s.
Proof. unfold OS.delete_spec. err_keeps. Qed.

(** C8 (safety): spec 7's "no partial application": a request answered
    with an error (a failed validation, a missing record, a 405, a
    TypeError's 500) leaves both arrays exactly as they were.  The
    validators only stage values in [response.locals]; the one that
    stages the status of an update never writes the order itself. *)
Theorem error_answers_change_nothing s hr n e :
  out_response (snd (serve s hr)) = Some (RError n e) ->
  st_dishes (fst (serve s hr)) = st_dishes s /\ st_orders (fst (serve s hr)) = st_orders s.
Proof.
  destruct (serve_parts s hr) as (Hd & Ho & Hr). rewrite Hd, Ho, Hr. clear Hd Ho Hr.
  unfold app_spec, dish_collection_spec, dish_item_spec, order_collection_spec, order_item_spec,
    keep, spec_req.
  cbn [req_line rl_method req_param req_body].
  destruct (hr_target hr); [..|auto]; destruct (hr_method hr); cbn; try auto;
    intros Herr; injection Herr as Herr; split; try reflexivity;
    first [ exact (dish_create_err _ _ _ _ Herr) | exact (dish_update_err _ _ _ _ _ Herr)
          | exact (order_create_err _ _ _ _ Herr) | exact (order_update_err _ _ _ _ _ Herr)
          | exact (order_delete_err _ _ _ _ Herr) ].
Qed.
End Atomicity.

(** ** Repeating a request *)

Section Idempotence.
Context `{IdGen}.

(** A second update with the same body finds the record the first one
    wrote, at the same index, and writes it again. *)
Lemma dish_update_spec_idem dishId body s s' :
  st_dishes s' = fst (DS.update_spec dishId body s) ->
  DS.update_spec dishId body s' = DS.update_spec dishId body s.
Proof.
  intros Hs'. unfold DS.update_spec at 1. rewrite Hs'. unfold DS.update_spec, DS.find_dish.
  destruct (js_find _ (st_dishes s)) as [[i d]|] eqn:Ef; cbn [fst snd]; [|rewrite Ef; reflexivity].
  destruct (DS.check_id dishId body;; DS.validate_dish body) as [[[[n de] p] im]|e] eqn:Ev;
    cbn [fst snd]; [|rewrite Ef; reflexivity].
  rewrite (js_find_insert_same _ _ _ _ _ Ef) by (apply js_find_Some in Ef as (_ & Hp & _); exact Hp).
  cbn [fst snd dish_id]. rewrite list_insert_insert_eq. reflexivity.
Qed.

Lemma order_update_spec_idem orderId body s s' :
  st_orders s' = (OS.update_spec orderId body s).1.1 ->
  OS.update_spec orderId body s' = OS.update_spec orderId body s.
Proof.
  intros Hs'. unfold OS.update_spec at 1. rewrite Hs'. unfold OS.update_spec, OS.find_order.
  destruct (js_find _ (st_orders s)) as [[i o]|] eqn:Ef; cbn [fst snd]; [|rewrite Ef; reflexivity].
  destruct (OS.check_status body) as [status|e] eqn:Es; cbn [fst snd]; [|rewrite Ef; reflexivity].
  destruct (OS.check_order_id orderId body;; OS.validate_order body) as [[[d m] ds]|e] eqn:Ev;
    cbn [fst snd]; [|rewrite Ef; reflexivity].
  rewrite (js_find_insert_same _ _ _ _ _ Ef) by (apply js_find_Some in Ef as (_ & Hp & _); exact Hp).
  cbn [fst snd order_id]. rewrite list_insert_insert_eq. reflexivity.
Qed.

(** The contract from the state a request left, when it is neither a
    [POST] nor a [DELETE]: the same arrays and outcome. *)
Lemma app_spec_repeat s s' hr :
  hr_method hr <> POST -> hr_method hr <> DELETE ->
  st_dishes s' = (app_spec s hr).1.1 -> st_orders s' = (app_spec s hr).1.2 ->
  app_spec s' hr = app_spec s hr.
Proof.
  intros Hp Hd Hs1 Hs2.
  unfold app_spec, dish_collection_spec, dish_item_spec, order_collection_spec, order_item_spec,
    keep, spec_req in Hs1, Hs2 |- *.
  cbn [req_line rl_method req_param req_body] in Hs1, Hs2 |- *.
  destruct (hr_target hr) as [|dishId| |orderId|]; destruct (hr_method hr); try contradiction;
    cbn [fst snd] in Hs1, Hs2;
    try (rewrite (dish_update_spec_idem _ _ _ _ Hs1), Hs2; reflexivity);
    try (rewrite (order_update_spec_idem _ _ _ _ Hs2), Hs1; reflexivity);
    unfold DS.read_spec, OS.read_spec; rewrite Hs1, Hs2; reflexivity.
Qed.

(** C14 (functional): every request other than [POST] and [DELETE] is
    idempotent: sent again from the state it left, it leaves the same
    arrays and the client observes the same response and connection
    fate.  For [PUT] this needs the update to find, the second time,
    the record it wrote at the same index and to write it again with
    the id kept; the late [next(err)] of an order update destroys the
    connection both times. *)
Theorem repeat_request_idempotent s hr :
  hr_method hr <> POST -> hr_method hr <> DELETE ->
  observe (serve (fst (serve s hr)) hr) = observe (serve s hr).
Proof.
  intros Hp Hd. rewrite !serve_observe.
  rewrite (app_spec_arrays (fresh_locals (fst (serve s hr))) (fst (serve s hr))) by reflexivity.
  rewrite (app_spec_arrays (fresh_locals s) s) by reflexivity.
  destruct (serve_parts s hr) as (Hs1 & Hs2 & _). apply app_spec_repeat; assumption.
Qed.
End Idempotence.

(** ** Updates and creations read back *)

Section ReadBack.
Context `{IdGen}.

(** After an update answered 200, the id finds the record it wrote. *)
Lemma dish_read_after_update dishId body s s' r :
  snd (DS.update_spec dishId body s) = RJson 200 r ->
  st_dishes s' = fst (DS.update_spec dishId body s) ->
  DS.read_spec dishId s' = RJson 200 r.
Proof.
  unfold DS.update_spec, DS.read_spec, DS.find_dish. intros Hr Hs'. rewrite Hs'.
  destruct (js_find _ (st_dishes s)) as [[i d]|] eqn:Ef; [|discriminate].
  destruct (_ ;; DS.validate_dish body) as [[[[n de] p] im]|e]; cbn [fst snd] in Hr |- *; [|discriminate].
  injection Hr as <-.
  rewrite (js_find_insert_same _ _ _ _ _ Ef); [reflexivity|].
  apply js_find_Some in Ef as (_ & Hp & _). exact Hp.
Qed.

(** C15 (roundtrip): a dish that [PUT /dishes/:dishId] answered with 200
    and the updated dish is read back by [GET] as exactly that dish:
    [update] writes the fields into the stored object that
    [dishExists] found, not into a copy. *)
Theorem dish_update_then_read s hr dishId v hr2 :
  hr_target hr = TDish dishId -> hr_method hr = PUT ->
  out_response (snd (serve s hr)) = Some (RJson 200 (JObj [("data", v)])) ->
  hr_target hr2 = TDish dishId -> hr_method hr2 = GET ->
  out_response (snd (serve (fst (serve s hr)) hr2)) = Some (RJson 200 (JObj [("data", v)])).
Proof.
  intros Ht Hm Hr Ht2 Hm2.
  destruct (serve_parts s hr) as (Hd & _ & Hr1). rewrite Hr1 in Hr.
  destruct (serve_parts (fst (serve s hr)) hr2) as (_ & _ & Hr2). rewrite Hr2.
  unfold app_spec, dish_item_spec, keep, spec_req in Hd, Hr |- *. rewrite Ht in Hd, Hr. rewrite Ht2.
  cbn [req_line rl_method req_param req_body] in Hd, Hr |- *. rewrite Hm in Hd, Hr. rewrite Hm2.
  cbn [fst snd out_response] in Hd, Hr |- *. injection Hr as Hr.
  rewrite (dish_read_after_update _ _ _ _ _ Hr Hd). reflexivity.
Qed.

(** A fresh id is no stored order's. *)
Lemma fresh_id_no_order s :
  OS.find_order (nextId (used_ids s)) (st_orders s) = None.
Proof.
  apply js_find_None. intros o Ho. apply bool_decide_eq_false. intros He.
  apply (nextId_fresh (used_ids s)). rewrite <- He. unfold used_ids.
  apply elem_of_app. right. rewrite list_map_fmap. apply list_elem_of_fmap_2, Ho.
Qed.

(** C22 (roundtrip): an order created by [POST /orders] (answered 201
    with the order) is read back by [GET /orders/<its id>] as exactly
    the same object, its status included: the id [create] draws is no
    stored order's, and [create] pushes the object it answers with. *)
Theorem order_create_then_read s hr o hr2 :
  hr_target hr = TOrders -> hr_method hr = POST ->
  out_response (snd (serve s hr)) = Some (RJson 201 (JObj [("data", order_json o)])) ->
  hr_target hr2 = TOrder (order_id o) -> hr_method hr2 = GET ->
  out_response (snd (serve (fst (serve s hr)) hr2)) = Some (RJson 200 (JObj [("data", order_json o)])).
Proof.
  intros Ht Hm Hr Ht2 Hm2.
  destruct (serve_parts s hr) as (_ & Ho & Hr1). rewrite Hr1 in Hr.
  destruct (serve_parts (fst (serve s hr)) hr2) as (_ & _ & Hr2). rewrite Hr2.
  unfold app_spec, order_collection_spec, order_item_spec, keep, spec_req in Ho, Hr |- *.
  rewrite Ht in Ho, Hr. rewrite Ht2.
  cbn [req_line rl_method req_param req_body] in Ho, Hr |- *. rewrite Hm in Ho, Hr. rewrite Hm2.
  cbn [fst snd out_response] in Ho, Hr |- *. unfold OS.read_spec. rewrite Ho.
  unfold OS.create_spec in *.
  destruct (OS.validate_order (hr_body hr)) as [[[d m] ds]|e]; cbn [fst snd] in Hr |- *; [|discriminate].
  destruct (get_prop_default _ _ _) as [status|]; cbn [fst snd] in Hr |- *; [|discriminate].
  destruct o as [id' d' m' st' ds']. injection Hr as <- <- <- <- <-. cbn [order_id].
  unfold OS.find_order. rewrite js_find_snoc_new; [reflexivity|apply fresh_id_no_order|].
  apply bool_decide_eq_true. reflexivity.
Qed.
End ReadBack.

(** ** The rules of spec 4.3 and 8 for [PUT /orders/:orderId] *)

(** [PUT /orders/<orderId>] with a body [id], a [status] and the three
    order fields, one line item of quantity [q]. *)
Definition put_order_body (id status deliverTo mobileNumber q : jsval) : jsval :=
  JObj [("data", JObj [("id", id); ("status", status); ("deliverTo", deliverTo);
                       ("mobileNumber", mobileNumber); ("dishes", JArr [line_item q])])].

Definition put_order_full (orderId : string) (id status deliverTo mobileNumber q : jsval) : http_request :=
  HttpReq PUT (String.append "/orders/" orderId) (TOrder orderId)
    (put_order_body id status deliverTo mobileNumber q).

Section OrderUpdateRule.
Context `{IdGen}.

Lemma put_order_status id status deliverTo mobileNumber q :
  OS.check_status (put_order_body id status deliverTo mobileNumber q) =
  if truthy status && OC.valid_status status then Ok status else Err (ErrHttp 400 MsgOrderStatus).
Proof. cbv -[truthy OC.valid_status]. destruct (truthy status), (OC.valid_status status); reflexivity. Qed.

(** The rest of the validation of such a body: only the [id] can fail. *)
Lemma put_order_validation orderId id status deliverTo mobileNumber q :
  truthy deliverTo = true -> truthy mobileNumber = true -> is_pos_int q = true ->
  (OS.check_order_id orderId (put_order_body id status deliverTo mobileNumber q);;
   OS.validate_order (put_order_body id status deliverTo mobileNumber q)) =
  if negb (truthy id) || strict_eq_str id orderId then Ok (deliverTo, mobileNumber, JArr [line_item q])
  else if to_primitive_throws id then Err ErrTypeError
  else Err (ErrHttp 400 (MsgOrderIdMismatch id orderId)).
Proof.
  intros Hd Hm Hq.
  cbv -[truthy to_primitive_throws is_pos_int strict_eq_str].
  rewrite Hd, Hm, Hq, (is_pos_int_truthy _ Hq), (is_pos_int_no_throw _ Hq).
  destruct (truthy id), (strict_eq_str id orderId), (to_primitive_throws id); reflexivity.
Qed.

(** C16 (functional): [PUT /orders/:orderId] on an existing order with
    valid fields, decided by the [status] and the body [id] in the
    chain's order.  A status that is missing or not one of the four is
    "Order must have a status of ..." (400), whatever the [id] says,
    and the order is left.  A valid status is staged and the chain goes
    on: an [id] that is absent, falsy or the route's replaces the order
    in place with the submitted fields and its own id (200); a truthy
    different [id] is "Order id does not match route id" (400, or 500
    when it cannot be converted to a string) and the order is left.
    Either way, once the status has passed, its validator's second
    [next(err)] destroys the connection after the response. *)
Theorem order_update_rule s orderId i o id status deliverTo mobileNumber q :
  OS.find_order orderId (st_orders s) = Some (i, o) ->
  truthy deliverTo = true -> truthy mobileNumber = true -> is_pos_int q = true ->
  snd (serve s (put_order_full orderId id status deliverTo mobileNumber q)) =
    (if truthy status && OC.valid_status status
     then Outcome (Some (if negb (truthy id) || strict_eq_str id orderId
                         then RJson 200 (JObj [("data", order_json
                                (Order orderId deliverTo mobileNumber status (JArr [line_item q])))])
                         else if to_primitive_throws id then RError 500 ErrTypeError
                         else RError 400 (ErrHttp 400 (MsgOrderIdMismatch id orderId)))) true
     else Outcome (Some (RError 400 (ErrHttp 400 MsgOrderStatus))) false) /\
  st_orders (fst (serve s (put_order_full orderId id status deliverTo mobileNumber q))) !! i =
    Some (if truthy status && OC.valid_status status && (negb (truthy id) || strict_eq_str id orderId)
          then Order orderId deliverTo mobileNumber status (JArr [line_item q]) else o).
Proof.
  intros Hf Hd Hm Hq.
  pose proof Hf as Hf'. apply js_find_Some in Hf' as (Hl & Hk & _). apply bool_decide_eq_true in Hk.
  destruct (serve_parts s (put_order_full orderId id status deliverTo mobileNumber q)) as (_ & Ho & Hr).
  rewrite Ho, Hr. unfold app_spec, order_item_spec.
  cbn [put_order_full hr_target spec_req req_line rl_method hr_method req_param req_body hr_body fst snd].
  unfold OS.update_spec. rewrite Hf, put_order_status, (put_order_validation _ _ _ _ _ _ Hd Hm Hq), Hk.
  destruct (truthy status && OC.valid_status status); cbn; [|split; [reflexivity|exact Hl]].
  destruct (negb (truthy id) || strict_eq_str id orderId); cbn;
    [|destruct (to_primitive_throws id); split; [reflexivity|exact Hl|reflexivity|exact Hl]].
  split; [reflexivity|]. apply list_lookup_insert_eq. eapply lookup_lt_Some. exact Hl.
Qed.
End OrderUpdateRule.

(** ** Spec 6: the methods of each route *)

(** The methods each route answers (spec 6): Express answers [HEAD]
    with a route's [GET] layers. *)
Definition route_methods (t : target) : list method :=
  match t with
  | TDishes | TOrders => [GET; HEAD; POST]
  | TDish _ => [GET; HEAD; PUT]
  | TOrder _ => [GET; HEAD; PUT; DELETE]
  | TNone => []
  end.

Section MethodRule.
Context `{IdGen}.

(** A response of an operation of the spec, or a listing, is not 405. *)
Ltac not_405 :=
  first [ apply (proj2 (dish_create_resp _ _)) | apply (proj2 (dish_update_resp _ _ _))
        | apply (proj2 (dish_read_resp _ _)) | apply (proj2 (order_create_resp _ _))
        | apply (proj2 (order_update_resp _ _ _)) | apply (proj2 (order_delete_resp _ _))
        | apply (proj2 (order_read_resp _ _)) | cbn; lia ].

(** C17 (error): spec 6's "any other verb is 405", for the four routes.
    A method a route lists never gets 405, whatever the body and the
    state; any other method reaches the route's
    [.all(methodNotAllowed)], is answered 405 naming the method and the
    URL, and changes nothing.  [OPTIONS] is left out: middleware that
    [app.js] (not in this repository) installs before the routers, such
    as a CORS handler, may answer it first. *)
Theorem method_rule s hr :
  hr_target hr <> TNone -> hr_method hr <> OPTIONS ->
  (hr_method hr ∈ route_methods (hr_target hr) ->
     exists r, out_response (snd (serve s hr)) = Some r /\ (resp_status r <> 405)%Z) /\
  (hr_method hr ∉ route_methods (hr_target hr) ->
     observe (serve s hr) =
       keep s (RError 405 (ErrHttp 405 (MsgMethodNotAllowed (hr_method hr) (hr_url hr))))).
Proof.
  intros Ht Ho. destruct (serve_parts s hr) as (_ & _ & Hr).
  rewrite serve_observe, (app_spec_arrays (fresh_locals s) s) by reflexivity. rewrite Hr. clear Hr.
  unfold app_spec, dish_collection_spec, dish_item_spec, order_collection_spec, order_item_spec, spec_req.
  cbn [req_line rl_method req_param req_body].
  destruct (hr_target hr); [..|contradiction]; cbn [route_methods];
    destruct (hr_method hr); try contradiction; split; intros Hin;
    try (exfalso; rewrite list_elem_of_In in Hin; cbn in Hin; intuition discriminate);
    try (exfalso; apply Hin; rewrite list_elem_of_In; cbn; tauto);
    first [ reflexivity | eexists; split; [reflexivity|]; not_405 ].
Qed.
End MethodRule.

(** ** Witnesses of the rules *)

(** An order update without [status] is refused. *)
Definition put_no_status : http_request := order_1_hr PUT (JObj [("data", order_data JUndefined)]).

Lemma error_answers_change_nothing_witness :
  out_response (snd (serve order_store put_no_status)) = Some (RError 400 (ErrHttp 400 MsgOrderStatus)) /\
  st_dishes (fst (serve order_store put_no_status)) = st_dishes order_store /\
  st_orders (fst (serve order_store put_no_status)) = st_orders order_store.
Proof.
  assert (Hr : out_response (snd (serve order_store put_no_status)) =
    Some (RError 400 (ErrHttp 400 MsgOrderStatus))) by (vm_compute; reflexivity).
  split; [exact Hr|]. exact (error_answers_change_nothing _ _ _ _ Hr).
Defined.

Definition put_delivered : http_request := order_1_hr PUT (JObj [("data", order_data (JStr "delivered"))]).

Lemma repeat_request_idempotent_witness :
  hr_method put_delivered <> POST /\ hr_method put_delivered <> DELETE /\
  observe (serve (fst (serve order_store put_delivered)) put_delivered) = observe (serve order_store put_delivered).
Proof.
  assert (Hp : hr_method put_delivered <> POST) by discriminate.
  assert (Hd : hr_method put_delivered <> DELETE) by discriminate.
  split; [exact Hp|]. split; [exact Hd|]. exact (repeat_request_idempotent _ _ Hp Hd).
Defined.

Definition burrito : dish := Dish "1" (JStr "Burrito") (JStr "Big") (JInt 9) (JStr "http://y").

Definition put_burrito : http_request := put_dish "1" JUndefined (JStr "Burrito") (JStr "Big") (JInt 9) (JStr "http://y").

Definition get_dish_1 : http_request := HttpReq GET "/dishes/1" (TDish "1") (JObj []).

Lemma dish_update_then_read_witness :
  out_response (snd (serve taco_store put_burrito)) = Some (RJson 200 (JObj [("data", dish_json burrito)])) /\
  out_response (snd (serve (fst (serve taco_store put_burrito)) get_dish_1)) =
    Some (RJson 200 (JObj [("data", dish_json burrito)])).
Proof.
  assert (Hr : out_response (snd (serve taco_store put_burrito)) =
    Some (RJson 200 (JObj [("data", dish_json burrito)]))) by (vm_compute; reflexivity).
  split; [exact Hr|]. exact (dish_update_then_read taco_store put_burrito "1" _ get_dish_1 eq_refl eq_refl Hr eq_refl eq_refl).
Defined.

Lemma order_update_rule_witness :
  OS.find_order "1" (st_orders order_store) = Some (0%nat, order_1) /\
  truthy (JStr "Rick") = true /\ truthy (JStr "555") = true /\ is_pos_int (JInt 3) = true /\
  snd (serve order_store (put_order_full "1" (JStr "7") (JStr "cancelled") (JStr "Rick") (JStr "555") (JInt 3))) =
    (if truthy (JStr "cancelled") && OC.valid_status (JStr "cancelled")
     then Outcome (Some (if negb (truthy (JStr "7")) || strict_eq_str (JStr "7") "1"
                         then RJson 200 (JObj [("data", order_json
                                (Order "1" (JStr "Rick") (JStr "555") (JStr "cancelled") (JArr [line_item (JInt 3)])))])
                         else if to_primitive_throws (JStr "7") then RError 500 ErrTypeError
                         else RError 400 (ErrHttp 400 (MsgOrderIdMismatch (JStr "7") "1")))) true
     else Outcome (Some (RError 400 (ErrHttp 400 MsgOrderStatus))) false) /\
  st_orders (fst (serve order_store (put_order_full "1" (JStr "7") (JStr "cancelled") (JStr "Rick") (JStr "555") (JInt 3)))) !! 0%nat =
    Some (if truthy (JStr "cancelled") && OC.valid_status (JStr "cancelled") &&
             (negb (truthy (JStr "7")) || strict_eq_str (JStr "7") "1")
          then Order "1" (JStr "Rick") (JStr "555") (JStr "cancelled") (JArr [line_item (JInt 3)]) else order_1).
Proof.
  assert (Hf : OS.find_order "1" (st_orders order_store) = Some (0%nat, order_1)) by reflexivity.
  split; [exact Hf|]. do 3 (split; [reflexivity|]).
  apply (order_update_rule order_store "1" 0%nat order_1 (JStr "7") (JStr "cancelled") (JStr "Rick") (JStr "555") (JInt 3) Hf);
    reflexivity.
Defined.

Definition patch_order_1 : http_request := order_1_hr PATCH (JObj []).

Lemma method_rule_witness :
  hr_target patch_order_1 <> TNone /\ hr_method patch_order_1 <> OPTIONS /\
  (hr_method patch_order_1 ∈ route_methods (hr_target patch_order_1) ->
     exists r, out_response (snd (serve order_store patch_order_1)) = Some r /\ (resp_status r <> 405)%Z) /\
  (hr_method patch_order_1 ∉ route_methods (hr_target patch_order_1) ->
     observe (serve order_store patch_order_1) =
       keep order_store (RError 405 (ErrHttp 405 (MsgMethodNotAllowed (hr_method patch_order_1) (hr_url patch_order_1))))).
Proof.
  assert (Ht : hr_target patch_order_1 <> TNone) by discriminate.
  assert (Hm : hr_method patch_order_1 <> OPTIONS) by discriminate.
  split; [exact Ht|]. split; [exact Hm|]. exact (method_rule order_store _ Ht Hm).
Defined.

(** An order created with a top-level [status] of "preparing". *)
Definition post_preparing : http_request := post_order_with_status (JStr "preparing").

Definition created_order : order :=
  Order (nextId (used_ids order_store)) (JStr "Morty") (JStr "556") (JStr "preparing") (JArr [line_item (JInt 2)]).

Lemma order_create_then_read_witness :
  out_response (snd (serve order_store post_preparing)) = Some (RJson 201 (JObj [("data", order_json created_order)])) /\
  out_response (snd (serve (fst (serve order_store post_preparing))
                          (HttpReq GET "/orders/x" (TOrder (order_id created_order)) (JObj [])))) =
    Some (RJson 200 (JObj [("data", order_json created_order)])).
Proof.
  assert (Hr : out_response (snd (serve order_store post_preparing)) =
    Some (RJson 201 (JObj [("data", order_json created_order)]))) by (vm_compute; reflexivity).
  split; [exact Hr|].
  exact (order_create_then_read order_store post_preparing created_order (HttpReq GET "/orders/x" (TOrder (order_id created_order)) (JObj []))
           eq_refl eq_refl Hr eq_refl eq_refl).
Defined.
