(* ===== verification/Lifecycle.v ===== *)
(** * Requests in sequence: ordering and the order lifecycle

    The server handles one request at a time (spec 5), so a run of the
    process is a sequence of [serve] steps ([serve_all]).  This file proves what holds
    of such sequences beyond one request:

    - requests on the order item route that name different orders
      commute: either order of the two gives the same arrays, and each
      request observes the same outcome ([order_requests_commute]);
    - the lifecycle of an order's status ([status_of], what
      [GET /orders/:orderId] shows): a status changes only through
      [PUT /orders/:orderId] with one of the four values
      ([status_changes_only_by_valid_put]), and any of the four values
      can be reached from any status, backwards included
      ([status_any_to_any]).

    The arrays are reached through [by_key] and [find_key] of the
    prelude: the handlers find a record by id and replace or remove it,
    and the order item route is such an access with the effect
    [item_effect] of its method. *)

From S2P Require Import Prelude Json Express Store Dishes Orders App.

(** ** The order item route as an access by id *)

Section ItemAccess.
Context `{IdGen}.

(** What a request on [/orders/:orderId] does to the order it finds:
    [PUT] replaces its fields once the status and the body have passed
    (its id kept), [DELETE] removes it when pending, and any other
    method leaves it. *)
Definition item_effect (req : request) : order -> option order :=
  match rl_method (req_line req) with
  | PUT => fun o =>
      match OS.check_status (req_body req) with
      | Ok status =>
          match OS.check_order_id (req_param req) (req_body req);; OS.validate_order (req_body req) with
          | Ok (deliverTo, mobileNumber, dishes) =>
              Some (Order (order_id o) deliverTo mobileNumber status dishes)
          | Err _ => Some o
          end
      | Err _ => Some o
      end
  | DELETE => fun o => if strict_eq_str (order_status o) "pending" then None else Some o
  | _ => Some
  end.

(** The request [PUT /orders/<orderId>] with a valid body of the given
    status. *)
Definition put_order (orderId : string) (status : jsval) : http_request :=
  HttpReq PUT (String.append "/orders/" orderId) (TOrder orderId) (JObj [("data", order_data status)]).

(** Requests served one after another, as Node runs each chain to
    completion before the next request (spec 5): the final state and
    each request's outcome, in order. *)
Fixpoint serve_all (s : st) (hrs : list http_request) : st * list outcome :=
  match hrs with
  | [] => (s, [])
  | hr :: hrs' =>
      let r := serve s hr in
      let rest := serve_all (fst r) hrs' in
      (fst rest, snd r :: snd rest)
  end.

(** The status [GET /orders/:orderId] shows. *)
Definition status_of (orderId : string) (s : st) : option jsval :=
  order_status <$> find_key order_id orderId (st_orders s).

End ItemAccess.

Section ItemLemmas.
Context `{IdGen}.

Lemma find_order_key orderId os : OS.find_order orderId os = js_find (key_is order_id orderId) os.
Proof. reflexivity. Qed.

Lemma item_effect_keeps req : keeps_key order_id (item_effect req).
Proof.
  intros x y. unfold item_effect.
  destruct (rl_method (req_line req)); try (intros Hy; injection Hy as <-; reflexivity).
  - destruct (OS.check_status _); [|intros Hy; injection Hy as <-; reflexivity].
    destruct (_;; _) as [[[? ?] ?]|]; intros Hy; injection Hy as <-; reflexivity.
  - destruct (strict_eq_str _ _); [discriminate|intros Hy; injection Hy as <-; reflexivity].
Qed.

(** The orders after the route are [by_key] with [item_effect]. *)
Lemma order_item_spec_orders req s :
  (order_item_spec req s).1.2 = by_key order_id (req_param req) (item_effect req) (st_orders s).
Proof.
  unfold order_item_spec, keep, OS.update_spec, OS.delete_spec, by_key, item_effect.
  rewrite !find_order_key.
  destruct (js_find _ (st_orders s)) as [[i o]|] eqn:Ef;
    [|destruct (rl_method (req_line req)); reflexivity].
  apply js_find_Some in Ef as (Hl & _ & _).
  destruct (rl_method (req_line req)); cbn; try (symmetry; apply list_insert_id; exact Hl).
  - destruct (OS.check_status _); cbn; [|symmetry; apply list_insert_id; exact Hl].
    destruct (_;; _) as [[[? ?] ?]|]; cbn; [reflexivity|symmetry; apply list_insert_id; exact Hl].
  - destruct (strict_eq_str _ _); cbn; [reflexivity|symmetry; apply list_insert_id; exact Hl].
Qed.

Lemma order_item_spec_dishes req s : (order_item_spec req s).1.1 = st_dishes s.
Proof. unfold order_item_spec. destruct (rl_method (req_line req)); reflexivity. Qed.

(** The outcome depends only on the order the id finds. *)
Lemma order_item_spec_outcome req s s' :
  find_key order_id (req_param req) (st_orders s) = find_key order_id (req_param req) (st_orders s') ->
  (order_item_spec req s).2 = (order_item_spec req s').2.
Proof.
  unfold find_key. intros Hf.
  unfold order_item_spec, keep, OS.update_spec, OS.delete_spec, OS.read_spec.
  rewrite !find_order_key.
  destruct (js_find _ (st_orders s)) as [[i o]|], (js_find _ (st_orders s')) as [[i' o']|];
    cbn in Hf; try discriminate Hf; [injection Hf as <-|];
    destruct (rl_method (req_line req)); cbn; repeat case_match; reflexivity.
Qed.

(** One request on [/orders/<orderId>], read off the contract. *)
Lemma serve_item_access s hr orderId :
  hr_target hr = TOrder orderId ->
  st_dishes (fst (serve s hr)) = st_dishes s /\
  st_orders (fst (serve s hr)) = by_key order_id orderId (item_effect (spec_req hr orderId)) (st_orders s) /\
  snd (serve s hr) = (order_item_spec (spec_req hr orderId) s).2.
Proof.
  intros Ht. destruct (serve_parts s hr) as (Hd & Ho & Hr).
  unfold app_spec in Hd, Ho, Hr. rewrite Ht in Hd, Ho, Hr.
  rewrite order_item_spec_dishes in Hd. rewrite order_item_spec_orders in Ho. auto.
Qed.

Lemma valid_status_truthy v : OC.valid_status v = true -> truthy v = true.
Proof.
  destruct v as [| | | |str| |]; try discriminate.
  destruct str; [intros Hv; vm_compute in Hv; discriminate|reflexivity].
Qed.

Lemma check_status_valid body status :
  OS.check_status body = Ok status -> OC.valid_status status = true.
Proof.
  unfold OS.check_status, OS.require. intros Hc.
  destruct (OS.lift_js _) as [v|]; cbn in Hc; [|discriminate].
  destruct (truthy v && OC.valid_status v) eqn:Hv; cbn in Hc; [|discriminate].
  injection Hc as <-. apply andb_prop in Hv as [_ Hv]. exact Hv.
Qed.
End ItemLemmas.

(** ** What only the item route can do *)

Section Reach.
Context `{IdGen}.

(** Outside [/orders/:orderId], the orders array is only appended to. *)
Lemma orders_only_appended s hr :
  (forall orderId, hr_target hr <> TOrder orderId) ->
  exists m, st_orders (fst (serve s hr)) = st_orders s ++ m.
Proof.
  intros Ht. destruct (serve_parts s hr) as (_ & Ho & _). rewrite Ho.
  unfold app_spec, dish_collection_spec, dish_item_spec, order_collection_spec, keep.
  destruct (hr_target hr) as [| | |orderId|]; [..|exfalso; exact (Ht orderId eq_refl)|];
    try (exists []; rewrite app_nil_r; try destruct (rl_method _); reflexivity).
  destruct (rl_method _); try (exists []; rewrite app_nil_r; reflexivity).
  unfold OS.create_spec. destruct (OS.validate_order _) as [[[? ?] ?]|]; cbn;
    [destruct (get_prop_default _ _ _); cbn|]; eexists; (reflexivity || (rewrite app_nil_r; reflexivity)).
Qed.

(** A status the item route changes is a [PUT]'s, with a valid value. *)
Lemma item_effect_status req o o' :
  item_effect req o = Some o' -> order_status o' <> order_status o ->
  rl_method (req_line req) = PUT /\ OC.valid_status (order_status o') = true.
Proof.
  unfold item_effect. destruct (rl_method _); try (intros Hy Hs; injection Hy as <-; contradiction).
  - destruct (OS.check_status _) as [status|] eqn:Hc; [|intros Hy Hs; injection Hy as <-; contradiction].
    destruct (_;; _) as [[[? ?] ?]|]; intros Hy Hs; injection Hy as <-; [|contradiction].
    split; [reflexivity|exact (check_status_valid _ _ Hc)].
  - destruct (strict_eq_str _ _); [discriminate|intros Hy Hs; injection Hy as <-; contradiction].
Qed.
End Reach.

(** ** Ordering and the status lifecycle *)

Section Sequences.
Context `{IdGen}.

(** C30 (safety, ordering): two requests on [/orders/:orderId] naming
    different orders commute.  Served in either order they leave the
    same arrays, and each observes the same response and connection
    fate as when served alone: the handlers reach an order only through
    [find] on its id and never write an id. *)
Theorem order_requests_commute s hr1 hr2 orderId1 orderId2 :
  hr_target hr1 = TOrder orderId1 -> hr_target hr2 = TOrder orderId2 -> orderId1 <> orderId2 ->
  st_dishes (fst (serve_all s [hr1; hr2])) = st_dishes (fst (serve_all s [hr2; hr1])) /\
  st_orders (fst (serve_all s [hr1; hr2])) = st_orders (fst (serve_all s [hr2; hr1])) /\
  snd (serve_all s [hr1; hr2]) = [snd (serve s hr1); snd (serve s hr2)] /\
  snd (serve_all s [hr2; hr1]) = [snd (serve s hr2); snd (serve s hr1)].
Proof.
  intros H1 H2 Hne.
  destruct (serve_item_access s hr1 _ H1) as (D1 & O1 & R1).
  destruct (serve_item_access s hr2 _ H2) as (D2 & O2 & R2).
  destruct (serve_item_access (fst (serve s hr1)) hr2 _ H2) as (D12 & O12 & R12).
  destruct (serve_item_access (fst (serve s hr2)) hr1 _ H1) as (D21 & O21 & R21).
  cbn [serve_all fst snd]. split; [congruence|]. split; [|split].
  - rewrite O12, O21, O1, O2. apply by_key_comm; [congruence|apply item_effect_keeps..].
  - rewrite R12, R2. f_equal. f_equal. apply order_item_spec_outcome. cbn [req_param spec_req].
    rewrite O1. apply find_key_by_key_other; [congruence|apply item_effect_keeps].
  - rewrite R21, R1. f_equal. f_equal. apply order_item_spec_outcome. cbn [req_param spec_req].
    rewrite O2. apply find_key_by_key_other; [exact Hne|apply item_effect_keeps].
Qed.

(** C31 (safety, state machine): in a repository with unique order
    ids, a request that changes the status of the order [GET] would
    return is a [PUT] on that order, and the new status is one of
    pending, preparing, out-for-delivery and delivered. *)
Theorem status_changes_only_by_valid_put s hr orderId status status' :
  NoDup (map order_id (st_orders s)) ->
  status_of orderId s = Some status ->
  status_of orderId (fst (serve s hr)) = Some status' ->
  status' <> status ->
  hr_target hr = TOrder orderId /\ hr_method hr = PUT /\ OC.valid_status status' = true.
Proof.
  unfold status_of. intros Hn Hst Hst' Hs.
  destruct (find_key _ _ (st_orders s)) as [o|] eqn:Ho; [|discriminate]. injection Hst as <-.
  destruct (find_key _ _ (st_orders (fst (serve s hr)))) as [o'|] eqn:Ho'; [|discriminate].
  injection Hst' as <-.
  destruct (decide (hr_target hr = TOrder orderId)) as [Ht|Ht].
  - destruct (serve_item_access s hr orderId Ht) as (_ & Hor & _). rewrite Hor in Ho'.
    destruct (item_effect (spec_req hr orderId) o) as [y|] eqn:Hy.
    + rewrite (find_key_by_key_found _ _ _ _ _ _ (item_effect_keeps _) Ho Hy) in Ho'.
      injection Ho' as <-. destruct (item_effect_status _ _ _ Hy Hs) as [Hm Hv]. auto.
    + rewrite (find_key_by_key_removed _ _ _ _ _ Hn Ho Hy) in Ho'. discriminate.
  - destruct (hr_target hr) as [| | |k|] eqn:Ht';
      [..|destruct (serve_item_access s hr k Ht') as (_ & Hor & _);
          rewrite Hor, find_key_by_key_other in Ho' by (congruence || apply item_effect_keeps);
          congruence|];
      destruct (orders_only_appended s hr) as (m & Hm); try (intros k; rewrite Ht'; discriminate);
      rewrite Hm, (find_key_app _ _ _ _ _ Ho) in Ho'; congruence.
Qed.

(** C32 (safety, state machine): the status of an existing order can be
    set to any of the four values from any status, backwards included:
    [PUT /orders/:orderId] with a valid body moves a delivered order
    back to pending, from where [DELETE] is allowed again. *)
Theorem status_any_to_any s orderId o status :
  find_key order_id orderId (st_orders s) = Some o -> OC.valid_status status = true ->
  status_of orderId (fst (serve s (put_order orderId status))) = Some status.
Proof.
  intros Ho Hv. unfold status_of.
  destruct (serve_item_access s (put_order orderId status) orderId eq_refl) as (_ & Hor & _).
  assert (Hc : OS.check_status (JObj [("data", order_data status)]) = Ok status).
  { assert (Hb : body_field (JObj [("data", order_data status)]) "status" = Ok status) by reflexivity.
    unfold OS.check_status. rewrite Hb. cbn -[truthy OC.valid_status].
    rewrite (valid_status_truthy _ Hv), Hv. reflexivity. }
  rewrite Hor, (find_key_by_key_found _ _ _ _ o
    (Order (order_id o) (JStr "Morty") (JStr "556") status (JArr [line_item (JInt 2)]))
    (item_effect_keeps _) Ho); [reflexivity|].
  unfold item_effect. cbn [req_line spec_req rl_method put_order hr_method req_body req_param].
  change (hr_body (put_order orderId status)) with (JObj [("data", order_data status)]).
  rewrite Hc. reflexivity.
Qed.
End Sequences.

(** ** Witnesses *)

Definition order_2 : order :=
  Order "2" (JStr "Beth") (JStr "557") (JStr "pending") (JArr [line_item (JInt 3)]).

Definition two_orders : st := St [] [order_1; order_2] no_locals JUndefined.

Definition delete_order_2 : http_request := HttpReq DELETE "/orders/2" (TOrder "2") (JObj []).

(** An order that has been delivered. *)
Definition delivered_store : st :=
  St [] [Order "1" (JStr "Rick") (JStr "555") (JStr "delivered") (JArr [line_item (JInt 1)])]
     no_locals JUndefined.

Lemma order_requests_commute_witness :
  hr_target (put_order "1" (JStr "delivered")) = TOrder "1" /\ hr_target delete_order_2 = TOrder "2" /\
  "1"%string <> "2"%string /\
  st_dishes (fst (serve_all two_orders [put_order "1" (JStr "delivered"); delete_order_2])) =
  st_dishes (fst (serve_all two_orders [delete_order_2; put_order "1" (JStr "delivered")])) /\
  st_orders (fst (serve_all two_orders [put_order "1" (JStr "delivered"); delete_order_2])) =
  st_orders (fst (serve_all two_orders [delete_order_2; put_order "1" (JStr "delivered")])) /\
  snd (serve_all two_orders [put_order "1" (JStr "delivered"); delete_order_2]) =
  [snd (serve two_orders (put_order "1" (JStr "delivered"))); snd (serve two_orders delete_order_2)] /\
  snd (serve_all two_orders [delete_order_2; put_order "1" (JStr "delivered")]) =
  [snd (serve two_orders delete_order_2); snd (serve two_orders (put_order "1" (JStr "delivered")))].
Proof.
  assert (Hne : "1"%string <> "2"%string) by discriminate.
  split; [reflexivity|]. split; [reflexivity|]. split; [exact Hne|].
  exact (order_requests_commute two_orders (put_order "1" (JStr "delivered")) delete_order_2 "1" "2"
           eq_refl eq_refl Hne).
Defined.

Lemma status_changes_only_by_valid_put_witness :
  NoDup (map order_id (st_orders order_store)) /\
  status_of "1" order_store = Some (JStr "pending") /\
  status_of "1" (fst (serve order_store (put_order "1" (JStr "delivered")))) = Some (JStr "delivered") /\
  JStr "delivered" <> JStr "pending" /\
  (hr_target (put_order "1" (JStr "delivered")) = TOrder "1" /\
   hr_method (put_order "1" (JStr "delivered")) = PUT /\
   OC.valid_status (JStr "delivered") = true).
Proof.
  assert (Hn : NoDup (map order_id (st_orders order_store))) by apply NoDup_singleton.
  assert (Ho : status_of "1" order_store = Some (JStr "pending")) by reflexivity.
  assert (Ho' : status_of "1" (fst (serve order_store (put_order "1" (JStr "delivered")))) =
    Some (JStr "delivered")) by (vm_compute; reflexivity).
  assert (Hs : JStr "delivered" <> JStr "pending") by discriminate.
  split; [exact Hn|]. split; [exact Ho|]. split; [exact Ho'|]. split; [exact Hs|].
  exact (status_changes_only_by_valid_put _ _ _ _ _ Hn Ho Ho' Hs).
Defined.

Lemma status_any_to_any_witness :
  find_key order_id "1" (st_orders delivered_store) =
    Some (Order "1" (JStr "Rick") (JStr "555") (JStr "delivered") (JArr [line_item (JInt 1)])) /\
  OC.valid_status (JStr "pending") = true /\
  status_of "1" (fst (serve delivered_store (put_order "1" (JStr "pending")))) = Some (JStr "pending").
Proof.
  split; [reflexivity|]. split; [reflexivity|].
  apply (status_any_to_any delivered_store "1"
           (Order "1" (JStr "Rick") (JStr "555") (JStr "delivered") (JArr [line_item (JInt 1)])));
    reflexivity.
Defined.
