(* ===== verification/Routing.v ===== *)
(** * From a URL to a route: Express's path matching

    [serve] takes a request whose route is already known ([target]).
    This file computes it from the URL as Express 4 does, and proves
    that the targets are exactly what the URLs of the API reach:

    - [parseurl_pathname]: [parseurl]'s fast path (a URL starting with
      [/] without whitespace, [#] or U+00A0), the path before [?];
    - [trim_prefix]: the mount [app.use("/orders", router)], whose
      regexp [^\/orders\/?(?=\/|$)] is case-insensitive, and the path
      the router then sees;
    - [path_match]: the routes [router.route("/:orderId")] (regexp
      [^\/(?:([^\/]+?))\/?$]) and [router.route("/")] ([^\/?$]);
    - [decodeURIComponent] and [decode_param]: the parameter's
      percent-decoding, whose [URIError] Express turns into a 400
      ("Failed to decode param") that skips every later route;
    - [router_handle]: the router's loop, the first route that matches;
    - [app_handle] and [serve_url]: the two mounts, then [notFound].

    [serve_url_target] shows that the request type of [App] is adequate:
    the URL of every target reaches that target.  Nothing here depends
    on the controllers; the file justifies taking requests with their
    route already resolved.

    Strings are byte strings: an ASCII character is itself, a decoded
    parameter is its UTF-8 encoding, and a byte of the URL above 127 is
    the Latin-1 character Node reads it as.  [decode_encode] proves
    that decoding inverts [encodeURIComponent] on every well-formed
    UTF-8 string ([utf8_valid]), by induction on its length. *)

From S2P Require Import Prelude Json Express Store Dishes Orders App.
From Stdlib Require Import Ascii.

Local Open Scope Z_scope.

(** ** Characters *)

Definition code (c : ascii) : Z := Z.of_nat (nat_of_ascii c).

Definition byte (b : Z) : ascii := ascii_of_nat (Z.to_nat b).

Fixpoint str_forall (p : ascii -> bool) (s : string) : bool :=
  match s with EmptyString => true | String c s' => p c && str_forall p s' end.

(** ** [parseurl] *)

(** The characters that send [parseurl] to the slow [url.parse]. *)
Definition parseurl_special (c : ascii) : bool :=
  bool_decide (code c ∈ [9; 10; 12; 13; 32; 35; 160]).

(** The pathname: everything before the first [?]. *)
Fixpoint path_part (s : string) : string :=
  match s with
  | EmptyString => EmptyString
  | String c s' => if bool_decide (c = "?"%char) then EmptyString else String c (path_part s')
  end.

(** [fastparse]: [None] where [parseurl] falls back to [url.parse]. *)
Definition parseurl_pathname (url : string) : option string :=
  match url with
  | String c _ =>
      if bool_decide (c = "/"%char) && str_forall (fun c => negb (parseurl_special c)) url
      then Some (path_part url) else None
  | EmptyString => None
  end.

(** ** The mount *)

(** The [i] flag: a non-Unicode regexp folds ASCII letters only. *)
Definition lower (c : ascii) : ascii :=
  let n := nat_of_ascii c in
  if (65 <=? n)%nat && (n <=? 90)%nat then ascii_of_nat (n + 32) else c.

Fixpoint strip_prefix_ci (pre s : string) : option string :=
  match pre, s with
  | EmptyString, _ => Some s
  | String a pre', String b s' => if bool_decide (lower a = lower b) then strip_prefix_ci pre' s' else None
  | String _ _, EmptyString => None
  end.

(** [Layer.match] of [^\/orders\/?(?=\/|$)] and [trim_prefix]: the
    matched part is removed and a [/] put back in front if needed. *)
Definition trim_prefix (mountpath path : string) : option string :=
  match strip_prefix_ci mountpath path with
  | Some EmptyString => Some "/"
  | Some (String c r as rest) =>
      if bool_decide (c = "/"%char) then
        match r with
        | String c' _ => if bool_decide (c' = "/"%char) then Some r else Some rest
        | EmptyString => Some rest
        end
      else None
  | None => None
  end.

(** ** The routes of a router *)

(** [router.route("/:param")] and [router.route("/")]. *)
Inductive route_path := RParam | RRoot.

Fixpoint drop_last_slash (x : string) : string :=
  match x with
  | EmptyString => EmptyString
  | String c EmptyString => if bool_decide (c = "/"%char) then EmptyString else x
  | String c x' => String c (drop_last_slash x')
  end.

(** [^\/(?:([^\/]+?))\/?$]: the raw parameter. *)
Definition param_segment (p : string) : option string :=
  match p with
  | String c x =>
      let y := drop_last_slash x in
      if bool_decide (c = "/"%char) && negb (String.eqb y "") &&
         str_forall (fun c => negb (bool_decide (c = "/"%char))) y
      then Some y else None
  | EmptyString => None
  end.

(** A route's regexp: [None] when it does not match, [Some None] for
    [/], [Some (Some raw)] with the raw parameter for [/:param]. *)
Definition path_match (rp : route_path) (p : string) : option (option string) :=
  match rp with
  | RParam => Some <$> param_segment p
  | RRoot => if String.eqb p "" || String.eqb p "/" then Some None else None
  end.

(** ** [decodeURIComponent] (ECMA-262, Decode with an empty reserved set) *)

Definition hex_val (c : ascii) : option Z :=
  let n := code c in
  if (48 <=? n) && (n <=? 57) then Some (n - 48)
  else if (65 <=? n) && (n <=? 70) then Some (n - 55)
  else if (97 <=? n) && (n <=? 102) then Some (n - 87)
  else None.

(** A character of the string, or an escape [%XY] with its byte. *)
Inductive pct_tok := PRaw (c : ascii) | PByte (b : Z).

(** A [%] not followed by two hex digits is a [URIError]. *)
Fixpoint pct_tokens (s : string) : option (list pct_tok) :=
  match s with
  | EmptyString => Some []
  | String c rest =>
      if bool_decide (c = "%"%char) then
        match rest with
        | String h1 (String h2 rest') =>
            match hex_val h1, hex_val h2 with
            | Some d1, Some d2 => cons (PByte (16 * d1 + d2)) <$> pct_tokens rest'
            | _, _ => None
            end
        | _ => None
        end
      else cons (PRaw c) <$> pct_tokens rest
  end.

(** A continuation byte [10xxxxxx]. *)
Definition is_cont (b : Z) : bool := Z.land b 0xC0 =? 0x80.

Definition cont_bits (b : Z) : Z := Z.land b 0x3F.

(** The well-formedness of a UTF-8 sequence of 2, 3 or 4 bytes: the
    continuation bytes are [10xxxxxx] and the code point has that length
    (no overlong form), is not a surrogate and is at most U+10FFFF. *)
Definition utf8_ok2 (b1 b2 : Z) : bool :=
  is_cont b2 && (0x80 <=? Z.lor (Z.shiftl (Z.land b1 0x1F) 6) (cont_bits b2)).

Definition utf8_ok3 (b1 b2 b3 : Z) : bool :=
  let cp := Z.lor (Z.shiftl (Z.land b1 0x0F) 12) (Z.lor (Z.shiftl (cont_bits b2) 6) (cont_bits b3)) in
  is_cont b2 && is_cont b3 && (0x800 <=? cp) && negb ((0xD800 <=? cp) && (cp <=? 0xDFFF)).

Definition utf8_ok4 (b1 b2 b3 b4 : Z) : bool :=
  let cp := Z.lor (Z.shiftl (Z.land b1 0x07) 18)
              (Z.lor (Z.shiftl (cont_bits b2) 12) (Z.lor (Z.shiftl (cont_bits b3) 6) (cont_bits b4))) in
  is_cont b2 && is_cont b3 && is_cont b4 && (0x10000 <=? cp) && (cp <=? 0x10FFFF).

(** The escapes of one character: a lead byte with [n] leading ones
    ([n] = 2, 3, 4) and [n - 1] continuation bytes that are well formed;
    anything else is a [URIError].  A character of the URL is Latin-1:
    above 127 it is two bytes of UTF-8. *)
Fixpoint utf8_decode (ts : list pct_tok) : option string :=
  match ts with
  | [] => Some EmptyString
  | PRaw c :: ts' =>
      let n := code c in
      if n <? 128 then String c <$> utf8_decode ts'
      else String (byte (0xC0 + Z.shiftr n 6)) ∘ String (byte (0x80 + cont_bits n)) <$> utf8_decode ts'
  | PByte b1 :: ts' =>
      if b1 <? 0x80 then String (byte b1) <$> utf8_decode ts'
      else if b1 <? 0xC0 then None
      else if b1 <? 0xE0 then
        match ts' with
        | PByte b2 :: ts'' =>
            if utf8_ok2 b1 b2 then String (byte b1) ∘ String (byte b2) <$> utf8_decode ts'' else None
        | _ => None
        end
      else if b1 <? 0xF0 then
        match ts' with
        | PByte b2 :: PByte b3 :: ts'' =>
            if utf8_ok3 b1 b2 b3
            then String (byte b1) ∘ String (byte b2) ∘ String (byte b3) <$> utf8_decode ts''
            else None
        | _ => None
        end
      else if b1 <? 0xF8 then
        match ts' with
        | PByte b2 :: PByte b3 :: PByte b4 :: ts'' =>
            if utf8_ok4 b1 b2 b3 b4
            then String (byte b1) ∘ String (byte b2) ∘ String (byte b3) ∘ String (byte b4)
                   <$> utf8_decode ts''
            else None
        | _ => None
        end
      else None
  end.

Definition decodeURIComponent (s : string) : option string :=
  pct_tokens s ≫= utf8_decode.

(** Express's [decode_param]: the empty string is kept as it is. *)
Definition decode_param (raw : string) : option string :=
  if String.eqb raw "" then Some raw else decodeURIComponent raw.

(** ** [encodeURIComponent], the inverse on ASCII *)

(** The characters [encodeURIComponent] keeps: letters, digits and
    [- _ . ! ~ * ' ( )]. *)
Definition uri_unreserved (c : ascii) : bool :=
  let n := code c in
  ((48 <=? n) && (n <=? 57)) || ((65 <=? n) && (n <=? 90)) || ((97 <=? n) && (n <=? 122)) ||
  bool_decide (n ∈ [45; 95; 46; 33; 126; 42; 39; 40; 41]).

(** An upper-case hex digit. *)
Definition hex_digit (d : Z) : ascii := byte (if d <? 10 then 48 + d else 55 + d).

Definition encode_char (c : ascii) : string :=
  if uri_unreserved c then String c EmptyString
  else String "%" (String (hex_digit (code c / 16)) (String (hex_digit (code c mod 16)) EmptyString)).

Fixpoint encodeURIComponent (s : string) : string :=
  match s with EmptyString => EmptyString | String c s' => encode_char c ++ encodeURIComponent s' end.

(** ** The router and the application *)

Inductive route_hit := HitParam (value : string) | HitRoot.

Inductive route_result :=
| RHit (h : route_hit)
| RDecodeError (raw : string)  (** [layerError]: every later route is skipped *)
| RNoMatch.                    (** the router's [done()] *)

(** [Router.handle]: the first route whose regexp matches the path. *)
Fixpoint router_handle (routes : list route_path) (p : string) : route_result :=
  match routes with
  | [] => RNoMatch
  | rp :: routes' =>
      match path_match rp p with
      | None => router_handle routes' p
      | Some None => RHit HitRoot
      | Some (Some raw) =>
          match decode_param raw with
          | Some v => RHit (HitParam v)
          | None => RDecodeError raw
          end
      end
  end.

(** [orders.router.js]: [router.route("/:orderId")], then
    [router.route("/")]. *)
Definition orders_routes : list route_path := [RParam; RRoot].

(** The dishes router (from the spec): the same two routes. *)
Definition dishes_routes : list route_path := [RParam; RRoot].

(** What a URL reaches: a route with its decoded parameter, or the
    400 of a parameter that does not decode. *)
Inductive url_match := UTarget (t : target) | UBadParam (raw : string).

(** A router mounted at [mountpath]: [None] when the mount does not
    match or no route of the router does. *)
Definition mount (mountpath : string) (routes : list route_path) (item : string -> target)
    (collection : target) (p : string) : option url_match :=
  q ← trim_prefix mountpath p;
  match router_handle routes q with
  | RHit (HitParam v) => Some (UTarget (item v))
  | RHit HitRoot => Some (UTarget collection)
  | RDecodeError raw => Some (UBadParam raw)
  | RNoMatch => None
  end.

(** The application's stack: [/dishes], [/orders], then [notFound]. *)
Definition app_handle (p : string) : url_match :=
  match mount "/dishes" dishes_routes TDish TDishes p with
  | Some m => m
  | None =>
      match mount "/orders" orders_routes TOrder TOrders p with
      | Some m => m
      | None => UTarget TNone
      end
  end.

(** A request given by its URL: [None] for a URL [parseurl] hands to
    [url.parse], which is not modelled. *)
Definition serve_url `{IdGen} (s : st) (m : method) (url : string) (body : jsval) : option (st * outcome) :=
  p ← parseurl_pathname url;
  Some (match app_handle p with
        | UTarget t => serve s (HttpReq m url t body)
        | UBadParam raw =>
            (fresh_locals s, Outcome (Some (RError 400 (ErrHttp 400 (MsgDecodeParam raw)))) false)
        end).

(** ** The URLs of the targets *)

(** A 7-bit character. *)
Definition ascii7 (c : ascii) : bool := code c <? 128.

(** A byte string that is well-formed UTF-8, checked as the decoder
    checks escapes: the byte strings of the JavaScript strings without
    lone surrogates. *)
Fixpoint utf8_valid (s : string) : bool :=
  match s with
  | EmptyString => true
  | String c1 s1 =>
      let b1 := code c1 in
      if b1 <? 0x80 then utf8_valid s1
      else if b1 <? 0xC0 then false
      else if b1 <? 0xE0 then
        match s1 with String c2 s2 => utf8_ok2 b1 (code c2) && utf8_valid s2 | _ => false end
      else if b1 <? 0xF0 then
        match s1 with
        | String c2 (String c3 s3) => utf8_ok3 b1 (code c2) (code c3) && utf8_valid s3
        | _ => false
        end
      else if b1 <? 0xF8 then
        match s1 with
        | String c2 (String c3 (String c4 s4)) =>
            utf8_ok4 b1 (code c2) (code c3) (code c4) && utf8_valid s4
        | _ => false
        end
      else false
  end.

(** An id the theorems speak of: not empty and well-formed UTF-8 (the
    ids [nextId] makes are hexadecimal, and so are). *)
Definition id_ok (id : string) : bool := negb (String.eqb id "") && utf8_valid id.

Definition target_ok (t : target) : bool :=
  match t with TDish id | TOrder id => id_ok id | _ => true end.

(** The URL of a target, its id encoded as a client does with
    [encodeURIComponent]. *)
Definition target_path (t : target) : string :=
  match t with
  | TDishes => "/dishes"
  | TDish dishId => "/dishes/" ++ encodeURIComponent dishId
  | TOrders => "/orders"
  | TOrder orderId => "/orders/" ++ encodeURIComponent orderId
  | TNone => "/"
  end.

(** A character of a path segment that keeps [parseurl] on its fast
    path and stays in one segment. *)
Definition seg_char (c : ascii) : bool :=
  negb (bool_decide (c = "/"%char) || bool_decide (c = "?"%char) || parseurl_special c).

(** ** Lemmas on characters, by evaluation over the 256 of them *)

Section Chars.

Definition enc_tok (c : ascii) : pct_tok := if uri_unreserved c then PRaw c else PByte (code c).

Fixpoint enc_toks (s : string) : list pct_tok :=
  match s with EmptyString => [] | String c s' => enc_tok c :: enc_toks s' end.

Lemma encode_char_tokens c rest :
  pct_tokens (encode_char c ++ rest) = cons (enc_tok c) <$> pct_tokens rest.
Proof. destruct c as [[] [] [] [] [] [] [] []]; reflexivity. Qed.

Lemma enc_tok_decode c ts :
  ascii7 c = true -> utf8_decode (enc_tok c :: ts) = String c <$> utf8_decode ts.
Proof. destruct c as [[] [] [] [] [] [] [] []]; try discriminate; reflexivity. Qed.

Lemma enc_tok_high c : (code c <? 128) = false -> enc_tok c = PByte (code c).
Proof. destruct c as [[] [] [] [] [] [] [] []]; try discriminate; reflexivity. Qed.

Lemma cont_high c : is_cont (code c) = true -> (code c <? 128) = false.
Proof. destruct c as [[] [] [] [] [] [] [] []]; try discriminate; reflexivity. Qed.

Lemma byte_code c : byte (code c) = c.
Proof. unfold byte, code. rewrite Nat2Z.id. apply ascii_nat_embedding. Qed.

Lemma encode_char_seg c : str_forall seg_char (encode_char c) = true.
Proof. destruct c as [[] [] [] [] [] [] [] []]; reflexivity. Qed.

Lemma encode_char_not_empty c : String.eqb (encode_char c) "" = false.
Proof. destruct c as [[] [] [] [] [] [] [] []]; reflexivity. Qed.
End Chars.

(** ** Lemmas on strings *)

Section Strings.

Lemma str_forall_app p s1 s2 : str_forall p (s1 ++ s2) = str_forall p s1 && str_forall p s2.
Proof. induction s1 as [|c s1 IH]; simpl; [reflexivity|]. rewrite IH. apply andb_assoc. Qed.

Lemma encode_seg s : str_forall seg_char (encodeURIComponent s) = true.
Proof.
  induction s as [|c s IH]; [reflexivity|]. cbn [encodeURIComponent].
  rewrite str_forall_app, encode_char_seg, IH. reflexivity.
Qed.

Lemma encode_not_empty s : String.eqb s "" = false -> String.eqb (encodeURIComponent s) "" = false.
Proof.
  destruct s as [|c s]; [discriminate|]. intros _. cbn.
  pose proof (encode_char_not_empty c) as E. destruct (encode_char c); [discriminate|reflexivity].
Qed.

(** The bytes of a well-formed sequence are escaped by [encodeURIComponent]. *)
Lemma ok2_toks b1 c2 : utf8_ok2 b1 (code c2) = true -> enc_tok c2 = PByte (code c2).
Proof. unfold utf8_ok2. intros Hk. apply andb_prop in Hk as [Hc _]. apply enc_tok_high, cont_high, Hc. Qed.

Lemma ok3_toks b1 c2 c3 :
  utf8_ok3 b1 (code c2) (code c3) = true -> enc_tok c2 = PByte (code c2) /\ enc_tok c3 = PByte (code c3).
Proof.
  unfold utf8_ok3. intros Hk. apply andb_prop in Hk as [Hk _]. apply andb_prop in Hk as [Hk _].
  apply andb_prop in Hk as [H2 H3]. split; apply enc_tok_high, cont_high; assumption.
Qed.

Lemma ok4_toks b1 c2 c3 c4 :
  utf8_ok4 b1 (code c2) (code c3) (code c4) = true ->
  enc_tok c2 = PByte (code c2) /\ enc_tok c3 = PByte (code c3) /\ enc_tok c4 = PByte (code c4).
Proof.
  unfold utf8_ok4. intros Hk. do 2 (apply andb_prop in Hk as [Hk _]).
  apply andb_prop in Hk as [Hk H4]. apply andb_prop in Hk as [H2 H3].
  split; [|split]; apply enc_tok_high, cont_high; assumption.
Qed.

Lemma pct_tokens_encode s : pct_tokens (encodeURIComponent s) = Some (enc_toks s).
Proof.
  induction s as [|c s IH]; [reflexivity|]. cbn [encodeURIComponent].
  rewrite encode_char_tokens, IH. reflexivity.
Qed.

(** Decoding inverts encoding on well-formed UTF-8, by induction on the
    length: a character consumes one to four bytes. *)
Lemma decode_encode s : utf8_valid s = true -> decodeURIComponent (encodeURIComponent s) = Some s.
Proof.
  unfold decodeURIComponent. rewrite pct_tokens_encode.
  change (Some (enc_toks s) ≫= utf8_decode) with (utf8_decode (enc_toks s)).
  remember (String.length s) as n eqn:Hn. revert s Hn.
  induction n as [n IH] using lt_wf_ind. intros s -> Hv.
  assert (IH' : forall s', (String.length s' < String.length s)%nat -> utf8_valid s' = true ->
                  utf8_decode (enc_toks s') = Some s') by (intros s' Hl; exact (IH _ Hl s' eq_refl)).
  clear IH. destruct s as [|c1 s1]; [reflexivity|].
  cbn [utf8_valid] in Hv. cbn [enc_toks].
  destruct (code c1 <? 0x80) eqn:E1.
  { rewrite (enc_tok_decode c1 _ E1), (IH' s1 ltac:(cbn; lia) Hv). reflexivity. }
  rewrite (enc_tok_high c1 E1). cbn [utf8_decode]. rewrite E1.
  destruct (code c1 <? 0xC0); [discriminate|].
  destruct (code c1 <? 0xE0).
  { destruct s1 as [|c2 s2]; [discriminate|]. apply andb_prop in Hv as [Hk Hv].
    cbn [enc_toks]. rewrite (ok2_toks _ _ Hk), Hk.
    rewrite (IH' s2 ltac:(cbn; lia) Hv). cbn. rewrite !byte_code. reflexivity. }
  destruct (code c1 <? 0xF0).
  { destruct s1 as [|c2 [|c3 s3]]; try discriminate. apply andb_prop in Hv as [Hk Hv].
    destruct (ok3_toks _ _ _ Hk) as [T2 T3]. cbn [enc_toks]. rewrite T2, T3, Hk.
    rewrite (IH' s3 ltac:(cbn; lia) Hv). cbn. rewrite !byte_code. reflexivity. }
  destruct (code c1 <? 0xF8); [|discriminate].
  destruct s1 as [|c2 [|c3 [|c4 s4]]]; try discriminate. apply andb_prop in Hv as [Hk Hv].
  destruct (ok4_toks _ _ _ _ Hk) as (T2 & T3 & T4). cbn [enc_toks]. rewrite T2, T3, T4, Hk.
  rewrite (IH' s4 ltac:(cbn; lia) Hv). cbn. rewrite !byte_code. reflexivity.
Qed.

Lemma seg_no_slash s : str_forall seg_char s = true ->
  str_forall (fun c => negb (bool_decide (c = "/"%char))) s = true.
Proof.
  induction s as [|c s IH]; [reflexivity|]. cbn. intros Hs. apply andb_prop in Hs as [Hc Hs].
  rewrite (IH Hs), andb_true_r. unfold seg_char in Hc. destruct (bool_decide (c = "/"%char)); [discriminate|reflexivity].
Qed.

Lemma seg_not_special s : str_forall seg_char s = true ->
  str_forall (fun c => negb (parseurl_special c)) s = true.
Proof.
  induction s as [|c s IH]; [reflexivity|]. cbn. intros Hs. apply andb_prop in Hs as [Hc Hs].
  rewrite (IH Hs), andb_true_r. unfold seg_char in Hc. destruct (parseurl_special c); [|reflexivity].
  rewrite !orb_true_r in Hc. discriminate.
Qed.

Lemma seg_path_part s : str_forall seg_char s = true -> path_part s = s.
Proof.
  induction s as [|c s IH]; [reflexivity|]. cbn. intros Hs. apply andb_prop in Hs as [Hc Hs].
  unfold seg_char in Hc. destruct (bool_decide (c = "?"%char)); [rewrite orb_true_r in Hc; discriminate|].
  rewrite (IH Hs). reflexivity.
Qed.

Lemma seg_drop_last_slash s : str_forall seg_char s = true -> drop_last_slash s = s.
Proof.
  induction s as [|c s IH]; [reflexivity|]. cbn. intros Hs. apply andb_prop in Hs as [Hc Hs].
  unfold seg_char in Hc. destruct s as [|c' s'].
  - destruct (bool_decide (c = "/"%char)); [discriminate|reflexivity].
  - rewrite (IH Hs). reflexivity.
Qed.

Lemma seg_drop_last_slash_snoc s : str_forall seg_char s = true -> drop_last_slash (s ++ "/") = s.
Proof.
  induction s as [|c s IH]; [reflexivity|]. intros Hs. cbn [str_forall] in Hs.
  apply andb_prop in Hs as [Hc Hs].
  change (String.append (String c s) "/") with (String c (String.append s "/")).
  destruct s as [|c' s']; [reflexivity|].
  change (String.append (String c' s') "/") with (String c' (String.append s' "/")). cbn [drop_last_slash].
  f_equal. exact (IH Hs).
Qed.
End Strings.

(** ** Lemmas on the mounts and the routes *)

Section Paths.

Definition first_not_slash (x : string) : bool :=
  match x with String c _ => negb (bool_decide (c = "/"%char)) | EmptyString => false end.

Lemma lower_refl_strip pre : strip_prefix_ci pre pre = Some "".
Proof. induction pre as [|a pre IH]; [reflexivity|]. cbn. rewrite bool_decide_eq_true_2 by reflexivity. exact IH. Qed.

Lemma strip_prefix_ci_app pre v r :
  strip_prefix_ci pre v = Some "" -> strip_prefix_ci pre (String.append v r) = Some r.
Proof.
  revert v. induction pre as [|a pre IH]; intros v Hv.
  - cbn in Hv. injection Hv as ->. reflexivity.
  - destruct v as [|b v]; [discriminate|]. simpl in Hv |- *.
    destruct (bool_decide (lower a = lower b)); [exact (IH v Hv)|discriminate].
Qed.

Lemma seg_first_not_slash e :
  str_forall seg_char e = true -> String.eqb e "" = false -> first_not_slash e = true.
Proof.
  destruct e as [|c e]; [discriminate|]. cbn. intros Hs _. apply andb_prop in Hs as [Hc _].
  unfold seg_char in Hc. destruct (bool_decide (c = "/"%char)); [discriminate|reflexivity].
Qed.

(** The mount removes its path and the slash stays in front. *)
Lemma trim_prefix_seg pre v x :
  strip_prefix_ci pre v = Some "" -> first_not_slash x = true ->
  trim_prefix pre (String.append v (String "/" x)) = Some (String "/" x).
Proof.
  intros Hv Hx. unfold trim_prefix. rewrite (strip_prefix_ci_app _ _ _ Hv).
  rewrite bool_decide_eq_true_2 by reflexivity.
  destruct x as [|c x]; [discriminate|]. cbn in Hx.
  destruct (bool_decide (c = "/"%char)); [discriminate|reflexivity].
Qed.

Lemma param_segment_seg e :
  str_forall seg_char e = true -> String.eqb e "" = false -> param_segment (String "/" e) = Some e.
Proof.
  intros Hs Hne. unfold param_segment. rewrite (seg_drop_last_slash _ Hs), Hne, (seg_no_slash _ Hs).
  reflexivity.
Qed.

Lemma param_segment_seg_slash e :
  str_forall seg_char e = true -> String.eqb e "" = false ->
  param_segment (String "/" (String.append e "/")) = Some e.
Proof.
  intros Hs Hne. unfold param_segment. rewrite (seg_drop_last_slash_snoc _ Hs), Hne, (seg_no_slash _ Hs).
  reflexivity.
Qed.

(** The router of a [/:param] route followed by [/], on a path that
    is one segment. *)
Lemma router_param x e :
  param_segment x = Some e -> String.eqb e "" = false ->
  router_handle [RParam; RRoot] x =
  match decodeURIComponent e with Some v => RHit (HitParam v) | None => RDecodeError e end.
Proof.
  intros Hp Hne. cbn [router_handle path_match]. rewrite Hp. cbn.
  unfold decode_param. rewrite Hne. destruct (decodeURIComponent e); reflexivity.
Qed.

(** A case variant of [/orders] is not a variant of [/dishes]. *)
Lemma dishes_not_orders v r :
  strip_prefix_ci "/orders" v = Some "" -> strip_prefix_ci "/dishes" (String.append v r) = None.
Proof.
  intros Hv. destruct v as [|a [|b v]]; [discriminate|cbn in Hv; destruct (bool_decide _); discriminate|].
  simpl in Hv |- *. destruct (bool_decide (lower "/" = lower a)); [|discriminate].
  destruct (bool_decide (lower "o" = lower b)) eqn:Eb; [|discriminate].
  apply bool_decide_eq_true in Eb. rewrite <- Eb. reflexivity.
Qed.

(** What a one-segment path under a variant of [/orders] reaches. *)
Lemma app_handle_orders v x e :
  strip_prefix_ci "/orders" v = Some "" -> first_not_slash x = true ->
  param_segment (String "/" x) = Some e -> String.eqb e "" = false ->
  app_handle (String.append v (String "/" x)) =
  match decodeURIComponent e with Some id => UTarget (TOrder id) | None => UBadParam e end.
Proof.
  intros Hv Hx Hp Hne. unfold app_handle, mount, trim_prefix at 1, orders_routes.
  rewrite (dishes_not_orders _ _ Hv). cbn [mbind option_bind].
  rewrite (trim_prefix_seg _ _ _ Hv Hx). cbn [mbind option_bind].
  rewrite (router_param _ _ Hp Hne). destruct (decodeURIComponent e); reflexivity.
Qed.

Lemma app_handle_dishes x e :
  first_not_slash x = true -> param_segment (String "/" x) = Some e -> String.eqb e "" = false ->
  app_handle (String.append "/dishes" (String "/" x)) =
  match decodeURIComponent e with Some id => UTarget (TDish id) | None => UBadParam e end.
Proof.
  intros Hx Hp Hne. unfold app_handle, mount, dishes_routes.
  rewrite (trim_prefix_seg _ _ _ (lower_refl_strip "/dishes") Hx). cbn [mbind option_bind].
  rewrite (router_param _ _ Hp Hne). destruct (decodeURIComponent e); reflexivity.
Qed.

Lemma parseurl_seg pre e :
  str_forall seg_char pre = true -> str_forall seg_char e = true ->
  parseurl_pathname (String "/" (String.append pre (String "/" e))) = Some (String "/" (String.append pre (String "/" e))).
Proof.
  intros Hp He. unfold parseurl_pathname. rewrite bool_decide_eq_true_2 by reflexivity. cbn [andb str_forall].
  rewrite str_forall_app, (seg_not_special _ Hp). cbn [andb str_forall].
  rewrite (seg_not_special _ He). cbn [path_part].
  assert (Hpp : forall s r, str_forall seg_char s = true -> path_part (String.append s r) = String.append s (path_part r)).
  { induction s as [|c s IH]; intros r Hs; [reflexivity|]. simpl in Hs |- *. apply andb_prop in Hs as [Hc Hs].
    unfold seg_char in Hc. destruct (bool_decide (c = "?"%char)); [rewrite orb_true_r in Hc; discriminate|].
    rewrite (IH r Hs). reflexivity. }
  rewrite (Hpp pre _ Hp). cbn [path_part]. rewrite (seg_path_part _ He). reflexivity.
Qed.
End Paths.

(** ** What the URLs reach *)

Section Urls.
Context `{IdGen}.

(** The adequacy of [target]: the URL of every target, its id encoded
    as a client does with [encodeURIComponent], takes [parseurl]'s fast
    path and reaches that target through the mounts and the routers,
    with the id decoded back, so a request given by that URL is served
    as the request with that target. *)
Lemma serve_url_target s m t body :
  target_ok t = true ->
  serve_url s m (target_path t) body = Some (serve s (HttpReq m (target_path t) t body)).
Proof.
  intros Ht. unfold serve_url.
  assert (Hp : parseurl_pathname (target_path t) = Some (target_path t) /\ app_handle (target_path t) = UTarget t).
  { destruct t as [|id| |id|]; cbn [target_ok] in Ht; try (split; reflexivity);
      apply andb_prop in Ht as [Hne Ha]; apply negb_true_iff in Hne;
      pose proof (encode_seg id) as He; pose proof (encode_not_empty id Hne) as Hne'.
    - split; [exact (parseurl_seg "dishes" _ eq_refl He)|].
      change (target_path (TDish id)) with (String.append "/dishes" (String "/" (encodeURIComponent id))).
      rewrite (app_handle_dishes _ _ (seg_first_not_slash _ He Hne') (param_segment_seg _ He Hne') Hne').
      rewrite (decode_encode _ Ha). reflexivity.
    - split; [exact (parseurl_seg "orders" _ eq_refl He)|].
      change (target_path (TOrder id)) with (String.append "/orders" (String "/" (encodeURIComponent id))).
      rewrite (app_handle_orders _ _ _ (lower_refl_strip "/orders") (seg_first_not_slash _ He Hne')
                 (param_segment_seg _ He Hne') Hne').
      rewrite (decode_encode _ Ha). reflexivity. }
  destruct Hp as [Hp Ha]. rewrite Hp. cbn [mbind option_bind]. rewrite Ha. reflexivity.
Qed.
End Urls.
